(** * EOReader: band pipeline of the Sentinel-2, Sentinel-3 and RADARSAT-2
    products and the spectral index formulas, embedded in Rocq.

    Part I embeds the Python sources function by function:
    - [Py]: the fragment of Python, NumPy and lxml the sources rely on
      (exceptions, a state-and-exception monad, binary64 floats, [float()]
      and [int()] on strings, [Element.find]/[findtext]);
    - [index]: [eoreader/bands/index.py];
    - [rs2_product]: [eoreader/products/sar/rs2_product.py];
    - [s2_product]: [eoreader/products/optical/s2_product.py];
    - [s3_product]: [eoreader/products/optical/s3_product.py].
    Part II defines the terms the properties are stated in and the concrete
    products they are run on; Part III states and proves the properties. *)

From Stdlib Require Import Floats ZArith String Ascii List Bool Lia.
From stdpp Require Import base option list gmap strings pretty.
Import ListNotations.

Set Warnings "-inexact-float,-register-all".
#[local] Set Default Proof Using "Type".

(** * Part I. The embedding *)

(** ** Python, NumPy and lxml *)
Module Py.

(** The exceptions that the embedded functions raise or handle. The first
    two are EOReader's own ([eoreader.exceptions]), the others are builtins. *)
Inductive exception : Type :=
| InvalidProductError (msg : string)
| InvalidTypeError (msg : string)
| NotImplementedError (msg : string)
| AttributeError (msg : string)
| TypeError
| ValueError
| IndexError
| KeyError
| ZeroDivisionError
| AssertionError
| FileNotFoundError
| CRSError
| RasterioIOError.

(** Outcome of a call: a returned value or a raised exception. *)
Inductive result (A : Type) : Type :=
| Return (a : A)
| Raise (e : exception).
Arguments Return {A} a.
Arguments Raise {A} e.

Definition rbind {A B} (r : result A) (k : A -> result B) : result B :=
  match r with
  | Return a => k a
  | Raise e => Raise e
  end.

Inductive level : Type := DEBUG | INFO | WARNING | ERROR.

(** A record handed to [LOGGER]. *)
Record LogRecord : Type := mkLog { lvl : level; message : string }.

(** Accesses to the product's files, in the order they happen. *)
Inductive IoEvent : Type :=
| ReadXml (pattern : string)
| ReadVector (mask band : string)
| ReadRaster (what : string)
| ResolvePaths.

(** What a method call can observe and change: the log, the file accesses
    and the mutable attributes [obj] of [self]. *)
Record World (O : Type) : Type := mkWorld {
  log : list LogRecord;
  io : list IoEvent;
  obj : O
}.
Arguments mkWorld {O} log io obj.
Arguments log {O} w.
Arguments io {O} w.
Arguments obj {O} w.

(** Statements run in a world and leave a world behind, also when they
    raise: what was logged or stored before a [raise] stays. *)
Definition M (O A : Type) : Type := World O -> result A * World O.

Definition ret {O A} (a : A) : M O A := fun w => (Return a, w).

Definition raise {O A} (e : exception) : M O A := fun w => (Raise e, w).

Definition bind {O A B} (m : M O A) (k : A -> M O B) : M O B :=
  fun w =>
    match m w with
    | (Return a, w') => k a w'
    | (Raise e, w') => (Raise e, w')
    end.

Definition lift {O A} (r : result A) : M O A := fun w => (r, w).

(** [try: body except ...: handler]. [handler e] is [None] when no
    [except] clause matches [e], which then propagates. *)
Definition try_except {O A} (body : M O A)
    (handler : exception -> option (M O A)) : M O A :=
  fun w =>
    match body w with
    | (Return a, w') => (Return a, w')
    | (Raise e, w') =>
        match handler e with
        | Some h => h w'
        | None => (Raise e, w')
        end
    end.

Definition LOGGER_log {O} (l : level) (msg : string) : M O unit :=
  fun w => (Return tt, mkWorld (log w ++ [mkLog l msg]) (io w) (obj w)).

Definition LOGGER_warning {O} : string -> M O unit := LOGGER_log WARNING.
Definition LOGGER_debug {O} : string -> M O unit := LOGGER_log DEBUG.

Definition access {O} (ev : IoEvent) : M O unit :=
  fun w => (Return tt, mkWorld (log w) (io w ++ [ev]) (obj w)).

Definition get_obj {O} : M O O := fun w => (Return (obj w), w).

Definition set_obj {O} (o : O) : M O unit :=
  fun w => (Return tt, mkWorld (log w) (io w) o).

Definition is_InvalidProductError (e : exception) : bool :=
  match e with InvalidProductError _ => true | _ => false end.

Definition is_TypeError (e : exception) : bool :=
  match e with TypeError => true | _ => false end.

Definition is_AttributeError (e : exception) : bool :=
  match e with AttributeError _ => true | _ => false end.

(** The warnings among the records. *)
Definition is_warning (r : LogRecord) : bool :=
  match lvl r with WARNING => true | _ => false end.

Definition warnings (l : list LogRecord) : list LogRecord :=
  List.filter is_warning l.

End Py.

Export Py.

Declare Scope py_scope.
Delimit Scope py_scope with py.
Notation "x <- m ;; k" := (bind m (fun x => k))
  (at level 62, m at next level, right associativity) : py_scope.
Notation "m ;;; k" := (bind m (fun _ => k))
  (at level 62, right associativity) : py_scope.
Notation "x <~ r ;; k" := (rbind r (fun x => k))
  (at level 62, r at next level, right associativity) : py_scope.
Open Scope py_scope.

(** ** Builtins: [float()] and [int()] *)
Module builtins.

(** The binary64 number nearest to an integer. *)
Definition float_of_Z (z : Z) : float :=
  SF2Prim (binary_normalize prec emax z 0 false).

(** The ASCII characters [str.isspace] takes for white space. *)
Definition is_space (c : ascii) : bool :=
  let n := nat_of_ascii c in
  (Nat.eqb n 32 || (Nat.leb 9 n && Nat.leb n 13)
   || (Nat.leb 28 n && Nat.leb n 31))%bool.

Fixpoint lstrip (l : list ascii) : list ascii :=
  match l with
  | c :: l' => if is_space c then lstrip l' else l
  | [] => []
  end.

Definition strip (l : list ascii) : list ascii :=
  rev (lstrip (rev (lstrip l))).

Definition digit (c : ascii) : option Z :=
  let n := Z.of_nat (nat_of_ascii c) in
  if ((48 <=? n) && (n <=? 57))%Z%bool then Some (n - 48)%Z else None.

Definition is_digit (c : ascii) : bool :=
  match digit c with Some _ => true | None => false end.

(** Reads the longest run of decimal digits, in which one underscore may
    stand between two digits: the value accumulated on top of [acc], how
    many digits were read, and what is left. *)
Fixpoint digits (l : list ascii) (acc : Z) (n : nat) : Z * nat * list ascii :=
  match l with
  | c :: l' =>
      match digit c with
      | Some d => digits l' (10 * acc + d)%Z (S n)
      | None =>
          match n, l' with
          | S _, c' :: _ =>
              if (Ascii.eqb c "_" && is_digit c')%bool then digits l' acc n
              else (acc, n, l)
          | _, _ => (acc, n, l)
          end
      end
  | [] => (acc, n, [])
  end.

Definition sign (l : list ascii) : bool * list ascii :=
  match l with
  | "-"%char :: l' => (true, l')
  | "+"%char :: l' => (false, l')
  | _ => (false, l)
  end.

Definition lower (c : ascii) : ascii :=
  let n := nat_of_ascii c in
  if (Nat.leb 65 n && Nat.leb n 90)%bool then ascii_of_nat (n + 32) else c.

(** The exponent part [e[+-]ddd] that may end a decimal literal. *)
Definition exponent (l : list ascii) : option Z :=
  match l with
  | [] => Some 0%Z
  | c :: l' =>
      if Ascii.eqb (lower c) "e" then
        let (neg, l'') := sign l' in
        match digits l'' 0 0 with
        | (v, S _, []) => Some (if neg then (- v)%Z else v)
        | _ => None
        end
      else None
  end.

(** A decimal literal [ddd.ddd e±dd] as mantissa and power of ten. *)
Definition decimal (l : list ascii) : option (Z * Z) :=
  let '(i, ni, r1) := digits l 0 0 in
  let '(m, nf, r2) :=
    match r1 with
    | "."%char :: r => digits r i 0
    | _ => (i, 0, r1)
    end in
  if Nat.eqb (ni + nf) 0 then None
  else
    match exponent r2 with
    | Some e => Some (m, (e - Z.of_nat nf)%Z)
    | None => None
    end.

(** The binary64 number nearest to [m / d], for [0 <= m] and [0 < d]. The
    quotient is taken on integers, scaled by [2^s] so that it has more than
    59 bits, and what the integer division drops is kept as one more, odd,
    bit: no binary64 number and no midpoint of two of them lies between
    two scaled integers, so that rounding this to nearest even is rounding
    [m / d]. *)
Definition float_of_ratio (m d : Z) : float :=
  let s := Z.max 0 (60 + Z.log2 d - Z.log2 m) in
  let n := (m * 2 ^ s)%Z in
  let sticky := if (n mod d =? 0)%Z then 0%Z else 1%Z in
  SF2Prim (binary_normalize prec emax (2 * (n / d) + sticky) (- (s + 1)) false).

(** [m * 10^e] as a binary64 number, correctly rounded as CPython does. *)
Definition float_of_decimal (m e : Z) : float :=
  if (0 <=? e)%Z then float_of_Z (m * 10 ^ e)
  else float_of_ratio m (10 ^ (- e)).

Definition float_of_string (s : string) : option float :=
  let (neg, l) := sign (strip (list_ascii_of_string s)) in
  let signed (x : float) := if neg then (- x)%float else x in
  let word := string_of_list_ascii (map lower l) in
  if (String.eqb word "inf" || String.eqb word "infinity")%bool
  then Some (signed infinity)
  else if String.eqb word "nan" then Some nan
  else
    match decimal l with
    | Some (m, e) => Some (signed (float_of_decimal m e))
    | None => None
    end.

(** [float(x)] for [x] a string or [None]: [TypeError] on [None],
    [ValueError] on a string that is not a number. *)
Definition py_float (x : option string) : result float :=
  match x with
  | None => Raise TypeError
  | Some s =>
      match float_of_string s with
      | Some f => Return f
      | None => Raise ValueError
      end
  end.

(** [x / y] on two Python floats: [ZeroDivisionError] when [y] is zero. *)
Definition truediv (x y : float) : result float :=
  if (y =? 0)%float then Raise ZeroDivisionError else Return (x / y)%float.

(** [int(x)] for [x] a string or [None]. *)
Definition py_int (x : option string) : result Z :=
  match x with
  | None => Raise TypeError
  | Some s =>
      let (neg, l) := sign (strip (list_ascii_of_string s)) in
      match digits l 0 0 with
      | (v, S _, []) => Return (if neg then (- v)%Z else v)
      | _ => Raise ValueError
      end
  end.

(** A Python number: [int] or [float]. *)
Inductive number : Type :=
| Int (z : Z)
| Float (f : float).

End builtins.

Export builtins.

(** ** lxml: elements and the ElementPath expressions the sources use *)
Module etree.

Inductive Element : Type :=
| mkElement (tag : string) (attrib : list (string * string))
    (text : option string) (children : list Element).

Definition tag (e : Element) : string :=
  match e with mkElement t _ _ _ => t end.

Definition attrib (e : Element) : list (string * string) :=
  match e with mkElement _ a _ _ => a end.

Definition text (e : Element) : option string :=
  match e with mkElement _ _ x _ => x end.

Definition children (e : Element) : list Element :=
  match e with mkElement _ _ _ cs => cs end.

(** The descendants of [e] (without [e]) in document order. *)
Fixpoint descendants (e : Element) : list Element :=
  match e with
  | mkElement _ _ _ cs =>
      (fix walk (l : list Element) : list Element :=
         match l with
         | [] => []
         | c :: l' => c :: descendants c ++ walk l'
         end) cs
  end.

(** [Child t] is the path ["t"], [Descendant t] is [".//t"] and
    [DescendantAttr t a v] is [".//t[@a = 'v']"]. *)
Inductive path : Type :=
| Child (t : string)
| Descendant (t : string)
| DescendantAttr (t a v : string).

Definition has_attr (a v : string) (e : Element) : bool :=
  existsb (fun kv => (String.eqb (fst kv) a && String.eqb (snd kv) v)%bool)
    (attrib e).

Definition findall (p : path) (e : Element) : list Element :=
  match p with
  | Child t => List.filter (fun c => String.eqb (tag c) t) (children e)
  | Descendant t => List.filter (fun c => String.eqb (tag c) t) (descendants e)
  | DescendantAttr t a v =>
      List.filter (fun c => (String.eqb (tag c) t && has_attr a v c)%bool)
        (descendants e)
  end.

(** [e.find(p)]: the first match or [None]. *)
Definition find (p : path) (e : Element) : option Element :=
  head (findall p e).

(** [e.findtext(p)]: the text of the first match (the empty string when it
    has none), or [None] when nothing matches. *)
Definition findtext (p : path) (e : Element) : option string :=
  match find p e with
  | Some el => Some (default EmptyString (text el))
  | None => None
  end.

(** [x.find(p)] and [x.findtext(p)] where [x] may be [None]. *)
Definition find_on (x : option Element) (p : path) : result (option Element) :=
  match x with
  | Some e => Return (find p e)
  | None => Raise (AttributeError "'NoneType' object has no attribute 'find'")
  end.

Definition findtext_on (x : option Element) (p : path) : result (option string) :=
  match x with
  | Some e => Return (findtext p e)
  | None => Raise (AttributeError "'NoneType' object has no attribute 'findtext'")
  end.

(** A leaf element [<t>x</t>]. *)
Definition leaf (t x : string) : Element := mkElement t [] (Some x) [].

End etree.

Export etree.

(** ** Builtins: lists and [str] methods *)
Module pystr.

(** [l[i]] for [i >= 0] *)
Definition list_getitem {A} (l : list A) (i : nat) : result A :=
  match l !! i with
  | Some x => Return x
  | None => Raise IndexError
  end.

(** [s.split(sep)] for a separator of one character: the fields between
    the occurrences of [sep], empty ones included. *)
Fixpoint split (sep : ascii) (s : string) : list string :=
  match s with
  | EmptyString => [EmptyString]
  | String c s' =>
      if Ascii.eqb c sep then EmptyString :: split sep s'
      else
        match split sep s' with
        | p :: ps => String c p :: ps
        | [] => [String c EmptyString]
        end
  end.

(** [sep.join(parts)] *)
Fixpoint join (sep : string) (parts : list string) : string :=
  match parts with
  | [] => EmptyString
  | [p] => p
  | p :: ps => p +:+ sep +:+ join sep ps
  end.

(** [sub in s] *)
Fixpoint contains (sub s : string) : bool :=
  (String.prefix sub s
   || match s with
      | String _ s' => contains sub s'
      | EmptyString => false
      end)%bool.

(** [[f(x) for x in l]] where [f] may raise *)
Fixpoint for_list {A B} (f : A -> result B) (l : list A) : result (list B) :=
  match l with
  | [] => Return []
  | x :: l' =>
      rbind (f x) (fun y => rbind (for_list f l') (fun ys => Return (y :: ys)))
  end.

(** [c.isupper()] and the characters [\w] matches, on ASCII text *)
Definition isupper (c : ascii) : bool :=
  let n := nat_of_ascii c in (Nat.leb 65 n && Nat.leb n 90)%bool.

Definition is_word (c : ascii) : bool :=
  let n := nat_of_ascii c in
  ((Nat.leb 48 n && Nat.leb n 57) || (Nat.leb 65 n && Nat.leb n 90)
   || (Nat.leb 97 n && Nat.leb n 122) || Nat.eqb n 95)%bool.

End pystr.

Export pystr.

(** ** Band names *)
Module bands.

(** Modelled from the spec: [eoreader.bands] is not part of the sources at
    hand. These are the members of the closed set of band names that the
    embedded modules mention: the spectral bands ([obn], [spb]) and the
    cloud bands. *)
Inductive BandNames : Type :=
| CA | BLUE | GREEN | RED | VRE_1 | VRE_2 | VRE_3 | NIR | NARROW_NIR | WV
| SWIR_CIRRUS | SWIR_1 | SWIR_2
| RAW_CLOUDS | CLOUDS | SHADOWS | CIRRUS | ALL_CLOUDS.

Definition band_index (b : BandNames) : nat :=
  match b with
  | CA => 0 | BLUE => 1 | GREEN => 2 | RED => 3 | VRE_1 => 4 | VRE_2 => 5
  | VRE_3 => 6 | NIR => 7 | NARROW_NIR => 8 | WV => 9 | SWIR_CIRRUS => 10
  | SWIR_1 => 11 | SWIR_2 => 12 | RAW_CLOUDS => 13 | CLOUDS => 14
  | SHADOWS => 15 | CIRRUS => 16 | ALL_CLOUDS => 17
  end.

Definition band_of_index (n : nat) : BandNames :=
  match n with
  | 0 => CA | 1 => BLUE | 2 => GREEN | 3 => RED | 4 => VRE_1 | 5 => VRE_2
  | 6 => VRE_3 | 7 => NIR | 8 => NARROW_NIR | 9 => WV | 10 => SWIR_CIRRUS
  | 11 => SWIR_1 | 12 => SWIR_2 | 13 => RAW_CLOUDS | 14 => CLOUDS
  | 15 => SHADOWS | 16 => CIRRUS | _ => ALL_CLOUDS
  end.

#[global] Instance BandNames_eq_dec : EqDecision BandNames.
Proof. solve_decision. Defined.

#[global] Instance BandNames_countable : Countable BandNames.
Proof.
  refine (inj_countable' band_index band_of_index _).
  intros b; destruct b; reflexivity.
Defined.

(** [to_str(band)[0]]: the member's name. *)
Definition to_str (b : BandNames) : string :=
  match b with
  | CA => "CA" | BLUE => "BLUE" | GREEN => "GREEN" | RED => "RED"
  | VRE_1 => "VRE_1" | VRE_2 => "VRE_2" | VRE_3 => "VRE_3" | NIR => "NIR"
  | NARROW_NIR => "NARROW_NIR" | WV => "WV" | SWIR_CIRRUS => "SWIR_CIRRUS"
  | SWIR_1 => "SWIR_1" | SWIR_2 => "SWIR_2" | RAW_CLOUDS => "RAW_CLOUDS"
  | CLOUDS => "CLOUDS" | SHADOWS => "SHADOWS" | CIRRUS => "CIRRUS"
  | ALL_CLOUDS => "ALL_CLOUDS"
  end.

(** [str(band)], which is what an f-string renders of a member: its class
    and its name, as in [<SpectralBandNames.GREEN: 'GREEN'>] of the
    docstring of [S2Product.get_band_paths]. *)
Definition class_name (b : BandNames) : string :=
  match b with
  | RAW_CLOUDS | CLOUDS | SHADOWS | CIRRUS | ALL_CLOUDS => "CloudsBandNames"
  | _ => "SpectralBandNames"
  end.

Definition str_band (b : BandNames) : string :=
  class_name b +:+ "." +:+ to_str b.

End bands.

Export bands.

(** ** NumPy and xarray: arrays of pixels *)
Module xr.

(** An [xr.DataArray] as the products hand it out: dimensions
    [(band, y, x)], binary64 pixels. The no-data pixels of a band are the
    NaN ones ([np.isnan(def_band)] is how [s2_product] finds them). *)
Record DataArray : Type := mkDataArray {
  name : option string;
  long_name : option string;
  data : list (list (list float))
}.

Definition is_nodata (x : float) : bool := is_nan x.

(** The pixel at [(b, i, j)], if the array is that large. *)
Definition pixel {A} (a : list (list (list A))) (b i j : nat) : option A :=
  match a !! b with
  | Some plane =>
      match plane !! i with
      | Some row => row !! j
      | None => None
      end
  | None => None
  end.

Definition map3 {A B} (f : A -> B) (a : list (list (list A)))
  : list (list (list B)) :=
  map (map (map f)) a.

Definition zip3 {A B C} (f : A -> B -> C)
    (a : list (list (list A))) (b : list (list (list B)))
  : list (list (list C)) :=
  zip_with (zip_with (zip_with f)) a b.

(** Arithmetic between two arrays is elementwise on the common grid; the
    result keeps the name the operands share and drops the attributes. *)
Definition binop (f : float -> float -> float) (a b : DataArray) : DataArray :=
  {| name := if decide (name a = name b) then name a else None;
     long_name := None;
     data := zip3 f (data a) (data b) |}.

(** Arithmetic with a scalar. *)
Definition scalar_op (f : float -> float) (a : DataArray) : DataArray :=
  {| name := name a; long_name := None; data := map3 f (data a) |}.

Definition add : DataArray -> DataArray -> DataArray := binop PrimFloat.add.
Definition sub : DataArray -> DataArray -> DataArray := binop PrimFloat.sub.

(** [np.divide(a, b)]. With [np.seterr(divide="ignore", invalid="ignore")]
    it is the IEEE 754 quotient on every pixel, silently. *)
Definition divide : DataArray -> DataArray -> DataArray := binop PrimFloat.div.

(** [c * a], [c - a], [a - c], [a ** 2], [+a] and [np.divide(c, a)]. *)
Definition smul (c : float) : DataArray -> DataArray :=
  scalar_op (fun x => c * x)%float.
Definition rsub (c : float) : DataArray -> DataArray :=
  scalar_op (fun x => c - x)%float.
Definition sub_scalar (a : DataArray) (c : float) : DataArray :=
  scalar_op (fun x => x - c)%float a.
Definition square : DataArray -> DataArray :=
  scalar_op (fun x => x * x)%float.
Definition pos : DataArray -> DataArray := scalar_op (fun x => x).
Definition rdivide (c : float) : DataArray -> DataArray :=
  scalar_op (fun x => c / x)%float.

Definition rename (n : string) (a : DataArray) : DataArray :=
  {| name := Some n; long_name := long_name a; data := data a |}.

(** [sertit.rasters.set_metadata(naked, mtd)]: the attributes of [mtd] are
    written onto [naked]; the pixels of [naked] stay. *)
Definition set_metadata (naked mtd : DataArray) : DataArray :=
  {| name := name naked; long_name := long_name mtd; data := data naked |}.

(** [x.astype(np.float32)] on one pixel: the nearest binary32 number. *)
Definition astype_float32 (x : float) : float :=
  match Prim2SF x with
  | S754_finite s m e =>
      SF2Prim (binary_normalize 24 128 (cond_Zopp s (Zpos m)) e s)
  | _ => x
  end.

Definition astype_np_float32 (a : DataArray) : DataArray :=
  {| name := name a; long_name := long_name a;
     data := map3 astype_float32 (data a) |}.

(** [band_arr.rio.height], [band_arr.rio.width] and [band_arr.rio.count] *)
Definition rio_height (a : DataArray) : nat :=
  match data a with
  | plane :: _ => length plane
  | [] => 0
  end.

Definition rio_width (a : DataArray) : nat :=
  match data a with
  | (row :: _) :: _ => length row
  | _ => 0
  end.

Definition rio_count (a : DataArray) : nat := length (data a).

(** A one-band array from its rows. *)
Definition of_rows (rows : list (list float)) : DataArray :=
  {| name := None; long_name := None; data := [rows] |}.

End xr.

(** ** [eoreader/bands/index.py] *)
Module index.

Import xr.

Definition Bands : Type := gmap BandNames DataArray.

(** [bands[b]] *)
Definition getitem (bands : Bands) (b : BandNames) : result DataArray :=
  match bands !! b with
  | Some a => Return a
  | None => Raise KeyError
  end.

Definition _idx_fct (function_name : string)
    (function : Bands -> result DataArray) : Bands -> result DataArray :=
  fun bands =>
    out <~ function bands ;;
    Return (rename function_name out).

Definition _norm_diff (band_1 band_2 : DataArray) : DataArray :=
  let norm := divide (sub band_1 band_2) (add band_1 band_2) in
  let norm := set_metadata norm band_1 in
  norm.

Definition RGI : Bands -> result DataArray :=
  _idx_fct "RGI" (fun bands =>
    r <~ getitem bands RED ;; g <~ getitem bands GREEN ;;
    Return (divide r g)).

Definition NDVI : Bands -> result DataArray :=
  _idx_fct "NDVI" (fun bands =>
    n <~ getitem bands NIR ;; r <~ getitem bands RED ;;
    Return (divide n r)).

Definition NDRE2 : Bands -> result DataArray :=
  _idx_fct "NDRE2" (fun bands =>
    n <~ getitem bands NIR ;; v <~ getitem bands VRE_1 ;;
    Return (_norm_diff n v)).

Definition NDRE3 : Bands -> result DataArray :=
  _idx_fct "NDRE3" (fun bands =>
    n <~ getitem bands NIR ;; v <~ getitem bands VRE_2 ;;
    Return (_norm_diff n v)).

Definition GLI : Bands -> result DataArray :=
  _idx_fct "GLI" (fun bands =>
    g <~ getitem bands GREEN ;; r <~ getitem bands RED ;; b <~ getitem bands BLUE ;;
    g' <~ getitem bands GREEN ;; r' <~ getitem bands RED ;; b' <~ getitem bands BLUE ;;
    Return (divide (smul 2 (sub (sub g r) b)) (smul 2 (add (add g' r') b')))).

Definition GNDVI : Bands -> result DataArray :=
  _idx_fct "GNDVI" (fun bands =>
    n <~ getitem bands NIR ;; g <~ getitem bands GREEN ;;
    Return (_norm_diff n g)).

Definition RI : Bands -> result DataArray :=
  _idx_fct "RI" (fun bands =>
    v <~ getitem bands VRE_1 ;; g <~ getitem bands GREEN ;;
    Return (_norm_diff v (pos g))).

Definition NDGRI : Bands -> result DataArray :=
  _idx_fct "NDGRI" (fun bands =>
    g <~ getitem bands GREEN ;; r <~ getitem bands RED ;;
    Return (_norm_diff g r)).

Definition CIG : Bands -> result DataArray :=
  _idx_fct "CIG" (fun bands =>
    n <~ getitem bands NIR ;; g <~ getitem bands GREEN ;;
    Return (sub_scalar (divide n g) 1)).

Definition NDMI : Bands -> result DataArray :=
  _idx_fct "NDMI" (fun bands =>
    n <~ getitem bands NIR ;; s <~ getitem bands SWIR_1 ;;
    Return (_norm_diff n (pos s))).

Definition DSWI : Bands -> result DataArray :=
  _idx_fct "DSWI" (fun bands =>
    n <~ getitem bands NIR ;; g <~ getitem bands GREEN ;;
    s <~ getitem bands SWIR_1 ;; r <~ getitem bands RED ;;
    Return (divide (add n g) (add s r))).

Definition SRSWIR : Bands -> result DataArray :=
  _idx_fct "SRSWIR" (fun bands =>
    s1 <~ getitem bands SWIR_1 ;; s2 <~ getitem bands SWIR_2 ;;
    Return (divide s1 s2)).

Definition RDI : Bands -> result DataArray :=
  _idx_fct "RDI" (fun bands =>
    s2 <~ getitem bands SWIR_2 ;; n <~ getitem bands NARROW_NIR ;;
    Return (divide s2 n)).

Definition NDWI : Bands -> result DataArray :=
  _idx_fct "NDWI" (fun bands =>
    g <~ getitem bands GREEN ;; n <~ getitem bands NIR ;;
    Return (_norm_diff g n)).

Definition BAI : Bands -> result DataArray :=
  _idx_fct "BAI" (fun bands =>
    r <~ getitem bands RED ;; n <~ getitem bands NIR ;;
    Return (rdivide 1 (add (square (rsub 0.1 r)) (square (rsub 0.06 n))))).

Definition NBR : Bands -> result DataArray :=
  _idx_fct "NBR" (fun bands =>
    n <~ getitem bands NARROW_NIR ;; s <~ getitem bands SWIR_2 ;;
    Return (_norm_diff n s)).

Definition MNDWI : Bands -> result DataArray :=
  _idx_fct "MNDWI" (fun bands =>
    g <~ getitem bands GREEN ;; s <~ getitem bands SWIR_1 ;;
    Return (_norm_diff g s)).

Definition AFRI_1_6 : Bands -> result DataArray :=
  _idx_fct "AFRI_1_6" (fun bands =>
    n <~ getitem bands NIR ;; s <~ getitem bands SWIR_1 ;;
    Return (_norm_diff n (smul 0.66 s))).

Definition AFRI_2_1 : Bands -> result DataArray :=
  _idx_fct "AFRI_2_1" (fun bands =>
    n <~ getitem bands NIR ;; s <~ getitem bands SWIR_2 ;;
    Return (_norm_diff n (smul 0.5 s))).

Definition BSI : Bands -> result DataArray :=
  _idx_fct "BSI" (fun bands =>
    r <~ getitem bands RED ;; s <~ getitem bands SWIR_1 ;;
    n <~ getitem bands NIR ;; b <~ getitem bands BLUE ;;
    Return (_norm_diff (add r s) (add n b))).

(** The index functions that divide, with the bands [get_needed_bands]
    finds in their text. *)
Definition dividing_indices : list (string * list BandNames * (Bands -> result DataArray)) :=
  [ ("RGI", [RED; GREEN], RGI);
    ("NDVI", [NIR; RED], NDVI);
    ("NDRE2", [NIR; VRE_1], NDRE2);
    ("NDRE3", [NIR; VRE_2], NDRE3);
    ("GLI", [GREEN; RED; BLUE; GREEN; RED; BLUE], GLI);
    ("GNDVI", [NIR; GREEN], GNDVI);
    ("RI", [VRE_1; GREEN], RI);
    ("NDGRI", [GREEN; RED], NDGRI);
    ("CIG", [NIR; GREEN], CIG);
    ("NDMI", [NIR; SWIR_1], NDMI);
    ("DSWI", [NIR; GREEN; SWIR_1; RED], DSWI);
    ("SRSWIR", [SWIR_1; SWIR_2], SRSWIR);
    ("RDI", [SWIR_2; NARROW_NIR], RDI);
    ("NDWI", [GREEN; NIR], NDWI);
    ("BAI", [RED; NIR], BAI);
    ("NBR", [NARROW_NIR; SWIR_2], NBR);
    ("MNDWI", [GREEN; SWIR_1], MNDWI);
    ("AFRI_1_6", [NIR; SWIR_1], AFRI_1_6);
    ("AFRI_2_1", [NIR; SWIR_2], AFRI_2_1);
    ("BSI", [RED; SWIR_1; NIR; BLUE], BSI) ].

(** [c + a] for a scalar [c] *)
Definition radd (c : float) : DataArray -> DataArray :=
  scalar_op (fun x => c + x)%float.

Definition TCBRI : Bands -> result DataArray :=
  _idx_fct "TCBRI" (fun bands =>
    b <~ getitem bands BLUE ;; g <~ getitem bands GREEN ;;
    r <~ getitem bands RED ;; n <~ getitem bands NIR ;;
    s1 <~ getitem bands SWIR_1 ;; s2 <~ getitem bands SWIR_2 ;;
    Return (add (add (add (add (add (smul 0.3037 b) (smul 0.2793 g))
                                 (smul 0.4743 r))
                            (smul 0.5585 n))
                       (smul 0.5082 s1))
              (smul 0.1863 s2))).

Definition TCGRE : Bands -> result DataArray :=
  _idx_fct "TCGRE" (fun bands =>
    b <~ getitem bands BLUE ;; g <~ getitem bands GREEN ;;
    r <~ getitem bands RED ;; n <~ getitem bands NIR ;;
    s1 <~ getitem bands SWIR_1 ;; s2 <~ getitem bands SWIR_2 ;;
    Return (sub (add (add (sub (sub (smul (- 0.2848) b) (smul 0.2435 g))
                                 (smul 0.5436 r))
                            (smul 0.7243 n))
                       (smul 0.0840 s1))
              (smul 0.1800 s2))).

Definition TCWET : Bands -> result DataArray :=
  _idx_fct "TCWET" (fun bands =>
    b <~ getitem bands BLUE ;; g <~ getitem bands GREEN ;;
    r <~ getitem bands RED ;; n <~ getitem bands NIR ;;
    s1 <~ getitem bands SWIR_1 ;; s2 <~ getitem bands SWIR_2 ;;
    Return (sub (sub (add (add (add (smul 0.1509 b) (smul 0.1973 g))
                                 (smul 0.3279 r))
                            (smul 0.3406 n))
                       (smul 0.7112 s1))
              (smul 0.4572 s2))).

Definition AWEInsh : Bands -> result DataArray :=
  _idx_fct "AWEInsh" (fun bands =>
    g <~ getitem bands GREEN ;; s1 <~ getitem bands SWIR_1 ;;
    n <~ getitem bands NIR ;; s2 <~ getitem bands SWIR_2 ;;
    Return (sub (smul 4 (sub g s1)) (add (smul 0.25 n) (smul 2.75 s2)))).

Definition AWEIsh : Bands -> result DataArray :=
  _idx_fct "AWEIsh" (fun bands =>
    b <~ getitem bands BLUE ;; g <~ getitem bands GREEN ;;
    n <~ getitem bands NIR ;; s1 <~ getitem bands SWIR_1 ;;
    s2 <~ getitem bands SWIR_2 ;;
    Return (sub (sub (add b (smul 2.5 g)) (smul 1.5 (add n s1)))
              (smul 0.25 s2))).

Definition WI : Bands -> result DataArray :=
  _idx_fct "WI" (fun bands =>
    g <~ getitem bands GREEN ;; r <~ getitem bands RED ;;
    n <~ getitem bands NIR ;; s1 <~ getitem bands SWIR_1 ;;
    s2 <~ getitem bands SWIR_2 ;;
    Return (sub (sub (sub (add (radd 1.7204 (smul 171 g)) (smul 3 r))
                            (smul 70 n))
                       (smul 45 s1))
              (smul 71 s2))).

(** *** The text of the index functions

    [get_needed_bands] reads the bands of an index off the text of the
    function, as [inspect.getsource] gives it: the lines of the definition,
    decorator and docstring included. *)

Definition q1 : string := String "034" EmptyString.
Definition q3 : string := q1 +:+ q1 +:+ q1.

Definition unlines (l : list string) : string :=
  fold_right (fun line text => line +:+ String "010" text) EmptyString l.

(** Lines 70 to 82 of [index.py]. *)
Definition RGI_source : string :=
  unlines
    [ "@_idx_fct";
      "def RGI(bands: dict) -> np.ma.masked_array:";
      "    " +:+ q3;
      "    Relative Greenness Index: https://www.indexdatabase.de/db/i-single.php?id=326";
      EmptyString;
      "    Args:";
      "        bands (dict): Bands as {band_name: xr.DataArray}";
      EmptyString;
      "    Returns:";
      "        xr.DataArray: Computed index";
      EmptyString;
      "    " +:+ q3;
      "    return np.divide(bands[obn.RED], bands[obn.GREEN])" ].

(** Lines 85 to 97 of [index.py]. *)
Definition NDVI_source : string :=
  unlines
    [ "@_idx_fct";
      "def NDVI(bands: dict) -> np.ma.masked_array:";
      "    " +:+ q3;
      "    Normalized Difference Vegetation Index: https://www.indexdatabase.de/db/i-single.php?id=59";
      EmptyString;
      "    Args:";
      "        bands (dict): Bands as {band_name: xr.DataArray}";
      EmptyString;
      "    Returns:";
      "        xr.DataArray: Computed index";
      EmptyString;
      "    " +:+ q3;
      "    return np.divide(bands[obn.NIR], bands[obn.RED])" ].

(** Lines 100 to 121 of [index.py]. *)
Definition TCBRI_source : string :=
  unlines
    [ "@_idx_fct";
      "def TCBRI(bands: dict) -> np.ma.masked_array:";
      "    " +:+ q3;
      "    Tasseled Cap Brightness:";
      "    https://en.wikipedia.org/wiki/Tasseled_cap_transformation";
      "    https://www.indexdatabase.de/db/r-single.php?id=723";
      EmptyString;
      "    Args:";
      "        bands (dict): Bands as {band_name: xr.DataArray}";
      EmptyString;
      "    Returns:";
      "        xr.DataArray: Computed index";
      EmptyString;
      "    " +:+ q3;
      "    return (";
      "        0.3037 * bands[obn.BLUE]";
      "        + 0.2793 * bands[obn.GREEN]";
      "        + 0.4743 * bands[obn.RED]";
      "        + 0.5585 * bands[obn.NIR]";
      "        + 0.5082 * bands[obn.SWIR_1]";
      "        + 0.1863 * bands[obn.SWIR_2]";
      "    )" ].

(** Lines 124 to 145 of [index.py]. *)
Definition TCGRE_source : string :=
  unlines
    [ "@_idx_fct";
      "def TCGRE(bands: dict) -> np.ma.masked_array:";
      "    " +:+ q3;
      "    Tasseled Cap Greenness:";
      "    https://en.wikipedia.org/wiki/Tasseled_cap_transformation";
      "    https://www.indexdatabase.de/db/r-single.php?id=723";
      EmptyString;
      "    Args:";
      "        bands (dict): Bands as {band_name: xr.DataArray}";
      EmptyString;
      "    Returns:";
      "        xr.DataArray: Computed index";
      EmptyString;
      "    " +:+ q3;
      "    return (";
      "        -0.2848 * bands[obn.BLUE]";
      "        - 0.2435 * bands[obn.GREEN]";
      "        - 0.5436 * bands[obn.RED]";
      "        + 0.7243 * bands[obn.NIR]";
      "        + 0.0840 * bands[obn.SWIR_1]";
      "        - 0.1800 * bands[obn.SWIR_2]";
      "    )" ].

(** Lines 148 to 169 of [index.py]. *)
Definition TCWET_source : string :=
  unlines
    [ "@_idx_fct";
      "def TCWET(bands: dict) -> np.ma.masked_array:";
      "    " +:+ q3;
      "    Tasseled Cap Wetness:";
      "    https://en.wikipedia.org/wiki/Tasseled_cap_transformation";
      "    https://www.indexdatabase.de/db/r-single.php?id=723";
      EmptyString;
      "    Args:";
      "        bands (dict): Bands as {band_name: xr.DataArray}";
      EmptyString;
      "    Returns:";
      "        xr.DataArray: Computed index";
      EmptyString;
      "    " +:+ q3;
      "    return (";
      "        0.1509 * bands[obn.BLUE]";
      "        + 0.1973 * bands[obn.GREEN]";
      "        + 0.3279 * bands[obn.RED]";
      "        + 0.3406 * bands[obn.NIR]";
      "        - 0.7112 * bands[obn.SWIR_1]";
      "        - 0.4572 * bands[obn.SWIR_2]";
      "    )" ].

(** Lines 172 to 183 of [index.py]. *)
Definition NDRE2_source : string :=
  unlines
    [ "@_idx_fct";
      "def NDRE2(bands: dict) -> np.ma.masked_array:";
      "    " +:+ q3;
      "    Normalized Difference Red-Edge: https://www.indexdatabase.de/db/i-single.php?id=223";
      "    Args:";
      "        bands (dict): Bands as {band_name: xr.DataArray}";
      EmptyString;
      "    Returns:";
      "        xr.DataArray: Computed index";
      EmptyString;
      "    " +:+ q3;
      "    return _norm_diff(bands[obn.NIR], bands[obn.VRE_1])" ].

(** Lines 186 to 198 of [index.py]. *)
Definition NDRE3_source : string :=
  unlines
    [ "@_idx_fct";
      "def NDRE3(bands: dict) -> np.ma.masked_array:";
      "    " +:+ q3;
      "    Normalized Difference Red-Edge: https://www.indexdatabase.de/db/i-single.php?id=223";
      EmptyString;
      "    Args:";
      "        bands (dict): Bands as {band_name: xr.DataArray}";
      EmptyString;
      "    Returns:";
      "        xr.DataArray: Computed index";
      EmptyString;
      "    " +:+ q3;
      "    return _norm_diff(bands[obn.NIR], bands[obn.VRE_2])" ].

(** Lines 201 to 216 of [index.py]. *)
Definition GLI_source : string :=
  unlines
    [ "@_idx_fct";
      "def GLI(bands: dict) -> np.ma.masked_array:";
      "    " +:+ q3;
      "    Green leaf index: https://www.indexdatabase.de/db/i-single.php?id=375";
      EmptyString;
      "    Args:";
      "        bands (dict): Bands as {band_name: xr.DataArray}";
      EmptyString;
      "    Returns:";
      "        xr.DataArray: Computed index";
      EmptyString;
      "    " +:+ q3;
      "    return np.divide(";
      "        2 * (bands[obn.GREEN] - bands[obn.RED] - bands[obn.BLUE]),";
      "        2 * (bands[obn.GREEN] + bands[obn.RED] + bands[obn.BLUE]),";
      "    )" ].

(** Lines 219 to 231 of [index.py]. *)
Definition GNDVI_source : string :=
  unlines
    [ "@_idx_fct";
      "def GNDVI(bands: dict) -> np.ma.masked_array:";
      "    " +:+ q3;
      "    Green NDVI: https://www.indexdatabase.de/db/i-single.php?id=401";
      EmptyString;
      "    Args:";
      "        bands (dict): Bands as {band_name: xr.DataArray}";
      EmptyString;
      "    Returns:";
      "        xr.DataArray: Computed index";
      EmptyString;
      "    " +:+ q3;
      "    return _norm_diff(bands[obn.NIR], bands[obn.GREEN])" ].

(** Lines 234 to 246 of [index.py]. *)
Definition RI_source : string :=
  unlines
    [ "@_idx_fct";
      "def RI(bands: dict) -> np.ma.masked_array:";
      "    " +:+ q3;
      "    Normalized Difference RED/GREEN Redness Index: https://www.indexdatabase.de/db/i-single.php?id=74";
      EmptyString;
      "    Args:";
      "        bands (dict): Bands as {band_name: xr.DataArray}";
      EmptyString;
      "    Returns:";
      "        xr.DataArray: Computed index";
      EmptyString;
      "    " +:+ q3;
      "    return _norm_diff(bands[obn.VRE_1], +bands[obn.GREEN])" ].

(** Lines 249 to 263 of [index.py]. *)
Definition NDGRI_source : string :=
  unlines
    [ "@_idx_fct";
      "def NDGRI(bands: dict) -> np.ma.masked_array:";
      "    " +:+ q3;
      "    Normalized Difference GREEN/RED Index: https://www.indexdatabase.de/db/i-single.php?id=390";
      EmptyString;
      "    Also known as NDGR.";
      EmptyString;
      "    Args:";
      "        bands (dict): Bands as {band_name: xr.DataArray}";
      EmptyString;
      "    Returns:";
      "        xr.DataArray: Computed index";
      EmptyString;
      "    " +:+ q3;
      "    return _norm_diff(bands[obn.GREEN], bands[obn.RED])" ].

(** Lines 266 to 278 of [index.py]. *)
Definition CIG_source : string :=
  unlines
    [ "@_idx_fct";
      "def CIG(bands: dict) -> np.ma.masked_array:";
      "    " +:+ q3;
      "    Chlorophyll Index Green: https://www.indexdatabase.de/db/i-single.php?id=128";
      EmptyString;
      "    Args:";
      "        bands (dict): Bands as {band_name: xr.DataArray}";
      EmptyString;
      "    Returns:";
      "        xr.DataArray: Computed index";
      EmptyString;
      "    " +:+ q3;
      "    return np.divide(bands[obn.NIR], bands[obn.GREEN]) - 1" ].

(** Lines 281 to 293 of [index.py]. *)
Definition NDMI_source : string :=
  unlines
    [ "@_idx_fct";
      "def NDMI(bands: dict) -> np.ma.masked_array:";
      "    " +:+ q3;
      "    Normalized Difference Moisture Index: https://www.indexdatabase.de/db/i-single.php?id=56";
      EmptyString;
      "    Args:";
      "        bands (dict): Bands as {band_name: xr.DataArray}";
      EmptyString;
      "    Returns:";
      "        xr.DataArray: Computed index";
      EmptyString;
      "    " +:+ q3;
      "    return _norm_diff(bands[obn.NIR], +bands[obn.SWIR_1])" ].

(** Lines 296 to 310 of [index.py]. *)
Definition DSWI_source : string :=
  unlines
    [ "@_idx_fct";
      "def DSWI(bands: dict) -> np.ma.masked_array:";
      "    " +:+ q3;
      "    Disease water stress index: https://www.indexdatabase.de/db/i-single.php?id=106";
      EmptyString;
      "    Args:";
      "        bands (dict): Bands as {band_name: xr.DataArray}";
      EmptyString;
      "    Returns:";
      "        xr.DataArray: Computed index";
      EmptyString;
      "    " +:+ q3;
      "    return np.divide(";
      "        bands[obn.NIR] + bands[obn.GREEN], bands[obn.SWIR_1] + bands[obn.RED]";
      "    )" ].

(** Lines 313 to 325 of [index.py]. *)
Definition SRSWIR_source : string :=
  unlines
    [ "@_idx_fct";
      "def SRSWIR(bands: dict) -> np.ma.masked_array:";
      "    " +:+ q3;
      "    Simple Ratio SWIR_1/SWIR_2 Clay Minerals: https://www.indexdatabase.de/db/i-single.php?id=204";
      EmptyString;
      "    Args:";
      "        bands (dict): Bands as {band_name: xr.DataArray}";
      EmptyString;
      "    Returns:";
      "        xr.DataArray: Computed index";
      EmptyString;
      "    " +:+ q3;
      "    return np.divide(bands[obn.SWIR_1], bands[obn.SWIR_2])" ].

(** Lines 328 to 340 of [index.py]. *)
Definition RDI_source : string :=
  unlines
    [ "@_idx_fct";
      "def RDI(bands: dict) -> np.ma.masked_array:";
      "    " +:+ q3;
      "    Ratio Drought Index: https://www.indexdatabase.de/db/i-single.php?id=71";
      EmptyString;
      "    Args:";
      "        bands (dict): Bands as {band_name: xr.DataArray}";
      EmptyString;
      "    Returns:";
      "        xr.DataArray: Computed index";
      EmptyString;
      "    " +:+ q3;
      "    return np.divide(bands[obn.SWIR_2], bands[obn.NARROW_NIR])" ].

(** Lines 343 to 355 of [index.py]. *)
Definition NDWI_source : string :=
  unlines
    [ "@_idx_fct";
      "def NDWI(bands: dict) -> np.ma.masked_array:";
      "    " +:+ q3;
      "    Simple Ratio MIR/NIR Ratio Drought Index: https://www.indexdatabase.de/db/i-single.php?id=71";
      EmptyString;
      "    Args:";
      "        bands (dict): Bands as {band_name: xr.DataArray}";
      EmptyString;
      "    Returns:";
      "        xr.DataArray: Computed index";
      EmptyString;
      "    " +:+ q3;
      "    return _norm_diff(bands[obn.GREEN], bands[obn.NIR])" ].

(** Lines 358 to 369 of [index.py]. *)
Definition BAI_source : string :=
  unlines
    [ "@_idx_fct";
      "def BAI(bands: dict) -> np.ma.masked_array:";
      "    " +:+ q3;
      "    Burn Area Index: https://www.harrisgeospatial.com/docs/BackgroundBurnIndices.html";
      EmptyString;
      "    Args:";
      "        bands (dict): Bands as {band_name: xr.DataArray}";
      EmptyString;
      "    Returns:";
      "        xr.DataArray: Computed index";
      "    " +:+ q3;
      "    return np.divide(1.0, (0.1 - bands[obn.RED]) ** 2 + (0.06 - bands[obn.NIR]) ** 2)" ].

(** Lines 372 to 384 of [index.py]. *)
Definition NBR_source : string :=
  unlines
    [ "@_idx_fct";
      "def NBR(bands: dict) -> np.ma.masked_array:";
      "    " +:+ q3;
      "    Normalized Burn Ratio: https://www.indexdatabase.de/db/i-single.php?id=53";
      EmptyString;
      "    Args:";
      "        bands (dict): Bands as {band_name: xr.DataArray}";
      EmptyString;
      "    Returns:";
      "        xr.DataArray: Computed index";
      EmptyString;
      "    " +:+ q3;
      "    return _norm_diff(bands[obn.NARROW_NIR], bands[obn.SWIR_2])" ].

(** Lines 387 to 399 of [index.py]. *)
Definition MNDWI_source : string :=
  unlines
    [ "@_idx_fct";
      "def MNDWI(bands: dict) -> np.ma.masked_array:";
      "    " +:+ q3;
      "    Modified Normalised Difference Water Index : https://wiki.orfeo-toolbox.org/index.php/MNDWI";
      EmptyString;
      "    Args:";
      "        bands (dict): Bands as {band_name: xr.DataArray}";
      EmptyString;
      "    Returns:";
      "        xr.DataArray: Computed index";
      EmptyString;
      "    " +:+ q3;
      "    return _norm_diff(bands[obn.GREEN], bands[obn.SWIR_1])" ].

(** Lines 402 to 416 of [index.py]. *)
Definition AWEInsh_source : string :=
  unlines
    [ "@_idx_fct";
      "def AWEInsh(bands: dict) -> np.ma.masked_array:";
      "    " +:+ q3;
      "    Automated Water Extraction Index not shadow: Feyisa et al. (2014)";
      EmptyString;
      "    Args:";
      "        bands (dict): Bands as {band_name: xr.DataArray}";
      EmptyString;
      "    Returns:";
      "        xr.DataArray: Computed index";
      EmptyString;
      "    " +:+ q3;
      "    return 4 * (bands[obn.GREEN] - bands[obn.SWIR_1]) - (";
      "        0.25 * bands[obn.NIR] + 2.75 * bands[obn.SWIR_2]";
      "    )" ].

(** Lines 419 to 436 of [index.py]. *)
Definition AWEIsh_source : string :=
  unlines
    [ "@_idx_fct";
      "def AWEIsh(bands: dict) -> np.ma.masked_array:";
      "    " +:+ q3;
      "    Automated Water Extraction Index shadow: Feyisa et al. (2014)";
      EmptyString;
      "    Args:";
      "        bands (dict): Bands as {band_name: xr.DataArray}";
      EmptyString;
      "    Returns:";
      "        xr.DataArray: Computed index";
      EmptyString;
      "    " +:+ q3;
      "    return (";
      "        bands[obn.BLUE]";
      "        + 2.5 * bands[obn.GREEN]";
      "        - 1.5 * (bands[obn.NIR] + bands[obn.SWIR_1])";
      "        - 0.25 * bands[obn.SWIR_2]";
      "    )" ].

(** Lines 439 to 457 of [index.py]. *)
Definition WI_source : string :=
  unlines
    [ "@_idx_fct";
      "def WI(bands: dict) -> np.ma.masked_array:";
      "    " +:+ q3;
      "    Water Index (2015): Fisher et al. (2016)";
      EmptyString;
      "    Args:";
      "        bands (dict): Bands as {band_name: xr.DataArray}";
      EmptyString;
      "    Returns:";
      "        xr.DataArray: Computed index";
      "    " +:+ q3;
      "    return (";
      "        1.7204";
      "        + 171 * bands[obn.GREEN]";
      "        + 3 * bands[obn.RED]";
      "        - 70 * bands[obn.NIR]";
      "        - 45 * bands[obn.SWIR_1]";
      "        - 71 * bands[obn.SWIR_2]";
      "    )" ].

(** Lines 460 to 471 of [index.py]. *)
Definition AFRI_1_6_source : string :=
  unlines
    [ "@_idx_fct";
      "def AFRI_1_6(bands: dict) -> np.ma.masked_array:";
      "    " +:+ q3;
      "    Aerosol free vegetation index 1600: https://www.indexdatabase.de/db/i-single.php?id=393";
      EmptyString;
      "    Args:";
      "        bands (dict): Bands as {band_name: xr.DataArray}";
      EmptyString;
      "    Returns:";
      "        xr.DataArray: Computed index";
      "    " +:+ q3;
      "    return _norm_diff(bands[obn.NIR], 0.66 * bands[obn.SWIR_1])" ].

(** Lines 474 to 489 of [index.py]. *)
Definition AFRI_2_1_source : string :=
  unlines
    [ "@_idx_fct";
      "def AFRI_2_1(bands: dict) -> np.ma.masked_array:";
      "    " +:+ q3;
      "    Aerosol free vegetation index 2100: https://www.indexdatabase.de/db/i-single.php?id=395";
      EmptyString;
      "    .. WARNING::";
      "        There is an error in the formula, go see the papers to get the right one (0.56 instead of 0.5):";
      "        https://core.ac.uk/download/pdf/130673386.pdf";
      EmptyString;
      "    Args:";
      "        bands (dict): Bands as {band_name: xr.DataArray}";
      EmptyString;
      "    Returns:";
      "        xr.DataArray: Computed index";
      "    " +:+ q3;
      "    return _norm_diff(bands[obn.NIR], 0.5 * bands[obn.SWIR_2])" ].

(** Lines 492 to 509 of [index.py]. *)
Definition BSI_source : string :=
  unlines
    [ "@_idx_fct";
      "def BSI(bands: dict) -> np.ma.masked_array:";
      "    " +:+ q3;
      "    Barren Soil Index:";
      "    Rikimaru et al., 2002. Tropical forest cover density mapping.";
      "    http://tropecol.com/pdf/open/PDF_43_1/43104.pdf";
      EmptyString;
      "    BSI = ((RED+SWIR) – (NIR+BLUE)) / ((RED+SWIR) + (NIR+BLUE))";
      EmptyString;
      "    Args:";
      "        bands (dict): Bands as {band_name: xr.DataArray}";
      EmptyString;
      "    Returns:";
      "        xr.DataArray: Computed index";
      "    " +:+ q3;
      "    return _norm_diff(";
      "        bands[obn.RED] + bands[obn.SWIR_1], bands[obn.NIR] + bands[obn.BLUE]";
      "    )" ].
(** A function object: its [__name__], its text and what calling it
    does. *)
Record function : Type := mkFunction {
  __name__ : string;
  getsource : string;
  call : Bands -> result DataArray
}.

(** The functions of the module by name, in the order they are defined or
    imported. The ones that are no index ([wraps], the decorator, the
    helpers) are known by their name only. *)
Definition functions : list (string * option function) :=
  [ ("wraps", None);
    ("_idx_fct", None);
    ("_norm_diff", None);
    ("RGI", Some (mkFunction "RGI" RGI_source RGI));
    ("NDVI", Some (mkFunction "NDVI" NDVI_source NDVI));
    ("TCBRI", Some (mkFunction "TCBRI" TCBRI_source TCBRI));
    ("TCGRE", Some (mkFunction "TCGRE" TCGRE_source TCGRE));
    ("TCWET", Some (mkFunction "TCWET" TCWET_source TCWET));
    ("NDRE2", Some (mkFunction "NDRE2" NDRE2_source NDRE2));
    ("NDRE3", Some (mkFunction "NDRE3" NDRE3_source NDRE3));
    ("GLI", Some (mkFunction "GLI" GLI_source GLI));
    ("GNDVI", Some (mkFunction "GNDVI" GNDVI_source GNDVI));
    ("RI", Some (mkFunction "RI" RI_source RI));
    ("NDGRI", Some (mkFunction "NDGRI" NDGRI_source NDGRI));
    ("CIG", Some (mkFunction "CIG" CIG_source CIG));
    ("NDMI", Some (mkFunction "NDMI" NDMI_source NDMI));
    ("DSWI", Some (mkFunction "DSWI" DSWI_source DSWI));
    ("SRSWIR", Some (mkFunction "SRSWIR" SRSWIR_source SRSWIR));
    ("RDI", Some (mkFunction "RDI" RDI_source RDI));
    ("NDWI", Some (mkFunction "NDWI" NDWI_source NDWI));
    ("BAI", Some (mkFunction "BAI" BAI_source BAI));
    ("NBR", Some (mkFunction "NBR" NBR_source NBR));
    ("MNDWI", Some (mkFunction "MNDWI" MNDWI_source MNDWI));
    ("AWEInsh", Some (mkFunction "AWEInsh" AWEInsh_source AWEInsh));
    ("AWEIsh", Some (mkFunction "AWEIsh" AWEIsh_source AWEIsh));
    ("WI", Some (mkFunction "WI" WI_source WI));
    ("AFRI_1_6", Some (mkFunction "AFRI_1_6" AFRI_1_6_source AFRI_1_6));
    ("AFRI_2_1", Some (mkFunction "AFRI_2_1" AFRI_2_1_source AFRI_2_1));
    ("BSI", Some (mkFunction "BSI" BSI_source BSI));
    ("get_all_index_names", None);
    ("get_all_index", None);
    ("get_needed_bands", None);
    ("get_all_needed_bands", None) ].

(** [inspect.getmembers(module, predicate=inspect.isfunction)]: the
    functions sorted by name. *)
Fixpoint insert_by_name {A} (x : string * A) (l : list (string * A))
  : list (string * A) :=
  match l with
  | [] => [x]
  | y :: l' =>
      if String.leb (fst x) (fst y) then x :: l else y :: insert_by_name x l'
  end.

Definition getmembers : list (string * option function) :=
  fold_right insert_by_name [] functions.

(** [name[0].isupper()] *)
Definition starts_upper (name : string) : bool :=
  match name with
  | String c _ => isupper c
  | EmptyString => false
  end.

(** The loop [for (name, fct) in functions: if name[0].isupper(): ...] of
    [get_all_index] and of [get_all_needed_bands]: the functions it
    keeps. *)
Definition upper_case_functions : list function :=
  flat_map (fun entry =>
              match entry with
              | (name, Some fct) => if starts_upper name then [fct] else []
              | (_, None) => []
              end)
    getmembers.

Definition get_all_index : list function := upper_case_functions.

Definition get_all_index_names : list string :=
  map __name__ get_all_index.

(** The longest run of word characters at the head of [s]. *)
Fixpoint word (s : string) : string :=
  match s with
  | String c s' => if is_word c then String c (word s') else EmptyString
  | EmptyString => EmptyString
  end.

(** A match of [obn\.\w+] at the head of [code]. *)
Definition match_obn (code : string) : option string :=
  match code with
  | String "o" (String "b" (String "n" (String "." tail))) =>
      if String.eqb (word tail) EmptyString then None
      else Some ("obn." +:+ word tail)
  | _ => None
  end.

(** [re.findall(r"obn\.\w+", code)]: the matches from left to right, none
    overlapping another; [skip] counts the characters a match still
    covers. *)
Fixpoint findall_obn (code : string) (skip : nat) : list string :=
  match code with
  | EmptyString => []
  | String _ rest =>
      match skip with
      | Datatypes.S k => findall_obn rest k
      | O =>
          match match_obn code with
          | Some m => m :: findall_obn rest (String.length m - 1)
          | None => findall_obn rest 0
          end
      end
  end.

(** Modelled from the spec: [OpticalBandNames] is not part of the sources
    at hand. [getattr(obn, name)] is the spectral band of that name, and an
    [AttributeError] when there is none. *)
Definition obn_getattr (name : string) : result BandNames :=
  match List.find (fun b => String.eqb (to_str b) name)
          [CA; BLUE; GREEN; RED; VRE_1; VRE_2; VRE_3; NIR; NARROW_NIR; WV;
           SWIR_CIRRUS; SWIR_1; SWIR_2] with
  | Some b => Return b
  | None => Raise (AttributeError name)
  end.

Definition get_needed_bands (index : function) : result (list BandNames) :=
  let code := getsource index in
  for_list (fun b => obn_getattr (default EmptyString (last (split "." b))))
    (findall_obn code 0).

(** The dictionary, in the order its keys are inserted. *)
Definition get_all_needed_bands : result (list (function * list BandNames)) :=
  for_list (fun function => needed <~ get_needed_bands function ;;
                            Return (function, needed))
    upper_case_functions.

End index.

(** ** [eoreader/products/sar/rs2_product.py] *)
Module rs2_product.

Module Rs2ProductType.
Inductive t : Type := SLC | SGX | SGF | SCN | SCW | SCF | SCS | SSG | SPG.

Definition eqb (a b : t) : bool :=
  match a, b with
  | SLC, SLC | SGX, SGX | SGF, SGF | SCN, SCN | SCW, SCW | SCF, SCF
  | SCS, SCS | SSG, SSG | SPG, SPG => true
  | _, _ => false
  end.
End Rs2ProductType.

Module Rs2SensorMode.
Inductive t : Type :=
| S | W | F | WF | MF | WMF | XF | U | WU | EH | EL | SQ | WSQ | FQ | WFQ
| SCN | SCW | OSVN | DVWF | SLA.

(** The members by name, in the order of the class body. *)
Definition members : list (string * t) :=
  [ ("S", S); ("W", W); ("F", F); ("WF", WF); ("MF", MF); ("WMF", WMF);
    ("XF", XF); ("U", U); ("WU", WU); ("EH", EH); ("EL", EL); ("SQ", SQ);
    ("WSQ", WSQ); ("FQ", FQ); ("WFQ", WFQ); ("SCN", SCN); ("SCW", SCW);
    ("OSVN", OSVN); ("DVWF", DVWF); ("SLA", SLA) ].

Definition index (m : t) : nat :=
  match m with
  | S => 0 | W => 1 | F => 2 | WF => 3 | MF => 4 | WMF => 5 | XF => 6
  | U => 7 | WU => 8 | EH => 9 | EL => 10 | SQ => 11 | WSQ => 12 | FQ => 13
  | WFQ => 14 | SCN => 15 | SCW => 16 | OSVN => 17 | DVWF => 18 | SLA => 19
  end.

Definition eqb (a b : t) : bool := Nat.eqb (index a) (index b).

(** The attribute access [Rs2SensorMode.<name>]: the member of that name,
    or [AttributeError] when the class has none. *)
Definition getattr (name : string) : result t :=
  match List.find (fun kv => String.eqb (fst kv) name) members with
  | Some (_, m) => Return m
  | None => Raise (AttributeError name)
  end.

Definition name (m : t) : string :=
  match List.find (fun kv => eqb (snd kv) m) members with
  | Some (n, _) => n
  | None => EmptyString
  end.

(** The member's value: the acquisition type spelled out. *)
Definition value (m : t) : string :=
  match m with
  | S => "Standard" | W => "Wide" | F => "Fine" | WF => "Wide Fine"
  | MF => "Multi-Look Fine" | WMF => "Wide Multi-Look Fine"
  | XF => "Extra-Fine" | U => "Ultra-Fine" | WU => "Wide Ultra-Fine"
  | EH => "Extended High" | EL => "Extended Low" | SQ => "Standard Quad-Pol"
  | WSQ => "Wide Standard Quad-Pol" | FQ => "Fine Quad-Pol"
  | WFQ => "Wide Fine Quad-Pol" | SCN => "ScanSAR Narrow"
  | SCW => "ScanSAR Wide" | OSVN => "Ocean Surveillance"
  | DVWF => "Ship Detection" | SLA => "Spotlight"
  end.

(** [ListEnum.list_values()]: the values in the order of the class body. *)
Definition list_values : list string := map (fun kv => value (snd kv)) members.

(** [ListEnum.from_value(val)]: the member of that value, [ValueError]
    (the exception [_set_sensor_mode] handles) when there is none. *)
Definition from_value (val : string) : result t :=
  match List.find (fun kv => String.eqb (value (snd kv)) val) members with
  | Some (_, m) => Return m
  | None => Raise ValueError
  end.
End Rs2SensorMode.

(** The attributes of an [Rs2Product] that [_set_resolution] reads.
    [product_xml] is the parsed [product.xml] when the product has one;
    [sensor_mode] and [product_type] are [None] when they hold something
    that is no member of the enumeration. *)
Record Rs2Product : Type := mkRs2Product {
  is_archived : bool;
  product_xml : option Element;
  sensor_mode : option Rs2SensorMode.t;
  product_type : option Rs2ProductType.t
}.

Definition Rs2 (A : Type) : Type := M unit A.

(** [s.rindex("}")] *)
Fixpoint rindex_brace (s : string) (i : nat) (last : option nat) : option nat :=
  match s with
  | EmptyString => last
  | String c s' =>
      rindex_brace s' (Datatypes.S i) (if Ascii.eqb c "}" then Some i else last)
  end.

Definition read_mtd (self : Rs2Product) : Rs2 (Element * string) :=
  root <- (if is_archived self then
             access (ReadXml ".*product.xml") ;;;
             match product_xml self with
             | Some root => ret root
             | None => raise IndexError
             end
           else
             access (ReadXml "product.xml") ;;;
             match product_xml self with
             | Some root => ret root
             | None =>
                 raise (InvalidProductError "Metadata file (product.xml) not found")
             end) ;;
  match rindex_brace (tag root) 0 None with
  | Some idx => ret (root, substring 0 (idx + 1) (tag root))
  | None => raise ValueError
  end.

(** [self.sensor_mode == m] and [self.sensor_mode in [m1, ...]] *)
Definition mode_is (x : option Rs2SensorMode.t) (m : Rs2SensorMode.t) : bool :=
  match x with
  | Some y => Rs2SensorMode.eqb y m
  | None => false
  end.

Definition mode_in (x : option Rs2SensorMode.t) (l : list Rs2SensorMode.t) : bool :=
  existsb (mode_is x) l.

Definition type_is (x : option Rs2ProductType.t) (p : Rs2ProductType.t) : bool :=
  match x with
  | Some y => Rs2ProductType.eqb y p
  | None => false
  end.

Definition type_in (x : option Rs2ProductType.t) (l : list Rs2ProductType.t) : bool :=
  existsb (type_is x) l.

Definition str_mode (x : option Rs2SensorMode.t) : string :=
  match x with
  | Some m => "Rs2SensorMode." +:+ Rs2SensorMode.name m
  | None => "None"
  end.

(** The [try] block of [_set_resolution]: the loop over the children of the
    root, stopped at the first [imageAttributes]. *)
Definition read_pixel_spacing (self : Rs2Product) : Rs2 (option float) :=
  mtd <- read_mtd self ;;
  let '(root, namespace) := mtd in
  match List.find (fun element =>
                     String.eqb (tag element) (namespace +:+ "imageAttributes"))
          (children root) with
  | Some element =>
      let raster_attr := find (Child (namespace +:+ "rasterAttributes")) element in
      spacing <- lift (findtext_on raster_attr
                         (Child (namespace +:+ "sampledPixelSpacing"))) ;;
      def_res <- lift (py_float spacing) ;;
      ret (Some def_res)
  | None => ret None
  end.

(** [not def_res] *)
Definition falsy (def_res : option float) : bool :=
  match def_res with
  | None => true
  | Some f => PrimFloat.eqb f 0
  end.

(** The branch taken "if we cannot read it in MTD". *)
Definition survival_mode (self : Rs2Product) : Rs2 float :=
  let sm := sensor_mode self in
  let pt := product_type self in
  let SGX := Rs2ProductType.SGX in
  if mode_is sm Rs2SensorMode.SLA then
    ret (if type_is pt SGX then 1.0 else 0.5)%float
  else if mode_in sm [Rs2SensorMode.U; Rs2SensorMode.WU] then
    ret (if type_is pt SGX then 1.0 else 1.56)%float
  else if mode_in sm [Rs2SensorMode.MF; Rs2SensorMode.WMF;
                      Rs2SensorMode.F; Rs2SensorMode.WF] then
    ret (if type_is pt SGX then 3.13 else 6.25)%float
  else if mode_is sm Rs2SensorMode.XF then
    let def_res := (if type_is pt SGX then 2.0 else 3.13)%float in
    (if type_in pt [Rs2ProductType.SGF; Rs2ProductType.SGX] then
       LOGGER_debug
         "This product is considered to have one look (not checked in metadata)"
     else ret tt) ;;;
    ret def_res
  else if mode_in sm [Rs2SensorMode.S; Rs2SensorMode.EH] then
    ret (if type_is pt SGX then 8.0 else 12.5)%float
  else if mode_in sm [Rs2SensorMode.W; Rs2SensorMode.EL] then
    ret (if type_is pt SGX then 10.0 else 12.5)%float
  else
    (* the list display [[Rs2SensorMode.FQ, Rs2SensorMode.WQ]] is evaluated
       before the membership test *)
    WQ <- lift (Rs2SensorMode.getattr "WQ") ;;
    if mode_in sm [Rs2SensorMode.FQ; WQ] then
      ret 3.13%float
    else if mode_in sm [Rs2SensorMode.SQ; Rs2SensorMode.WSQ] then
      raise (NotImplementedError
               "Not squared pixels management are not implemented in EOReader.")
    else if mode_is sm Rs2SensorMode.SCN then
      ret 25%float
    else if mode_is sm Rs2SensorMode.SCW then
      ret 50%float
    else if mode_is sm Rs2SensorMode.DVWF then
      ret (if type_is pt Rs2ProductType.SCF then 40 else 20)%float
    else if mode_is sm Rs2SensorMode.SCW then
      if type_is pt Rs2ProductType.SCF then ret 50%float
      else raise (NotImplementedError
                    "Not squared pixels management are not implemented in EOReader.")
    else
      raise (InvalidTypeError ("Unknown sensor mode " +:+ str_mode sm)).

(** [except (InvalidProductError, AttributeError): pass] *)
Definition except_pass : exception -> option (Rs2 (option float)) :=
  fun e =>
    if (is_InvalidProductError e || is_AttributeError e)%bool
    then Some (ret None) else None.

Definition _set_resolution (self : Rs2Product) : Rs2 float :=
  def_res <- try_except (read_pixel_spacing self) except_pass ;;
  if falsy def_res then survival_mode self
  else
    match def_res with
    | Some r => ret r
    | None => survival_mode self
    end.

Section SensorMode.

(** [difflib.get_close_matches(word, possibilities)] of the standard
    library: the possibilities that resemble [word] enough, best first. *)
Variable get_close_matches : string -> list string -> list string.

(** The loop of [_set_sensor_mode] over the children of the root, stopped
    at the first [sourceAttributes]. *)
Definition read_acquisition_type (self : Rs2Product) : Rs2 (option string) :=
  mtd <- read_mtd self ;;
  let '(root, namespace) := mtd in
  match List.find (fun element =>
                     String.eqb (tag element) (namespace +:+ "sourceAttributes"))
          (children root) with
  | Some element =>
      let radar_param := find (Child (namespace +:+ "radarParameters")) element in
      lift (findtext_on radar_param (Child (namespace +:+ "acquisitionType")))
  | None => ret None
  end.

(** [_set_sensor_mode] returns [self] with the attribute [sensor_mode]
    assigned; [name] is [self.name]. *)
Definition _set_sensor_mode (self : Rs2Product) (name : string)
  : Rs2 Rs2Product :=
  sensor_mode_xml <- read_acquisition_type self ;;
  match sensor_mode_xml with
  | Some xml =>
      if String.eqb xml EmptyString then
        raise (InvalidTypeError ("Invalid sensor mode for " +:+ name))
      else
        sensor_mode <- lift (list_getitem
                               (get_close_matches xml Rs2SensorMode.list_values) 0) ;;
        try_except
          (m <- lift (Rs2SensorMode.from_value sensor_mode) ;;
           ret (mkRs2Product (is_archived self) (product_xml self) (Some m)
                  (product_type self)))
          (fun ex =>
             match ex with
             | ValueError =>
                 Some (raise (InvalidTypeError ("Invalid sensor mode for " +:+ name)))
             | _ => None
             end)
  | None => raise (InvalidTypeError ("Invalid sensor mode for " +:+ name))
  end.

End SensorMode.

End rs2_product.

(** ** [eoreader/products/sar/csk_product.py] *)
Module csk_product.

Module CskSensorMode.
Inductive t : Type := HI | PP | WR | HR | S2.

Definition value (m : t) : string :=
  match m with
  | HI => "HI" | PP => "PP" | WR => "WR" | HR => "HR" | S2 => "S2"
  end.

(** The members in the order of the class body, as [for sens_mode in
    CskSensorMode] meets them. *)
Definition members : list t := [HI; PP; WR; HR; S2].
End CskSensorMode.

(** The attributes of a [CskProduct] the embedded methods read:
    [real_name], the name of the [.h5] image without its extension, and
    [split_name]. *)
Record CskProduct : Type := mkCskProduct {
  real_name : string;
  split_name : list string
}.

(** The mutable attribute [sensor_mode]. *)
Definition Csk (A : Type) : Type := M (option CskSensorMode.t) A.

Definition _get_split_name (self : CskProduct) : list string :=
  List.filter (fun x => negb (String.eqb x EmptyString))
    (split "_" (real_name self)).

(** A [for] loop whose body only acts on the world. *)
Fixpoint for_in {O A} (l : list A) (body : A -> M O unit) : M O unit :=
  match l with
  | [] => ret tt
  | x :: l' => body x ;;; for_in l' body
  end.

Definition _set_sensor_mode (self : CskProduct) : Csk unit :=
  sensor_mode_name <- lift (list_getitem (split_name self) 3) ;;
  for_in CskSensorMode.members
    (fun sens_mode =>
       if contains (CskSensorMode.value sens_mode) sensor_mode_name
       then set_obj (Some sens_mode) else ret tt) ;;;
  sensor_mode <- get_obj ;;
  match sensor_mode with
  | None =>
      raise (InvalidProductError
               ("Invalid COSMO-Skymed name: " +:+ real_name self))
  | Some _ => ret tt
  end.

End csk_product.

(** ** rasterio *)
Module riocrs.

(** A coordinate reference system, known by the string it was built from. *)
Record CRS : Type := mkCRS { crs_string : string }.

(** [CRS.from_string(value)]: [CRSError] for [None], for the empty string
    and for a string [parse] does not understand. [parse] stands for the
    PROJ library behind rasterio. *)
Definition from_string (parse : string -> option CRS) (value : option string)
  : result CRS :=
  match value with
  | None => Raise CRSError
  | Some s =>
      if String.eqb s EmptyString then Raise CRSError
      else
        match parse s with
        | Some c => Return c
        | None => Raise CRSError
        end
  end.

End riocrs.

Export riocrs.

(** ** [eoreader/products/optical/s2_product.py] *)
Module s2_product.

Import xr.

Inductive S2ProductType : Type := L1C | L2A.

Module S2GmlMasks.
Inductive t : Type :=
| FOOTPRINT | CLOUDS | DEFECT | NODATA | SATURATION | QUALITY | CLDPRB | SNWPRB.

Definition value (m : t) : string :=
  match m with
  | FOOTPRINT => "DETFOO" | CLOUDS => "CLOUDS" | DEFECT => "DEFECT"
  | NODATA => "NODATA" | SATURATION => "SATURA" | QUALITY => "TECQUA"
  | CLDPRB => "CLDPRB" | SNWPRB => "SNWPRB"
  end.
End S2GmlMasks.

Module S2Jp2Masks.
Inductive t : Type := FOOTPRINT | CLOUDS | QUALITY | CLDPRB | SNWPRB.

Definition value (m : t) : string :=
  match m with
  | FOOTPRINT => "DETFOO" | CLOUDS => "CLASSI" | QUALITY => "QUALIT"
  | CLDPRB => "CLDPRB" | SNWPRB => "SNWPRB"
  end.
End S2Jp2Masks.

(** [SpectralBand(eoreader_name=..., **{NAME: .., ID: .., GSD: ..,
    CENTER_WV: .., FWHM: ..})] *)
Record SpectralBand : Type := mkSpectralBand {
  eoreader_name : BandNames;
  NAME : string;
  ID : string;
  GSD : Z;
  CENTER_WV : Z;
  FWHM : Z
}.

(** Modelled from the spec: [eoreader.products.product.OrbitDirection] is
    not part of the sources at hand; its two members are the ones the
    docstring of [get_orbit_direction] shows. *)
Inductive OrbitDirection : Type := ASCENDING | DESCENDING.

(** A row of a vector layer: its [gml_id], its [maskType] when the layer
    has that column, and the pixels of the band grid its geometry covers. *)
Record Feature : Type := mkFeature {
  gml_id : string;
  maskType : option string;
  geometry : list (nat * nat)
}.

(** A [gpd.GeoDataFrame]: [has_maskType] says whether the [maskType] column
    exists at all. *)
Record GeoDataFrame : Type := mkGeoDataFrame {
  has_maskType : bool;
  features : list Feature
}.

(** A [np.uint8] array of two or of three dimensions. *)
Inductive ndarray : Type :=
| Arr2 (a : list (list Z))
| Arr3 (a : list (list (list Z))).

(** What is known of a Sentinel-2 product once it is constructed: the
    attributes set by [_post_init] and the content of its files.
    [mtd_xml] is the granule metadata ([GRANULE/*/*.xml]) and
    [datatake_xml] the datatake metadata ([MTD_MSI*.xml]), [None] when the
    file is missing or cannot be parsed. [gml_masks mask band] is the layer
    [MSK_<mask>_B<band>.gml]: [None] when there is no such file,
    [Some None] when it cannot be read as a vector. [jp2_masks mask band]
    is the raster [MSK_<mask>_B<band>.jp2] on the requested grid, one plane
    per band of the file; [default_band] is the raster of the default band
    and [default_band_crs] the CRS written in it. *)
Record S2Product : Type := mkS2Product {
  product_type : S2ProductType;
  _processing_baseline : float;
  tile_name : string;
  mtd_xml : option Element;
  datatake_xml : option Element;
  gml_masks : string -> string -> option (option GeoDataFrame);
  jp2_masks : string -> string -> option (list (list (list Z)));
  default_band : option DataArray;
  default_band_crs : option string
}.

(** The mutable attributes of the instance: [no_data_val] and what the
    [@cache] decorator has stored, method by method. *)
Record S2State : Type := mkS2State {
  no_data_val : gmap BandNames float;
  memo_crs : option CRS;
  memo__read_mtd : option Element;
  memo_read_datatake_mtd : option Element;
  memo_get_mean_sun_angles : option (float * float);
  memo_get_cloud_cover : option number;
  memo_get_orbit_direction : option OrbitDirection
}.

Definition S2 (A : Type) : Type := M S2State A.

Definition set_no_data_val (v : gmap BandNames float) (o : S2State) : S2State :=
  mkS2State v (memo_crs o) (memo__read_mtd o) (memo_read_datatake_mtd o)
    (memo_get_mean_sun_angles o) (memo_get_cloud_cover o)
    (memo_get_orbit_direction o).

Definition set_memo_crs (v : CRS) (o : S2State) : S2State :=
  mkS2State (no_data_val o) (Some v) (memo__read_mtd o)
    (memo_read_datatake_mtd o) (memo_get_mean_sun_angles o)
    (memo_get_cloud_cover o) (memo_get_orbit_direction o).

Definition set_memo__read_mtd (v : Element) (o : S2State) : S2State :=
  mkS2State (no_data_val o) (memo_crs o) (Some v) (memo_read_datatake_mtd o)
    (memo_get_mean_sun_angles o) (memo_get_cloud_cover o)
    (memo_get_orbit_direction o).

Definition set_memo_read_datatake_mtd (v : Element) (o : S2State) : S2State :=
  mkS2State (no_data_val o) (memo_crs o) (memo__read_mtd o) (Some v)
    (memo_get_mean_sun_angles o) (memo_get_cloud_cover o)
    (memo_get_orbit_direction o).

Definition set_memo_get_mean_sun_angles (v : float * float) (o : S2State)
  : S2State :=
  mkS2State (no_data_val o) (memo_crs o) (memo__read_mtd o)
    (memo_read_datatake_mtd o) (Some v) (memo_get_cloud_cover o)
    (memo_get_orbit_direction o).

Definition set_memo_get_cloud_cover (v : number) (o : S2State) : S2State :=
  mkS2State (no_data_val o) (memo_crs o) (memo__read_mtd o)
    (memo_read_datatake_mtd o) (memo_get_mean_sun_angles o) (Some v)
    (memo_get_orbit_direction o).

Definition set_memo_get_orbit_direction (v : OrbitDirection) (o : S2State)
  : S2State :=
  mkS2State (no_data_val o) (memo_crs o) (memo__read_mtd o)
    (memo_read_datatake_mtd o) (memo_get_mean_sun_angles o)
    (memo_get_cloud_cover o) (Some v).

(** A freshly constructed instance: nothing memoized. *)
Definition fresh : S2State :=
  mkS2State ∅ None None None None None None.

(** Modelled from the spec: the [cache] decorator of [eoreader] is not part
    of the sources at hand. The spec has memoized attributes "computed on
    first access and memoized for the lifetime of the Product instance":
    a stored value is returned as it is; otherwise the method runs and the
    value it returns is stored. A call that raises stores nothing. *)
Definition cache {A} (get : S2State -> option A)
    (set : A -> S2State -> S2State) (method : S2 A) : S2 A :=
  fun w =>
    match get (obj w) with
    | Some v => (Return v, w)
    | None =>
        match method w with
        | (Return v, w') => (Return v, mkWorld (log w') (io w') (set v (obj w')))
        | (Raise e, w') => (Raise e, w')
        end
    end.

(** What the sources use of the classes and libraries that are not part of
    them. *)
Class Collaborators : Type := {
  (** [rasterio.crs.CRS.from_string] on a non-empty string: the CRS, or
      [CRSError] *)
  CRS_parse : string -> option CRS;
  (** [OpticalProduct._set_nodata_mask] *)
  _set_nodata_mask : DataArray -> ndarray -> DataArray;
  (** [OpticalProduct._create_mask] *)
  _create_mask : DataArray -> ndarray -> list (list (list Z)) -> DataArray;
  (** [Product._resolution_from_size] *)
  _resolution_from_size : Z * Z -> float;
  (** [get_band_paths] and [OpticalProduct._open_bands]: path resolution
      and reading, which go through the file system *)
  get_band_paths : S2Product -> list BandNames -> option float ->
                   S2 (gmap BandNames string);
  _open_bands : S2Product -> gmap BandNames string -> option float ->
                option (Z * Z) -> S2 (gmap BandNames DataArray)
}.

Section S2Product.

Context `{Collaborators}.

(** [CRS.from_string(value)] *)
Definition CRS_from_string : option string -> result CRS :=
  riocrs.from_string CRS_parse.

Definition l2a_bands : gmap BandNames SpectralBand :=
  {[ CA := mkSpectralBand CA "B01" "01" 60 442 21;
     BLUE := mkSpectralBand BLUE "B02" "02" 10 492 66;
     GREEN := mkSpectralBand GREEN "B03" "03" 10 560 36;
     RED := mkSpectralBand RED "B04" "04" 10 665 31;
     VRE_1 := mkSpectralBand VRE_1 "B05" "05" 20 704 15;
     VRE_2 := mkSpectralBand VRE_2 "B06" "06" 20 740 15;
     VRE_3 := mkSpectralBand VRE_3 "B07" "07" 20 781 20;
     NIR := mkSpectralBand NIR "B8A" "8A" 10 833 106;
     NARROW_NIR := mkSpectralBand NARROW_NIR "B08" "08" 20 864 21;
     WV := mkSpectralBand WV "B09" "09" 60 944 20;
     SWIR_1 := mkSpectralBand SWIR_1 "B11" "11" 20 1612 92;
     SWIR_2 := mkSpectralBand SWIR_2 "B12" "12" 20 2190 180 ]}.

(** The band map [_map_bands] installs. *)
Definition _map_bands (self : S2Product) : gmap BandNames SpectralBand :=
  match product_type self with
  | L2A => l2a_bands
  | L1C => <[ SWIR_CIRRUS := mkSpectralBand SWIR_CIRRUS "B10" "10" 60 1380 30 ]>
             l2a_bands
  end.

(** [self.bands[band]] *)
Definition bands_getitem (self : S2Product) (band : BandNames)
  : result SpectralBand :=
  match _map_bands self !! band with
  | Some sb => Return sb
  | None => Raise KeyError
  end.

(** Modelled from the spec: [Product._read_mtd_xml] is not part of the
    sources at hand. It looks the metadata file up and parses it, and
    raises [InvalidProductError] when the product has no such file. *)
Definition _read_mtd_xml (mtd_from_path : string) (file : option Element)
  : S2 Element :=
  access (ReadXml mtd_from_path) ;;;
  match file with
  | Some root => ret root
  | None =>
      raise (InvalidProductError
               ("Metadata file (" +:+ mtd_from_path +:+ ") not found"))
  end.

Definition _read_mtd (self : S2Product) : S2 Element :=
  cache memo__read_mtd set_memo__read_mtd
    (_read_mtd_xml "GRANULE/*/*.xml" (mtd_xml self)).

(** [Product.read_mtd], which hands over to [_read_mtd]. *)
Definition read_mtd (self : S2Product) : S2 Element := _read_mtd self.

Definition read_datatake_mtd (self : S2Product) : S2 Element :=
  cache memo_read_datatake_mtd set_memo_read_datatake_mtd
    (_read_mtd_xml "MTD_MSI*.xml" (datatake_xml self)).

(** Modelled from the spec: [OpticalProduct.crs] is not part of the sources
    at hand; it derives the CRS "directly from file metadata", here the
    one of the default band. *)
Definition super_crs (self : S2Product) : S2 CRS :=
  access (ReadRaster "default band") ;;;
  lift (CRS_from_string (default_band_crs self)).

(** [s[i]] on a string *)
Definition str_getitem (s : string) (i : nat) : result string :=
  match String.get i s with
  | Some c => Return (String c EmptyString)
  | None => Raise IndexError
  end.

Definition crs (self : S2Product) : S2 CRS :=
  cache memo_crs set_memo_crs
    (if (_processing_baseline self <? 2.07)%float then
       try_except
         (root <- read_mtd self ;;
          lift (CRS_from_string (findtext (Descendant "HORIZONTAL_CS_CODE") root)))
         (fun e =>
            if is_InvalidProductError e then
              Some (let utm_nb := substring 1 2 (tile_name self) in
                    utm_letter <- lift (str_getitem (tile_name self) 3) ;;
                    let utm_hemisphere :=
                      if String.ltb "N" utm_letter then "6" else "7" in
                    lift (CRS_from_string
                            (Some ("epsg:32" +:+ utm_hemisphere +:+ utm_nb))))
            else None)
     else super_crs self).

Definition endswith (s suffix : string) : bool :=
  let n := String.length s in
  let k := String.length suffix in
  (Nat.leb k n && String.eqb (substring (n - k) k s) suffix)%bool.

(** [self.base_no_data_val], set to [0] by [__init__]. *)
Definition base_no_data_val : Z := 0.

(** [except TypeError: raise InvalidProductError(msg)] *)
Definition TypeError_to_InvalidProductError {A} (msg : string)
  : exception -> option (S2 A) :=
  fun e => if is_TypeError e then Some (raise (InvalidProductError msg)) else None.

(** The [try] block of [_to_reflectance]: offset and quantification value
    from the datatake metadata. *)
Definition read_calibration (self : S2Product) (band : BandNames)
  : S2 (float * float) :=
  root <- read_datatake_mtd self ;;
  let quantif_prefix :=
    match product_type self with L2A => "BOA_" | L1C => "" end in
  quantif_value <-
    try_except
      (lift (py_float (findtext
                         (Descendant (quantif_prefix +:+ "QUANTIFICATION_VALUE"))
                         root)))
      (TypeError_to_InvalidProductError
         (quantif_prefix +:+ "QUANTIFICATION_VALUE not found in datatake metadata!")) ;;
  let offset_prefix :=
    match product_type self with L2A => "BOA_" | L1C => "RADIO_" end in
  offset <-
    (if (_processing_baseline self <? 4.0)%float then ret 0.0%float
     else
       try_except
         (band_id <- (if decide (band = NIR) then ret 8%Z
                      else sb <- lift (bands_getitem self band) ;;
                           lift (py_int (Some (ID sb)))) ;;
          lift (py_float (findtext
                            (DescendantAttr (offset_prefix +:+ "ADD_OFFSET")
                               "band_id" (pretty band_id))
                            root)))
         (TypeError_to_InvalidProductError
            (offset_prefix +:+ "ADD_OFFSET not found in datatake metadata!"))) ;;
  ret (offset, quantif_value).

Definition _to_reflectance (self : S2Product) (band_arr : DataArray)
    (path : string) (band : BandNames) : S2 DataArray :=
  if endswith path ".jp2" then
    cal <- try_except (read_calibration self band)
             (fun e =>
                if is_InvalidProductError e then
                  Some (ret (if (_processing_baseline self <? 4.0)%float
                             then 0.0%float else (-1000.0)%float,
                             10000.0%float))
                else None) ;;
    let '(offset, quantif_value) := cal in
    let band_arr :=
      scalar_op (fun x => (x + offset) / quantif_value)%float band_arr in
    (* a division of two Python numbers, which raises on a zero divisor *)
    nodata <- lift (truediv (float_of_Z base_no_data_val + offset)
                      quantif_value) ;;
    o <- get_obj ;;
    set_obj (set_no_data_val (<[ band := nodata ]> (no_data_val o)) o) ;;;
    ret (astype_np_float32 band_arr)
  else ret (astype_np_float32 band_arr).

Definition get_mean_sun_angles (self : S2Product) : S2 (float * float) :=
  cache memo_get_mean_sun_angles set_memo_get_mean_sun_angles
    (try_except
       (root <- read_mtd self ;;
        try_except
          (let mean_sun_angles := find (Descendant "Mean_Sun_Angle") root in
           zenith <- lift (findtext_on mean_sun_angles (Child "ZENITH_ANGLE")) ;;
           zenith_angle <- lift (py_float zenith) ;;
           azimuth <- lift (findtext_on mean_sun_angles (Child "AZIMUTH_ANGLE")) ;;
           azimuth_angle <- lift (py_float azimuth) ;;
           ret (azimuth_angle, zenith_angle))
          (TypeError_to_InvalidProductError
             "Azimuth or Zenith angles not found in metadata!"))
       (fun ex =>
          match ex with
          | InvalidProductError msg =>
              Some (LOGGER_warning (msg +:+ ": setting sun angles to (0, 0).") ;;;
                    ret (0.0, 0.0)%float)
          | _ => None
          end)).

Definition get_cloud_cover (self : S2Product) : S2 number :=
  cache memo_get_cloud_cover set_memo_get_cloud_cover
    (try_except
       (root <- read_mtd self ;;
        cc <- lift (py_float (findtext (Descendant "CLOUDY_PIXEL_PERCENTAGE") root)) ;;
        ret (Float cc))
       (fun e =>
          if (is_InvalidProductError e || is_TypeError e)%bool then
            Some (LOGGER_warning
                    "CLOUDY_PIXEL_PERCENTAGE not found in metadata! Cloud coverage set to 0." ;;;
                  ret (Int 0))
          else None)).

(** [OrbitDirection.from_value(val)]: the member whose value is [val].
    What is no member's value, [None] included, ends in the constructor of
    the enumeration, which raises [ValueError] (the exception the handler
    in [rs2_product._set_sensor_mode] is written for). *)
Definition OrbitDirection_from_value (val : option string)
  : result OrbitDirection :=
  match val with
  | None => Raise ValueError
  | Some s =>
      if String.eqb s "ASCENDING" then Return ASCENDING
      else if String.eqb s "DESCENDING" then Return DESCENDING
      else Raise ValueError
  end.

Definition get_orbit_direction (self : S2Product) : S2 OrbitDirection :=
  cache memo_get_orbit_direction set_memo_get_orbit_direction
    (try_except
       (root <- read_datatake_mtd self ;;
        try_except
          (lift (OrbitDirection_from_value
                   (findtext (Descendant "SENSING_ORBIT_DIRECTION") root)))
          (TypeError_to_InvalidProductError
             "SENSING_ORBIT_DIRECTION not found in metadata!"))
       (fun e =>
          if is_InvalidProductError e then Some (ret DESCENDING) else None)).

Definition _load_bands (self : S2Product) (bands : list BandNames)
    (resolution : option float) (size : option (Z * Z))
  : S2 (gmap BandNames DataArray) :=
  match bands with
  | [] => ret ∅
  | _ =>
      let resolution :=
        match resolution, size with
        | None, Some sz => Some (_resolution_from_size sz)
        | _, _ => resolution
        end in
      band_paths <- get_band_paths self bands resolution ;;
      band_arrays <- _open_bands self band_paths resolution size ;;
      ret band_arrays
  end.

(** The [band] argument of the mask readers: a band name, a string such
    as ["00"], or [None]. *)
Inductive band_arg : Type :=
| BandArg (b : BandNames)
| StrArg (s : string)
| NoneArg.

(** [str(ex)] *)
Definition str_exception (ex : exception) : string :=
  match ex with
  | InvalidProductError msg | InvalidTypeError msg | NotImplementedError msg
  | AttributeError msg => msg
  | TypeError => "TypeError"
  | ValueError => "ValueError"
  | IndexError => "IndexError"
  | KeyError => "KeyError"
  | ZeroDivisionError => "ZeroDivisionError"
  | AssertionError => "AssertionError"
  | FileNotFoundError => "FileNotFoundError"
  | CRSError => "CRSError"
  | RasterioIOError => "RasterioIOError"
  end.

Definition _open_mask_lt_4_0 (self : S2Product) (mask_id : S2GmlMasks.t)
    (band : band_arg) : S2 GeoDataFrame :=
  let band :=
    match mask_id with
    | S2GmlMasks.CLOUDS => StrArg "00"
    | _ => band
    end in
  band_name <- match band with
               | BandArg b => sb <- lift (bands_getitem self b) ;; ret (ID sb)
               | StrArg s => ret s
               | NoneArg => ret "None"
               end ;;
  try_except
    (access (ReadVector (S2GmlMasks.value mask_id) band_name) ;;;
     match gml_masks self (S2GmlMasks.value mask_id) band_name with
     | None => raise FileNotFoundError
     | Some content =>
         (* [vectors.read(mask_path, crs=self.crs())] *)
         _ <- crs self ;;
         match content with
         | Some mask => ret mask
         | None => raise ValueError
         end
     end)
    (fun ex => Some (raise (InvalidProductError (str_exception ex)))).

Definition _open_mask_gt_4_0 (self : S2Product) (mask_id : S2Jp2Masks.t)
    (band : band_arg) : S2 (list (list (list Z))) :=
  let band :=
    match mask_id with
    | S2Jp2Masks.CLOUDS => StrArg "00"
    | _ => band
    end in
  band_id <- match band with
             | BandArg b => sb <- lift (bands_getitem self b) ;; ret (ID sb)
             | StrArg s => ret s
             | NoneArg => ret "None"
             end ;;
  access (ReadRaster ("MSK_" +:+ S2Jp2Masks.value mask_id +:+ "_B" +:+ band_id
                      +:+ ".jp2")) ;;;
  match jp2_masks self (S2Jp2Masks.value mask_id) band_id with
  | Some mask => ret mask
  | None => raise FileNotFoundError
  end.

(** Modelled from the spec: [_mask_true] and [_mask_false] are attributes
    of the base class; a mask holds 1 where a pixel is invalid. *)
Definition _mask_true : Z := 1.
Definition _mask_false : Z := 0.

Definition covers (shapes : list (list (nat * nat))) (i j : nat) : bool :=
  existsb (existsb (fun p => (Nat.eqb (fst p) i && Nat.eqb (snd p) j)%bool)) shapes.

(** [features.rasterize(shapes, out_shape, fill, default_value, transform,
    dtype=np.uint8)] on the grid of the band: [default_value] on the pixels
    a shape covers, [fill] elsewhere. *)
Definition rasterize (shapes : list (list (nat * nat))) (out_shape : nat * nat)
    (fill default_value : Z) : list (list Z) :=
  map (fun i =>
         map (fun j => if covers shapes i j then default_value else fill)
           (seq 0 (snd out_shape)))
    (seq 0 (fst out_shape)).

(** [arr[index] = v] with [index] an array of integers: every entry of
    [index] selects a position along the first axis of [arr], and the whole
    of what stands there is overwritten; an entry past the end is an
    [IndexError]. [fill] overwrites one position. *)
Definition setitem_index {A} (fill : A -> A) (arr : list A)
    (index : list (list Z)) : result (list A) :=
  let idx := concat index in
  if forallb (fun i => (i <? Z.of_nat (length arr))%Z) idx then
    Return (imap (fun k x =>
                    if existsb (Z.eqb (Z.of_nat k)) idx then fill x else x)
              arr)
  else Raise IndexError.

Definition ndarray_setitem (mask : ndarray) (index : list (list Z)) (v : Z)
  : result ndarray :=
  match mask with
  | Arr2 a =>
      a' <~ setitem_index (map (fun _ => v)) a index ;;
      Return (Arr2 a')
  | Arr3 a =>
      a' <~ setitem_index (map (map (fun _ => v))) a index ;;
      Return (Arr3 a')
  end.

(** [len(gdf)] and the row selections [gdf[gdf.gml_id == v]],
    [gdf[gdf.gml_id.isin(vs)]] *)
Definition len (gdf : GeoDataFrame) : nat := length (features gdf).

Definition select (keep : Feature -> bool) (gdf : GeoDataFrame) : GeoDataFrame :=
  {| has_maskType := has_maskType gdf;
     features := List.filter keep (features gdf) |}.

Definition shapes_of (gdf : GeoDataFrame) : list (list (nat * nat)) :=
  map geometry (features gdf).

(** [np.where(band_arr == s2_nodata, 1, 0).astype(np.uint8)] *)
Definition where_equal (band_arr : DataArray) (s2_nodata : float)
  : list (list (list Z)) :=
  map3 (fun x => if (x =? s2_nodata)%float then 1%Z else 0%Z) (data band_arr).

Definition _manage_invalid_pixels_lt_4_0 (self : S2Product)
    (band_arr : DataArray) (band : BandNames) : S2 DataArray :=
  nodata_det <- _open_mask_lt_4_0 self S2GmlMasks.FOOTPRINT (BandArg band) ;;
  mask <- (if Nat.ltb 0 (len nodata_det) then
             ret (Arr2 (rasterize (shapes_of nodata_det)
                          (rio_height band_arr, rio_width band_arr)
                          _mask_true _mask_false))
           else
             LOGGER_warning
               "Empty detector footprint (DETFOO) vector. Nodata will be set where the pixels are null." ;;;
             let s2_nodata := 0%float in
             ret (Arr3 (where_equal band_arr s2_nodata))) ;;
  nodata_pix <- _open_mask_lt_4_0 self S2GmlMasks.NODATA (BandArg band) ;;
  let nodata_pix :=
    if Nat.ltb 0 (len nodata_pix)
    then select (fun f => String.eqb (gml_id f) "QT_NODATA_PIXELS") nodata_pix
    else nodata_pix in
  (* [nodata_pix.append(...)] builds a new frame and leaves [nodata_pix]
     as it is: of the three [append] statements only the reading stays *)
  _ <- _open_mask_lt_4_0 self S2GmlMasks.DEFECT (BandArg band) ;;
  _ <- _open_mask_lt_4_0 self S2GmlMasks.SATURATION (BandArg band) ;;
  tecqua <- _open_mask_lt_4_0 self S2GmlMasks.QUALITY (BandArg band) ;;
  let tecqua :=
    if Nat.ltb 0 (len tecqua)
    then select (fun f => (String.eqb (gml_id f) "MSI_LOST"
                           || String.eqb (gml_id f) "MSI_DEG")%bool) tecqua
    else tecqua in
  mask <- (if Nat.ltb 0 (len nodata_pix) then
             let mask_pix :=
               rasterize (shapes_of nodata_pix)
                 (rio_height band_arr, rio_width band_arr)
                 _mask_false _mask_true in
             lift (ndarray_setitem mask mask_pix _mask_true)
           else ret mask) ;;
  ret (_set_nodata_mask band_arr mask).

Definition _manage_nodata_lt_4_0 (self : S2Product) (band_arr : DataArray)
    (band : BandNames) : S2 DataArray :=
  nodata_det <- _open_mask_lt_4_0 self S2GmlMasks.FOOTPRINT (BandArg band) ;;
  mask <- (if Nat.ltb 0 (len nodata_det) then
             ret (Arr2 (rasterize (shapes_of nodata_det)
                          (rio_height band_arr, rio_width band_arr)
                          _mask_true _mask_false))
           else
             LOGGER_warning
               "Empty detector footprint (DETFOO) vector. Nodata will be set where the pixels are null." ;;;
             let s2_nodata := 0%float in
             ret (Arr3 (where_equal band_arr s2_nodata))) ;;
  ret (_set_nodata_mask band_arr mask).

Definition _has_cloud_band (band : BandNames) : bool :=
  if decide (band = SHADOWS) then false else true.

(** Reading the default band, as [_open_clouds_lt_4_0] does through
    [_read_band]: the raster, or [InvalidProductError] for a corrupted
    file. *)
Definition read_default_band (self : S2Product) : S2 DataArray :=
  access (ReadRaster "default band") ;;;
  match default_band self with
  | Some a => ret a
  | None => raise (InvalidProductError "Corrupted file")
  end.

Definition _rasterize (xds : DataArray) (geometry : GeoDataFrame)
    (nodata : list (list (list Z))) : DataArray :=
  let cond :=
    if Nat.ltb 0 (len geometry) then
      Arr3 [rasterize (shapes_of geometry) (rio_height xds, rio_width xds)
              _mask_false _mask_true]
    else
      Arr3 (repeat (repeat (repeat _mask_false (rio_width xds)) (rio_height xds))
              (rio_count xds)) in
  _create_mask xds cond nodata.

(** [cloud_vec[cloud_vec.maskType == v]], the empty frame when the layer
    has no [maskType] column ([except AttributeError]). *)
Definition select_maskType (v : string) (cloud_vec : GeoDataFrame) : GeoDataFrame :=
  if has_maskType cloud_vec then
    select (fun f => match maskType f with
                     | Some t => String.eqb t v
                     | None => false
                     end) cloud_vec
  else {| has_maskType := false; features := [] |}.

Definition set_long_name (n : string) (a : DataArray) : DataArray :=
  {| name := name a; long_name := Some n; data := data a |}.

(** The body of [for band in bands] in [_open_clouds_lt_4_0]. *)
Definition open_cloud_lt_4_0 (def_band : DataArray) (cloud_vec : GeoDataFrame)
    (nodata : list (list (list Z))) (band : BandNames)
    (band_dict : gmap BandNames DataArray) : S2 (gmap BandNames DataArray) :=
  cloud <- (if decide (band = ALL_CLOUDS) then
              ret (_rasterize def_band cloud_vec nodata)
            else if decide (band = CIRRUS) then
              ret (_rasterize def_band (select_maskType "CIRRUS" cloud_vec) nodata)
            else if decide (band = CLOUDS) then
              ret (_rasterize def_band (select_maskType "OPAQUE" cloud_vec) nodata)
            else if decide (band = RAW_CLOUDS) then
              ret (_rasterize def_band cloud_vec nodata)
            else
              raise (InvalidTypeError
                       ("Non existing cloud band for Sentinel-2: "
                        +:+ str_band band))) ;;
  let band_name := to_str band in
  let cloud := if decide (band = RAW_CLOUDS) then cloud
               else set_long_name band_name cloud in
  ret (<[ band := astype_np_float32 (rename band_name cloud) ]> band_dict).

(** A [for] loop that threads the dictionary it fills. *)
Fixpoint for_each {A D} (body : A -> D -> S2 D) (l : list A) (d : D) : S2 D :=
  match l with
  | [] => ret d
  | x :: l' => d' <- body x d ;; for_each body l' d'
  end.

Definition _open_clouds_lt_4_0 (self : S2Product) (bands : list BandNames)
  : S2 (gmap BandNames DataArray) :=
  let band_dict : gmap BandNames DataArray := ∅ in
  match bands with
  | [] => ret band_dict
  | _ =>
      cloud_vec <- _open_mask_lt_4_0 self S2GmlMasks.CLOUDS NoneArg ;;
      def_band <- read_default_band self ;;
      let nodata :=
        map3 (fun x => if is_nan x then 1%Z else 0%Z) (data def_band) in
      for_each (open_cloud_lt_4_0 def_band cloud_vec nodata) bands band_dict
  end.

(** [cloud_vec[k, :, :]] *)
Definition plane (cloud_vec : list (list (list Z))) (k : nat)
  : result (list (list Z)) :=
  match cloud_vec !! k with
  | Some p => Return p
  | None => Raise IndexError
  end.

(** An integer raster as a named float32 array. *)
Definition as_float32 (band_name : string) (long : option string)
    (cloud : list (list (list Z))) : DataArray :=
  astype_np_float32
    {| name := Some band_name; long_name := long;
       data := map3 float_of_Z cloud |}.

(** The body of [for band in bands] in [_open_clouds_gt_4_0]. *)
Definition open_cloud_gt_4_0 (cloud_vec : list (list (list Z)))
    (band : BandNames) (band_dict : gmap BandNames DataArray)
  : S2 (gmap BandNames DataArray) :=
  cloud <- (if decide (band = ALL_CLOUDS) then
              opaque <- lift (plane cloud_vec 0) ;;
              cirrus <- lift (plane cloud_vec 1) ;;
              ret [zip_with (zip_with Z.lor) opaque cirrus]
            else if decide (band = CIRRUS) then
              cirrus <- lift (plane cloud_vec 1) ;;
              ret [cirrus]
            else if decide (band = CLOUDS) then
              opaque <- lift (plane cloud_vec 0) ;;
              ret [opaque]
            else if decide (band = RAW_CLOUDS) then
              ret cloud_vec
            else
              raise (InvalidTypeError
                       ("Non existing cloud band for Sentinel-2: "
                        +:+ str_band band))) ;;
  let band_name := to_str band in
  let long := if decide (band = RAW_CLOUDS) then None else Some band_name in
  ret (<[ band := as_float32 band_name long cloud ]> band_dict).

Definition _open_clouds_gt_4_0 (self : S2Product) (bands : list BandNames)
  : S2 (gmap BandNames DataArray) :=
  let band_dict : gmap BandNames DataArray := ∅ in
  match bands with
  | [] => ret band_dict
  | _ =>
      cloud_vec <- _open_mask_gt_4_0 self S2Jp2Masks.CLOUDS (StrArg "00") ;;
      let cloud_vec := map3 (fun v => (v mod 256)%Z) cloud_vec in
      for_each (open_cloud_gt_4_0 cloud_vec) bands band_dict
  end.

Definition _open_clouds (self : S2Product) (bands : list BandNames)
  : S2 (gmap BandNames DataArray) :=
  if (_processing_baseline self <? 4.0)%float
  then _open_clouds_lt_4_0 self bands
  else _open_clouds_gt_4_0 self bands.

End S2Product.

End s2_product.

(** ** [eoreader/products/optical/s3_product.py] *)
Module s3_product.

Import xr.

(** A NetCDF variable as [rasters.read] opens it: its [scale_factor]
    attribute and its values, dimensions [(band, y, x)]. *)
Record NcArray : Type := mkNcArray {
  scale_factor : float;
  nc_data : list (list (list float))
}.

(** The attributes of an [S3Product] the embedded methods read, set by
    [_set_preprocess_members], and the NetCDF variables of the product:
    [nc_files filename subdataset] is [None] when it cannot be opened. *)
Record S3Product : Type := mkS3Product {
  _tie_geo_file : string;
  _tie_lat_nc_name : string;
  _tie_lon_nc_name : string;
  nc_files : string -> string -> option NcArray
}.

Definition S3 (A : Type) : Type := M unit A.

(** What the sources use of the classes and libraries that are not part of
    them. *)
Class Collaborators : Type := {
  (** [rasterio.crs.CRS.from_string] on a string *)
  CRS_parse : string -> option CRS;
  (** [sertit.vectors.corresponding_utm_projection] *)
  corresponding_utm_projection : float -> float -> string;
  (** [Product._resolution_from_size] *)
  _resolution_from_size : Z * Z -> float;
  (** [get_band_paths] and [OpticalProduct._open_bands]: path resolution,
      pre-processing and reading, which go through the file system *)
  get_band_paths : S3Product -> list BandNames -> option float ->
                   S3 (gmap BandNames string);
  _open_bands : S3Product -> gmap BandNames string -> option float ->
                option (Z * Z) -> S3 (gmap BandNames DataArray)
}.

Section S3Product.

Context `{Collaborators}.

Definition _get_nc_path_str (filename : string) (subdataset : option string)
  : string :=
  let path := "netcdf:" +:+ filename in
  match subdataset with
  | Some sub => if String.eqb sub EmptyString then path else path +:+ ":" +:+ sub
  | None => path
  end.

Definition _read_nc (self : S3Product) (filename subdataset : string)
  : S3 DataArray :=
  access (ReadRaster (_get_nc_path_str filename (Some subdataset))) ;;;
  match nc_files self filename subdataset with
  | Some nc =>
      ret {| name := None; long_name := None;
             data := map3 (fun x => astype_float32 x * scale_factor nc)%float
                       (nc_data nc) |}
  | None => raise RasterioIOError
  end.

(** The shape of the values of an array. *)
Definition shape (a : DataArray) : nat * nat * nat :=
  (length (data a), rio_height a, rio_width a).

Definition shape_eqb (s t : nat * nat * nat) : bool :=
  (Nat.eqb (fst (fst s)) (fst (fst t)) && Nat.eqb (snd (fst s)) (snd (fst t))
   && Nat.eqb (snd s) (snd t))%bool.

(** [a[0, y, x].data] *)
Definition item (a : DataArray) (y x : nat) : result float :=
  match pixel (data a) 0 y x with
  | Some v => Return v
  | None => Raise IndexError
  end.

Definition crs (self : S3Product) : S3 CRS :=
  lat <- _read_nc self (_tie_geo_file self) (_tie_lat_nc_name self) ;;
  lon <- _read_nc self (_tie_geo_file self) (_tie_lon_nc_name self) ;;
  if negb (shape_eqb (shape lat) (shape lon)) then raise AssertionError
  else
    let mid_x := Nat.div (rio_width lat) 2 in
    let mid_y := Nat.div (rio_height lat) 2 in
    mid_lat <- lift (item lat mid_y mid_x) ;;
    mid_lon <- lift (item lon mid_y mid_x) ;;
    let utm := corresponding_utm_projection mid_lat mid_lon in
    lift (riocrs.from_string CRS_parse (Some utm)).

Definition _load_bands (self : S3Product) (bands : list BandNames)
    (resolution : option float) (size : option (Z * Z))
  : S3 (gmap BandNames DataArray) :=
  match bands with
  | [] => ret ∅
  | _ =>
      let resolution :=
        match resolution, size with
        | None, Some sz => Some (_resolution_from_size sz)
        | _, _ => resolution
        end in
      band_paths <- get_band_paths self bands resolution ;;
      band_arrays <- _open_bands self band_paths resolution size ;;
      ret band_arrays
  end.

(** The size of an axis as the index [-1] needs it: the last position, or
    [IndexError] on an empty axis. *)
Definition last_index (size : nat) : result nat :=
  match size with
  | O => Raise IndexError
  | Datatypes.S n => Return n
  end.

(** [plane[:, j]] *)
Definition column (plane : list (list float)) (j : nat) : result (list float) :=
  for_list (fun row => list_getitem row j) plane.

(** The list [vertex] of [footprint]: the border of the tie-point grid,
    walked along the first row, down the last column, back along the last
    row and up the first column. *)
Definition footprint_vertices (lat lon : DataArray)
  : result (list (float * float)) :=
  lon0 <~ list_getitem (data lon) 0 ;;
  lat0 <~ list_getitem (data lat) 0 ;;
  (* [zip(lon.data[0, 0, :], lat.data[0, 0, :])] *)
  lon_top <~ list_getitem lon0 0 ;;
  lat_top <~ list_getitem lat0 0 ;;
  let vertex := zip lon_top lat_top in
  (* [zip(lon.data[0, :, -1], lat.data[0, :, -1])] *)
  lon_j <~ last_index (rio_width lon) ;;
  lon_right <~ column lon0 lon_j ;;
  lat_j <~ last_index (rio_width lat) ;;
  lat_right <~ column lat0 lat_j ;;
  let vertex := vertex ++ zip lon_right lat_right in
  (* [zip(lon.data[0, -1, ::-1], lat.data[0, -1, ::-1])] *)
  lon_i <~ last_index (length lon0) ;;
  lon_bottom <~ list_getitem lon0 lon_i ;;
  lat_i <~ last_index (length lat0) ;;
  lat_bottom <~ list_getitem lat0 lat_i ;;
  let vertex := vertex ++ zip (reverse lon_bottom) (reverse lat_bottom) in
  (* [zip(lon.data[0, ::-1, 0], lat.data[0, ::-1, 0])] *)
  lon_left <~ column (reverse lon0) 0 ;;
  lat_left <~ column (reverse lat0) 0 ;;
  let vertex := vertex ++ zip lon_left lat_left in
  Return vertex.

Section Footprint.

(** geopandas: [Frame] is a [gpd.GeoDataFrame]; [polygon_frame vertex] is
    [gpd.GeoDataFrame(geometry=[Polygon(vertex)], crs=vectors.WGS84)] and
    [to_crs frame crs] is [frame.to_crs(crs)]. *)
Variable Frame : Type.
Variable polygon_frame : list (float * float) -> result Frame.
Variable to_crs : Frame -> CRS -> result Frame.

Definition footprint (self : S3Product) : S3 Frame :=
  lat <- _read_nc self (_tie_geo_file self) (_tie_lat_nc_name self) ;;
  lon <- _read_nc self (_tie_geo_file self) (_tie_lon_nc_name self) ;;
  if negb (shape_eqb (shape lat) (shape lon)) then raise AssertionError
  else
    vertex <- lift (footprint_vertices lat lon) ;;
    extent_wgs84 <- lift (polygon_frame vertex) ;;
    utm <- crs self ;;
    lift (to_crs extent_wgs84 utm).

End Footprint.

Section Metadata.

(** The global attributes of the tie-point geometry file as
    [netCDF4.Dataset] shows them, each with its [str(...)]; [None] when the
    product has no such file. *)
Variable global_attributes : S3Product -> option (gmap string string).

(** [etree.fromstring(etree.tostring(mtd, ...))]: the element serialized
    and parsed again. *)
Variable reparse : Element -> Element.

(** [datetime.strptime] and [date.strftime] of the standard library. *)
Variable datetime : Type.
Variable strptime : string -> string -> result datetime.
Variable strftime : datetime -> string -> string.

Definition global_attr_names : list string :=
  [ "absolute_orbit_number"; "comment"; "contact"; "creation_time"; "history";
    "institution"; "netCDF_version"; "product_name"; "references";
    "resolution"; "source"; "start_offset"; "start_time"; "stop_time"; "title";
    "ac_subsampling_factor"; "al_subsampling_factor"; "track_offset" ].

(** [[E(attr, str(getattr(netcdf_ds, attr))) for attr in names
    if hasattr(netcdf_ds, attr)]] *)
Definition global_attr (netcdf_ds : gmap string string) (names : list string)
  : list Element :=
  flat_map (fun attr =>
              match netcdf_ds !! attr with
              | Some value => [leaf attr value]
              | None => []
              end)
    names.

Definition _read_mtd (self : S3Product) : S3 Element :=
  match global_attributes self with
  | None =>
      raise (InvalidProductError "This Sentinel-3 product has no geometry file !")
  | Some netcdf_ds =>
      access (ReadRaster (_tie_geo_file self)) ;;;
      let mtd := mkElement "s3_global_attributes" [] None
                   (global_attr netcdf_ds global_attr_names) in
      ret (reparse mtd)
  end.

(** Modelled from the spec: [Product.read_mtd] is not part of the sources
    at hand; it hands over to [_read_mtd]. *)
Definition read_mtd (self : S3Product) : S3 Element := _read_mtd self.

(** Modelled from the spec: [eoreader.utils.DATETIME_FMT] is not part of
    the sources at hand; the docstrings give the format. *)
Definition DATETIME_FMT : string := "%Y%m%dT%H%M%S".

(** [datetime.strptime(acq_date, fmt)] where [acq_date] may be [None] *)
Definition strptime_on (acq_date : option string) (fmt : string)
  : result datetime :=
  match acq_date with
  | Some s => strptime s fmt
  | None => Raise TypeError
  end.

(** The result is a string, or a [datetime] when [as_datetime] is set. *)
Definition get_datetime (self : S3Product) (as_datetime : bool)
  : S3 (string + datetime) :=
  root <- read_mtd self ;;
  acq_date <-
    try_except
      (ret (findtext (Descendant "start_time") root))
      (fun ex =>
         match ex with
         | TypeError =>
             Some (raise (InvalidProductError "start_time not found in metadata !"))
         | _ => None
         end) ;;
  date <- lift (strptime_on acq_date "%Y-%m-%dT%H:%M:%S.%fZ") ;;
  if negb as_datetime then ret (inl (strftime date DATETIME_FMT))
  else ret (inr date).

End Metadata.

End S3Product.

End s3_product.

(** * Part II. The terms of the properties *)

(** ** Band mappings for the spectral indices *)
Module index_terms.

Import xr index.

(** One pixel with NIR = 3 and RED = 1. *)
Definition nir_3 : DataArray := of_rows [[3%float]].
Definition red_1 : DataArray := of_rows [[1%float]].
Definition bands_3_1 : Bands := {[ NIR := nir_3; RED := red_1 ]}.

(** One pixel with RED = 1 and GREEN = 0. *)
Definition bands_1_0 : Bands :=
  {[ RED := of_rows [[1%float]]; GREEN := of_rows [[0%float]] ]}.

(** The bands of [needed] are in [bands]. *)
Definition all_loaded (bands : Bands) (needed : list BandNames) : Prop :=
  Forall (fun b => is_Some (bands !! b)) needed.

(** [function] reads exactly the bands [needed]: it returns an array under
    its own name when they are all in [bands], and raises [KeyError] when
    one is not. *)
Definition reads_exactly (function : function) (needed : list BandNames)
  : Prop :=
  forall bands : Bands,
    (all_loaded bands needed ->
     exists out, call function bands = Return out /\
                 name out = Some (__name__ function)) /\
    (~ all_loaded bands needed -> call function bands = Raise KeyError).

(** Where one of the bands [needed] is no-data (NaN) at a pixel, so is what
    [function] returns there: [px] gives the pixel of each band at
    [(k, i, j)]. *)
Definition propagates_nodata (function : function) (needed : list BandNames)
  : Prop :=
  forall (bands : Bands) (k i j : nat) (px : BandNames -> float),
    (forall b, In b needed ->
               exists a, bands !! b = Some a /\ pixel (data a) k i j = Some (px b)) ->
    (exists b, In b needed /\ is_nodata (px b) = true) ->
    exists out v,
      call function bands = Return out /\
      pixel (data out) k i j = Some v /\ is_nodata v = true.

(** [Q] holds of a function of the module, when it is an index, and of the
    bands [get_needed_bands] finds in its text. *)
Definition found (Q : function -> list BandNames -> Prop)
    (entry : string * option function) : Prop :=
  match snd entry with
  | Some function =>
      exists needed, get_needed_bands function = Return needed /\ Q function needed
  | None => True
  end.

End index_terms.

(** ** RADARSAT-2: the table of defaults and products without pixel spacing *)
Module rs2_terms.

Import rs2_product.

(** The default pixel spacings as a table keyed by the sensor mode; [sgx]
    tells whether the product type is SGX. The modes without a row are the
    ones for which the fallback hands out nothing. *)
Definition default_pixel_spacing (m : Rs2SensorMode.t) (sgx : bool)
  : option float :=
  match m with
  | Rs2SensorMode.SLA => Some (if sgx then 1.0 else 0.5)%float
  | Rs2SensorMode.U | Rs2SensorMode.WU => Some (if sgx then 1.0 else 1.56)%float
  | Rs2SensorMode.MF | Rs2SensorMode.WMF | Rs2SensorMode.F | Rs2SensorMode.WF =>
      Some (if sgx then 3.13 else 6.25)%float
  | Rs2SensorMode.XF => Some (if sgx then 2.0 else 3.13)%float
  | Rs2SensorMode.S | Rs2SensorMode.EH => Some (if sgx then 8.0 else 12.5)%float
  | Rs2SensorMode.W | Rs2SensorMode.EL => Some (if sgx then 10.0 else 12.5)%float
  | _ => None
  end.

(** The metadata gives no pixel spacing and the [try] block ends quietly:
    there is no [product.xml] in the product directory, or the root has no
    [imageAttributes] child, or that child has no [rasterAttributes]. *)
Definition no_pixel_spacing (self : Rs2Product) : Prop :=
  (is_archived self = false /\ product_xml self = None) \/
  (exists root idx,
      product_xml self = Some root /\
      rindex_brace (tag root) 0 None = Some idx /\
      match List.find
              (fun element =>
                 String.eqb (tag element)
                   (substring 0 (idx + 1) (tag root) +:+ "imageAttributes"))
              (children root) with
      | None => True
      | Some element =>
          find (Child (substring 0 (idx + 1) (tag root) +:+ "rasterAttributes"))
            element = None
      end).

(** An unarchived product without [product.xml], in Standard Quad-Pol mode. *)
Definition quad_pol_product : Rs2Product :=
  mkRs2Product false None (Some Rs2SensorMode.SQ) (Some Rs2ProductType.SGF).

(** An unarchived product without [product.xml], in ScanSAR Narrow mode. *)
Definition scansar_narrow_product : Rs2Product :=
  mkRs2Product false None (Some Rs2SensorMode.SCN) (Some Rs2ProductType.SGF).

Definition start : World unit := mkWorld [] [] tt.

(** A Spotlight product whose [rasterAttributes] has no
    [sampledPixelSpacing]. *)
Definition spacingless_xml : Element :=
  mkElement "{http://www.rsi.ca/rs2/prod/xml/schemas}product" [] None
    [mkElement "{http://www.rsi.ca/rs2/prod/xml/schemas}imageAttributes" [] None
       [mkElement "{http://www.rsi.ca/rs2/prod/xml/schemas}rasterAttributes" []
          None
          [leaf "{http://www.rsi.ca/rs2/prod/xml/schemas}numberOfLines" "7254"]]].

Definition spacingless_product : Rs2Product :=
  mkRs2Product false (Some spacingless_xml) (Some Rs2SensorMode.SLA)
    (Some Rs2ProductType.SGF).

(** A Spotlight SGX product without [product.xml]. *)
Definition spotlight_product : Rs2Product :=
  mkRs2Product false None (Some Rs2SensorMode.SLA) (Some Rs2ProductType.SGX).

(** No closing brace in [s]. *)
Definition no_brace (s : string) : Prop :=
  ~ In "}"%char (list_ascii_of_string s).

(** The world once [read_mtd] has opened [product.xml]. *)
Definition after_read (self : Rs2Product) (w : World unit) : World unit :=
  mkWorld (log w)
    (io w ++ [ReadXml (if is_archived self then ".*product.xml" else "product.xml")])
    (obj w).

(** The namespace of the root: its tag up to the last closing brace. *)
Definition namespace_of (root : Element) : option string :=
  match rindex_brace (tag root) 0 None with
  | Some idx => Some (substring 0 (idx + 1) (tag root))
  | None => None
  end.

(** The namespace and the element [inner] of the first child [outer] of
    the root of [product.xml], when the product has them. *)
Definition child_of_first (self : Rs2Product) (outer inner : string)
  : option (string * Element) :=
  match product_xml self with
  | Some root =>
      match namespace_of root with
      | Some ns =>
          match List.find (fun element => String.eqb (tag element) (ns +:+ outer))
                  (children root) with
          | Some element =>
              match find (Child (ns +:+ inner)) element with
              | Some el => Some (ns, el)
              | None => None
              end
          | None => None
          end
      | None => None
      end
  | None => None
  end.

(** What [rasterAttributes] holds as [sampledPixelSpacing]: [Some None]
    when [rasterAttributes] is there and the spacing is not. *)
Definition pixel_spacing_text (self : Rs2Product) : option (option string) :=
  match child_of_first self "imageAttributes" "rasterAttributes" with
  | Some (ns, raster_attr) =>
      Some (findtext (Child (ns +:+ "sampledPixelSpacing")) raster_attr)
  | None => None
  end.

(** What [radarParameters] holds as [acquisitionType]. *)
Definition acquisition_type_text (self : Rs2Product) : option (option string) :=
  match child_of_first self "sourceAttributes" "radarParameters" with
  | Some (ns, radar_param) =>
      Some (findtext (Child (ns +:+ "acquisitionType")) radar_param)
  | None => None
  end.

(** [self] once [sensor_mode] is assigned. *)
Definition with_sensor_mode (self : Rs2Product) (m : Rs2SensorMode.t)
  : Rs2Product :=
  mkRs2Product (is_archived self) (product_xml self) (Some m) (product_type self).

(** The sensor mode has no row in the table of defaults. *)
Definition without_default (self : Rs2Product) : Prop :=
  match sensor_mode self with
  | Some m => default_pixel_spacing m false = None
  | None => True
  end.

(** What [_set_sensor_mode] raises when it refuses a product. *)
Definition invalid_sensor_mode (name : string) : exception :=
  InvalidTypeError ("Invalid sensor mode for " +:+ name).

(** A Wide product with its pixel spacing and its acquisition type. *)
Definition wide_xml : Element :=
  mkElement "{http://www.rsi.ca/rs2/prod/xml/schemas}product" [] None
    [mkElement "{http://www.rsi.ca/rs2/prod/xml/schemas}sourceAttributes" [] None
       [mkElement "{http://www.rsi.ca/rs2/prod/xml/schemas}radarParameters" []
          None
          [leaf "{http://www.rsi.ca/rs2/prod/xml/schemas}acquisitionType" "Wide"]];
     mkElement "{http://www.rsi.ca/rs2/prod/xml/schemas}imageAttributes" [] None
       [mkElement "{http://www.rsi.ca/rs2/prod/xml/schemas}rasterAttributes" []
          None
          [leaf "{http://www.rsi.ca/rs2/prod/xml/schemas}sampledPixelSpacing"
             "12.5"]]].

Definition wide_product : Rs2Product :=
  mkRs2Product false (Some wide_xml) None (Some Rs2ProductType.SGF).

(** The matcher that only knows exact matches. *)
Definition exact_matches (word : string) (possibilities : list string)
  : list string :=
  List.filter (String.eqb word) possibilities.

End rs2_terms.

(** ** COSMO-SkyMed: the fields of a product name *)
Module csk_terms.

Import csk_product.

(** The characters of [s] that are no underscore. *)
Definition without_underscores (s : string) : string :=
  string_of_list_ascii
    (List.filter (fun c => negb (Ascii.eqb c "_")) (list_ascii_of_string s)).

(** The members whose value occurs in [field], in the order of the class
    body. *)
Definition matching_modes (field : string) : list CskSensorMode.t :=
  List.filter (fun m => contains (CskSensorMode.value m) field)
    CskSensorMode.members.

(** The product of the class docstring. *)
Definition himage_name : string :=
  "CSKS1_SCS_B_HI_15_HH_RA_SF_20201028224625_20201028224632".

Definition himage_product : CskProduct :=
  mkCskProduct himage_name (_get_split_name (mkCskProduct himage_name [])).

Definition start : World (option CskSensorMode.t) := mkWorld [] [] None.

End csk_terms.

(** ** Sentinel-2: metadata at hand, reflectance, fallbacks, masks *)
Module s2_terms.

Import xr s2_product.

Section WithCollaborators.

Context `{Collaborators}.

(** The datatake metadata as [read_datatake_mtd] will find it: what is
    memoized, else what the file holds. *)
Definition datatake_root (self : S2Product) (w : World S2State) : option Element :=
  match memo_read_datatake_mtd (obj w) with
  | Some root => Some root
  | None => datatake_xml self
  end.

(** The same for the granule metadata and [read_mtd]. *)
Definition mtd_root (self : S2Product) (w : World S2State) : option Element :=
  match memo__read_mtd (obj w) with
  | Some root => Some root
  | None => mtd_xml self
  end.

(** The world after an access [ev], and after memoizing with [set]. *)
Definition after_access (ev : IoEvent) (w : World S2State) : World S2State :=
  mkWorld (log w) (io w ++ [ev]) (obj w).

Definition after_memo (set : S2State -> S2State) (w : World S2State)
  : World S2State :=
  mkWorld (log w) (io w) (set (obj w)).









Definition cloud_cover_warning : LogRecord :=
  mkLog WARNING
    "CLOUDY_PIXEL_PERCENTAGE not found in metadata! Cloud coverage set to 0.".

Definition sun_angles_warning (msg : string) : LogRecord :=
  mkLog WARNING (msg +:+ ": setting sun angles to (0, 0).").

(** The granule metadata cannot be read, or it has no
    [CLOUDY_PIXEL_PERCENTAGE] element. *)
Definition no_cloud_cover (self : S2Product) (w : World S2State) : Prop :=
  mtd_root self w = None \/
  exists root, mtd_root self w = Some root /\
               findtext (Descendant "CLOUDY_PIXEL_PERCENTAGE") root = None.

(** The granule metadata cannot be read, or its [Mean_Sun_Angle] element
    lacks the zenith angle, or has a zenith angle that reads as a number
    and lacks the azimuth angle. *)
Definition no_sun_angles (self : S2Product) (w : World S2State) : Prop :=
  mtd_root self w = None \/
  exists root angles,
    mtd_root self w = Some root /\
    find (Descendant "Mean_Sun_Angle") root = Some angles /\
    (findtext (Child "ZENITH_ANGLE") angles = None \/
     (exists z, py_float (findtext (Child "ZENITH_ANGLE") angles) = Return z) /\
     findtext (Child "AZIMUTH_ANGLE") angles = None).

(** The datatake metadata cannot be read, or it has no
    [SENSING_ORBIT_DIRECTION] element. *)
Definition no_orbit_direction (self : S2Product) (w : World S2State) : Prop :=
  datatake_root self w = None \/
  exists root, datatake_root self w = Some root /\
               findtext (Descendant "SENSING_ORBIT_DIRECTION") root = None.

(** The cloud bands [_open_clouds] knows how to build. *)
Definition supported (band : BandNames) : bool :=
  match band with
  | ALL_CLOUDS | CIRRUS | CLOUDS | RAW_CLOUDS => true
  | _ => false
  end.

(** The first requested band that is not one of them. *)
Definition first_unsupported (bands : list BandNames) : option BandNames :=
  List.find (fun b => negb (supported b)) bands.

Definition unsupported_error (band : BandNames) : exception :=
  InvalidTypeError ("Non existing cloud band for Sentinel-2: " +:+ str_band band).

(** The cloud mask and the default band of the product can be read: below
    baseline 4.0 the CLOUDS layer and the default band, from 4.0 on the
    CLASSI raster with its planes of opaque clouds and of cirrus. *)
Definition cloud_sources_readable (self : S2Product) (w : World S2State) : Prop :=
  if (_processing_baseline self <? 4.0)%float then
    (exists cloud_vec w1,
        _open_mask_lt_4_0 self S2GmlMasks.CLOUDS NoneArg w = (Return cloud_vec, w1))
    /\ is_Some (default_band self)
  else
    exists cloud_vec,
      jp2_masks self (S2Jp2Masks.value S2Jp2Masks.CLOUDS) "00" = Some cloud_vec
      /\ 2 <= length cloud_vec.

Definition detfoo_warning : LogRecord :=
  mkLog WARNING
    "Empty detector footprint (DETFOO) vector. Nodata will be set where the pixels are null.".

(** The mask of the fallback: 1 where the pixel equals 0, 0 elsewhere. *)
Definition zero_mask (band_arr : DataArray) : ndarray :=
  Arr3 (where_equal band_arr 0%float).

(** The pixel-level NODATA layer holds no [QT_NODATA_PIXELS] polygon. *)
Definition no_nodata_pixels (nodata_pix : GeoDataFrame) : Prop :=
  List.filter (fun f => String.eqb (gml_id f) "QT_NODATA_PIXELS")
    (features nodata_pix) = [].

End WithCollaborators.

(** [a] with NaN where [mask] is set. *)
Definition nan_where (mask : list (list (list Z))) (a : DataArray) : DataArray :=
  {| name := name a; long_name := long_name a;
     data := zip3 (fun x v => if Z.eqb v 0 then x else nan) (data a) mask |}.

(** Collaborators to run the methods with: every non-empty string is a
    CRS, masked pixels become NaN, and paths and bands resolve to nothing
    after one access each. *)
Definition reference : Collaborators := {|
  CRS_parse := fun s => Some (mkCRS s);
  _set_nodata_mask := fun band_arr mask =>
    match mask with
    | Arr2 m => nan_where [m] band_arr
    | Arr3 m => nan_where m band_arr
    end;
  _create_mask := fun xds cond nodata =>
    match cond with
    | Arr2 m => nan_where nodata {| name := name xds; long_name := long_name xds;
                                    data := map3 float_of_Z [m] |}
    | Arr3 m => nan_where nodata {| name := name xds; long_name := long_name xds;
                                    data := map3 float_of_Z m |}
    end;
  _resolution_from_size := fun _ => 10%float;
  get_band_paths := fun _ _ _ => access ResolvePaths ;;; ret ∅;
  _open_bands := fun _ _ _ _ => access (ReadRaster "bands") ;;; ret ∅
|}.

(** The world of a product that was just constructed. *)
Definition start : World S2State := mkWorld [] [] fresh.

Definition no_layer : string -> string -> option (option GeoDataFrame) :=
  fun _ _ => None.

Definition no_raster : string -> string -> option (list (list (list Z))) :=
  fun _ _ => None.

(** An L1C product of baseline 4.0 whose metadata files are missing. *)
Definition degraded_product : S2Product :=
  mkS2Product L1C 4.0%float "T30TTK" None None no_layer no_raster None
    (Some "EPSG:32630").

Definition raw_band : DataArray := of_rows [[1000%float; 0%float; 2000%float]].

(** Datatake metadata that give the quantification value [quantif] and the
    offset the code looks up for B04, and no orbit direction. *)
Definition datatake_mtd (quantif : string) : Element :=
  mkElement "n1:Level-1C_User_Product" [] None
    [mkElement "General_Info" [] None
       [mkElement "Product_Image_Characteristics" [] None
          [leaf "QUANTIFICATION_VALUE" quantif;
           mkElement "Radiometric_Offset_List" [] None
             [mkElement "RADIO_ADD_OFFSET" [("band_id", "3")] (Some "-1000") [];
              mkElement "RADIO_ADD_OFFSET" [("band_id", "4")] (Some "-1000") []]]]].

(** An L1C product of baseline 4.0 with these datatake metadata. *)
Definition datatake_product (quantif : string) : S2Product :=
  mkS2Product L1C 4.0%float "T30TTK" None (Some (datatake_mtd quantif)) no_layer
    no_raster None (Some "EPSG:32630").

(** Granule metadata whose cloud percentage is not a number. *)
Definition malformed_mtd : Element :=
  mkElement "n1:Level-1C_Tile_ID" [] None
    [mkElement "Quality_Indicators_Info" [] None
       [mkElement "Image_Content_QI" [] None
          [leaf "CLOUDY_PIXEL_PERCENTAGE" "n/a"]]].

Definition malformed_product : S2Product :=
  mkS2Product L1C 4.0%float "T30TTK" (Some malformed_mtd) None no_layer
    no_raster None (Some "EPSG:32630").

(** A product of baseline 2.09 with an empty cloud layer. *)
Definition empty_layer : GeoDataFrame := mkGeoDataFrame false [].

Definition cloudless_product : S2Product :=
  mkS2Product L1C 2.09%float "T30TTK" None None
    (fun mask band =>
       if (String.eqb mask "CLOUDS" && String.eqb band "00")%bool
       then Some (Some empty_layer) else None)
    no_raster (Some raw_band) (Some "EPSG:32630").

(** A product of baseline 2.09 for the RED band (B04): the detector
    footprint layer is empty; [layers nodata] gives the pixel-level
    NODATA layer and empty DEFECT, SATURA and TECQUA layers. *)
Definition layers (nodata : GeoDataFrame)
  : string -> string -> option (option GeoDataFrame) :=
  fun mask band =>
    if negb (String.eqb band "04") then None
    else if String.eqb mask "DETFOO" then Some (Some empty_layer)
    else if String.eqb mask "NODATA" then Some (Some nodata)
    else if (String.eqb mask "DEFECT" || String.eqb mask "SATURA"
             || String.eqb mask "TECQUA")%bool then Some (Some empty_layer)
    else None.

Definition footprintless_product (nodata : GeoDataFrame) : S2Product :=
  mkS2Product L1C 2.09%float "T30TTK" None None (layers nodata) no_raster None
    (Some "EPSG:32630").

(** A NODATA layer with one [QT_NODATA_PIXELS] polygon over the pixel
    (0, 0), and a band of two pixels, 5 and 0. *)
Definition nodata_layer : GeoDataFrame :=
  mkGeoDataFrame false [mkFeature "QT_NODATA_PIXELS" None [(0, 0)]].

Definition two_pixels : DataArray := of_rows [[5%float; 0%float]].

(** The EPSG code [crs] builds from the tile name when the granule
    metadata cannot be read: zone [tile_name[1:3]], north (326) when the
    latitude band [tile_name[3]] comes after N, south (327) otherwise. *)
Definition epsg_of_tile_name (tile_name : string) : option string :=
  match String.get 3 tile_name with
  | Some letter =>
      Some ("epsg:32"
            +:+ (if String.ltb "N" (String letter EmptyString) then "6" else "7")
            +:+ substring 1 2 tile_name)
  | None => None
  end.

(** The band is mapped, or the mask is the cloud mask, which takes no
    band. *)
Definition band_resolves (self : S2Product) (mask_id : S2GmlMasks.t)
    (band : band_arg) : Prop :=
  match band with
  | BandArg b => mask_id = S2GmlMasks.CLOUDS \/ is_Some (_map_bands self !! b)
  | _ => True
  end.

(** [self] with other vector layers. *)
Definition with_gml_masks (self : S2Product)
    (layers : string -> string -> option (option GeoDataFrame)) : S2Product :=
  mkS2Product (product_type self) (_processing_baseline self) (tile_name self)
    (mtd_xml self) (datatake_xml self) layers (jp2_masks self)
    (default_band self) (default_band_crs self).

(** The layers whose features [_manage_invalid_pixels_lt_4_0] reads and
    then drops. *)
Definition dropped_layer (mask : string) : bool :=
  (String.eqb mask "DEFECT" || String.eqb mask "SATURA"
   || String.eqb mask "TECQUA")%bool.

(** [g] and [g'] hold the same files, readable or not, and the same
    features but for the DEFECT, SATURA and TECQUA layers. *)
Definition same_but_dropped_layers
    (g g' : string -> string -> option (option GeoDataFrame)) : Prop :=
  forall mask band,
    g mask band = g' mask band \/
    (dropped_layer mask = true /\
     exists a b, g mask band = Some (Some a) /\ g' mask band = Some (Some b)).

(** Two outcomes that leave the same world, and return both or raise the
    same exception. *)
Definition same_effect {A B} (r : result A * World S2State)
    (r' : result B * World S2State) : Prop :=
  snd r = snd r' /\
  match fst r, fst r' with
  | Return _, Return _ => True
  | Raise e, Raise e' => e = e'
  | _, _ => False
  end.

(** Every band of the request is a key of [d], and [d] has no other key;
    every array of [d] bears the name of its band. *)
Definition holds_exactly (bands : list BandNames) (d : gmap BandNames DataArray)
  : Prop :=
  (forall b, is_Some (d !! b) <-> In b bands) /\
  (forall b a, d !! b = Some a -> name a = Some (to_str b)).

(** An L2A product of baseline 2.06 whose metadata files are missing. *)
Definition l2ap_product : S2Product :=
  mkS2Product L2A 2.06%float "T30TTK" None None no_layer no_raster None None.

(** Granule metadata with the mean sun angles of the docstring. *)
Definition sunny_mtd : Element :=
  mkElement "n1:Level-1C_Tile_ID" [] None
    [mkElement "Geometric_Info" [] None
       [mkElement "Tile_Angles" [] None
          [mkElement "Mean_Sun_Angle" [] None
             [leaf "ZENITH_ANGLE" "32.5"; leaf "AZIMUTH_ANGLE" "149.25"]]]].

Definition sunny_product : S2Product :=
  mkS2Product L1C 4.0%float "T30TTK" (Some sunny_mtd) None no_layer no_raster
    None (Some "EPSG:32630").

(** The layers of [layers nodata] with a defective pixel in the DEFECT
    layer of B04. *)
Definition defect_layers (nodata : GeoDataFrame)
  : string -> string -> option (option GeoDataFrame) :=
  fun mask band =>
    if (String.eqb mask "DEFECT" && String.eqb band "04")%bool
    then Some (Some (mkGeoDataFrame false [mkFeature "DEFECT_PIXELS" None [(0, 1)]]))
    else layers nodata mask band.

End s2_terms.

(** ** Sentinel-3: the tie-point grids *)
Module s3_terms.

Import xr s3_product.

Section WithCollaborators.

Context `{Collaborators}.

Definition after_access (ev : IoEvent) (w : World unit) : World unit :=
  mkWorld (log w) (io w ++ [ev]) (obj w).

(** What [_read_nc] opens. *)
Definition nc_event (filename subdataset : string) : IoEvent :=
  ReadRaster (_get_nc_path_str filename (Some subdataset)).

End WithCollaborators.

(** The largest integer that is not above [x] ([np.floor]), for a finite
    [x]. *)
Definition floor (x : float) : Z :=
  match Prim2SF x with
  | S754_finite s m e =>
      let v := cond_Zopp s (Zpos m) in
      if (0 <=? e)%Z then (v * 2 ^ e)%Z else (v / 2 ^ (- e))%Z
  | _ => 0%Z
  end.

(** [sertit.vectors.corresponding_utm_projection(lon, lat)] on a point
    with finite coordinates: the EPSG code
    [int(32700 - (np.sign(lat) + 1) / 2 * 100 + np.floor((180 + lon) / 6) + 1)]
    of its UTM zone. The longitude comes first. *)
Definition utm_projection (lon lat : float) : string :=
  let north := if (0 <? lat)%float then 100%Z
               else if (lat <? 0)%float then 0%Z else 50%Z in
  "EPSG:" +:+ pretty (32700 - north + floor ((180 + lon) / 6)%float + 1)%Z.

(** Collaborators to run [crs] with: every non-empty string is a CRS and
    the UTM projection is the one of the library. *)
Definition reference : Collaborators := {|
  CRS_parse := fun s => Some (mkCRS s);
  corresponding_utm_projection := utm_projection;
  _resolution_from_size := fun _ => 300%float;
  get_band_paths := fun _ _ _ => access ResolvePaths ;;; ret ∅;
  _open_bands := fun _ _ _ _ => access (ReadRaster "bands") ;;; ret ∅
|}.

(** An OLCI product with one tie point at 43.5 N, 1.5 E. *)
Definition olci_product : S3Product :=
  mkS3Product "tie_geo_coordinates.nc" "latitude" "longitude"
    (fun filename subdataset =>
       if negb (String.eqb filename "tie_geo_coordinates.nc") then None
       else if String.eqb subdataset "latitude"
            then Some (mkNcArray 0.5%float [[[87%float]]])
       else if String.eqb subdataset "longitude"
            then Some (mkNcArray 0.5%float [[[3%float]]])
       else None).

Definition start : World unit := mkWorld [] [] tt.

(** A grid of [h] rows and [w] columns, as the first band of [a]. *)
Definition grid (h w : nat) (a : DataArray) : Prop :=
  exists plane rest,
    data a = plane :: rest /\ length plane = h /\
    Forall (fun row => length row = w) plane.

(** Tie points on two rows and three columns. *)
Definition lat_2_3 : DataArray :=
  of_rows [[44%float; 44%float; 44%float]; [43%float; 43%float; 43%float]].

Definition lon_2_3 : DataArray :=
  of_rows [[1%float; 2%float; 3%float]; [1%float; 2%float; 3%float]].

(** geopandas reduced to the vertices of the polygon. *)
Definition vertices_frame (vertex : list (float * float))
  : result (list (float * float)) := Return vertex.

Definition keep_frame (frame : list (float * float)) (utm : CRS)
  : result (list (float * float)) := Return frame.

(** A geometry file without global attributes, and a clock that keeps the
    text it is given. *)
Definition no_attributes (self : S3Product) : option (gmap string string) :=
  Some ∅.

Definition text_clock (s fmt : string) : result string := Return s.

Definition text_format (date fmt : string) : string := date.

(** The element [_read_mtd] builds from the global attributes, before it
    is serialized and parsed again. *)
Definition global_attributes_xml (netcdf_ds : gmap string string) : Element :=
  mkElement "s3_global_attributes" [] None
    (global_attr netcdf_ds global_attr_names).

(** Serializing and parsing keeps what [findtext] gives for [start_time]. *)
Definition keeps_start_time (reparse : Element -> Element)
    (netcdf_ds : gmap string string) : Prop :=
  findtext (Descendant "start_time") (reparse (global_attributes_xml netcdf_ds))
  = findtext (Descendant "start_time") (global_attributes_xml netcdf_ds).

End s3_terms.

(** * Part III. Properties *)

(** ** IEEE 754 facts about a zero denominator *)
Section FloatFacts.

Open Scope float_scope.

Lemma eqb_zero_shape (y : float) :
  (y =? 0) = true -> exists s, Prim2SF y = S754_zero s.
Proof.
  rewrite FloatAxioms.eqb_spec. replace (Prim2SF 0) with (S754_zero false) by reflexivity.
  destruct (Prim2SF y) as [s | s | | s m e] eqn:Hy; intros Heq.
  - exists s. reflexivity.
  - destruct s; discriminate Heq.
  - discriminate Heq.
  - destruct s; discriminate Heq.
Qed.

Lemma SFeqb_finite_refl (s : bool) (m : positive) (e : Z) :
  SFeqb (S754_finite s m e) (S754_finite s m e) = true.
Proof.
  unfold SFeqb, SFcompare.
  destruct s; rewrite Z.compare_refl, ?Pos.compare_refl; reflexivity.
Qed.

Lemma is_nan_shape (x : float) :
  is_nan x = match Prim2SF x with S754_nan => true | _ => false end.
Proof.
  unfold is_nan. rewrite FloatAxioms.eqb_spec.
  destruct (Prim2SF x) as [s | s | | s m e].
  - reflexivity.
  - destruct s; reflexivity.
  - reflexivity.
  - rewrite SFeqb_finite_refl. reflexivity.
Qed.

Lemma is_zero_shape (x : float) :
  (x =? 0) = match Prim2SF x with S754_zero _ => true | _ => false end.
Proof.
  rewrite FloatAxioms.eqb_spec. replace (Prim2SF 0) with (S754_zero false) by reflexivity.
  destruct (Prim2SF x) as [s | s | | s m e]; try reflexivity;
    destruct s; reflexivity.
Qed.

Lemma is_infinity_shape (x : float) :
  is_infinity x = match Prim2SF x with S754_infinity _ => true | _ => false end.
Proof.
  unfold is_infinity. rewrite FloatAxioms.eqb_spec, FloatAxioms.abs_spec.
  replace (Prim2SF infinity) with (S754_infinity false) by reflexivity.
  destruct (Prim2SF x) as [s | s | | s m e]; try reflexivity.
Qed.

(** The quotient by a zero: NaN when the numerator is a zero or NaN, an
    infinity otherwise. *)
Lemma div_by_zero (x y : float) :
  (y =? 0) = true ->
  is_nan (x / y) = (is_nan x || (x =? 0))%bool /\
  is_infinity (x / y) = negb (is_nan x || (x =? 0))%bool.
Proof.
  intros Hy. destruct (eqb_zero_shape y Hy) as [sy Hsy].
  rewrite !is_nan_shape, is_infinity_shape, is_zero_shape, FloatAxioms.div_spec, Hsy.
  destruct (Prim2SF x) as [s | s | | s m e]; split; reflexivity.
Qed.

(** NaN in, NaN out: an operand that is NaN makes the sum, the difference,
    the product and the quotient NaN. *)
Lemma nan_add (x y : float) :
  (is_nan x || is_nan y)%bool = true -> is_nan (x + y) = true.
Proof.
  rewrite !is_nan_shape, FloatAxioms.add_spec.
  destruct (Prim2SF x) as [s | s | | s m e], (Prim2SF y) as [s' | s' | | s' m' e'];
    try discriminate; reflexivity.
Qed.

Lemma nan_sub (x y : float) :
  (is_nan x || is_nan y)%bool = true -> is_nan (x - y) = true.
Proof.
  rewrite !is_nan_shape, FloatAxioms.sub_spec.
  destruct (Prim2SF x) as [s | s | | s m e], (Prim2SF y) as [s' | s' | | s' m' e'];
    try discriminate; reflexivity.
Qed.

Lemma nan_mul (x y : float) :
  (is_nan x || is_nan y)%bool = true -> is_nan (x * y) = true.
Proof.
  rewrite !is_nan_shape, FloatAxioms.mul_spec.
  destruct (Prim2SF x) as [s | s | | s m e], (Prim2SF y) as [s' | s' | | s' m' e'];
    try discriminate; reflexivity.
Qed.

Lemma nan_div (x y : float) :
  (is_nan x || is_nan y)%bool = true -> is_nan (x / y) = true.
Proof.
  rewrite !is_nan_shape, FloatAxioms.div_spec.
  destruct (Prim2SF x) as [s | s | | s m e], (Prim2SF y) as [s' | s' | | s' m' e'];
    try discriminate; reflexivity.
Qed.

Lemma nan_add_l x y : is_nan x = true -> is_nan (x + y) = true.
Proof. intros Hx. apply nan_add. rewrite Hx. reflexivity. Qed.

Lemma nan_add_r x y : is_nan y = true -> is_nan (x + y) = true.
Proof. intros Hy. apply nan_add. rewrite Hy. apply orb_true_r. Qed.

Lemma nan_sub_l x y : is_nan x = true -> is_nan (x - y) = true.
Proof. intros Hx. apply nan_sub. rewrite Hx. reflexivity. Qed.

Lemma nan_sub_r x y : is_nan y = true -> is_nan (x - y) = true.
Proof. intros Hy. apply nan_sub. rewrite Hy. apply orb_true_r. Qed.

Lemma nan_mul_l x y : is_nan x = true -> is_nan (x * y) = true.
Proof. intros Hx. apply nan_mul. rewrite Hx. reflexivity. Qed.

Lemma nan_mul_r x y : is_nan y = true -> is_nan (x * y) = true.
Proof. intros Hy. apply nan_mul. rewrite Hy. apply orb_true_r. Qed.

Lemma nan_div_l x y : is_nan x = true -> is_nan (x / y) = true.
Proof. intros Hx. apply nan_div. rewrite Hx. reflexivity. Qed.

Lemma nan_div_r x y : is_nan y = true -> is_nan (x / y) = true.
Proof. intros Hy. apply nan_div. rewrite Hy. apply orb_true_r. Qed.

End FloatFacts.

Create HintDb nan.
#[global] Hint Resolve nan_add_l nan_add_r nan_sub_l nan_sub_r nan_mul_l
  nan_mul_r nan_div_l nan_div_r : nan.

(** ** Strings *)
Section StringFacts.

Lemma append_cons (c : ascii) (a b : string) :
  String c a +:+ b = String c (a +:+ b).
Proof. reflexivity. Qed.

Lemma length_append (p l : string) :
  String.length (p +:+ l) = String.length p + String.length l.
Proof.
  induction p as [|c p IH]; [reflexivity|].
  rewrite append_cons. simpl. rewrite IH. reflexivity.
Qed.

Lemma append_assoc (a b c : string) : (a +:+ b) +:+ c = a +:+ (b +:+ c).
Proof.
  induction a as [|x a IH]; [reflexivity|].
  rewrite !append_cons, IH. reflexivity.
Qed.

Lemma substring_prefix_append (p l : string) :
  substring 0 (String.length p) (p +:+ l) = p.
Proof.
  induction p as [|c p IH]; simpl.
  - destruct l; reflexivity.
  - rewrite IH. reflexivity.
Qed.

Lemma split_not_nil (sep : ascii) (s : string) : split sep s <> [].
Proof.
  destruct s as [|c s]; simpl; [discriminate|].
  destruct (Ascii.eqb c sep); [discriminate|].
  destruct (split sep s); discriminate.
Qed.

(** [sep.join(s.split(sep))] is [s]. *)
Lemma join_split (sep : ascii) (s : string) :
  join (String sep EmptyString) (split sep s) = s.
Proof.
  induction s as [|c s IH]; [reflexivity|]. simpl.
  destruct (Ascii.eqb_spec c sep) as [-> | Hc].
  - pose proof (split_not_nil sep s) as Hne.
    destruct (split sep s) as [|p ps]; [contradiction|].
    change (join (String sep "") ("" :: p :: ps))
      with ("" +:+ String sep "" +:+ join (String sep "") (p :: ps)).
    rewrite IH. reflexivity.
  - pose proof (split_not_nil sep s) as Hne.
    destruct (split sep s) as [|p ps]; [contradiction|].
    destruct ps as [|q qs].
    + simpl in *. rewrite IH. reflexivity.
    + change (join (String sep "") (String c p :: q :: qs))
        with (String c p +:+ String sep "" +:+ join (String sep "") (q :: qs)).
      change (join (String sep "") (p :: q :: qs))
        with (p +:+ String sep "" +:+ join (String sep "") (q :: qs)) in IH.
      rewrite append_cons, IH. reflexivity.
Qed.

(** No field holds the separator, and the characters of the fields are
    those of [s] without the separators. *)
Lemma split_fields (sep : ascii) (s : string) :
  Forall (fun x => ~ In sep (list_ascii_of_string x)) (split sep s) /\
  concat (map list_ascii_of_string (split sep s))
  = List.filter (fun c => negb (Ascii.eqb c sep)) (list_ascii_of_string s).
Proof.
  induction s as [|c s [IHf IHc]]; simpl.
  - split; [constructor; [intros [] | constructor] | reflexivity].
  - destruct (Ascii.eqb_spec c sep) as [-> | Hc]; simpl.
    + split; [constructor; [intros [] | exact IHf] | exact IHc].
    + pose proof (split_not_nil sep s) as Hne.
      destruct (split sep s) as [|p ps]; [contradiction|].
      apply Forall_cons in IHf. destruct IHf as [Hp Hps]. simpl in *.
      split; [|rewrite IHc; reflexivity].
      constructor; [|exact Hps].
      intros [Hin | Hin]; [congruence | exact (Hp Hin)].
Qed.

Lemma filter_all {A} (f : A -> bool) (l : list A) :
  Forall (fun x => f x = true) l -> List.filter f l = l.
Proof.
  induction 1 as [|x l Hx _ IH]; simpl; [reflexivity|].
  rewrite Hx, IH. reflexivity.
Qed.

Lemma concat_filter_nonempty (l : list string) :
  concat (map list_ascii_of_string
            (List.filter (fun x => negb (String.eqb x EmptyString)) l))
  = concat (map list_ascii_of_string l).
Proof.
  induction l as [|x l IH]; simpl; [reflexivity|].
  destruct (String.eqb_spec x EmptyString) as [-> | Hx]; simpl;
    rewrite IH; reflexivity.
Qed.

End StringFacts.

(** ** Spectral indices ([index.py]) *)
Module index_spec.

Import xr index index_terms.

Lemma pixel_zip3 {A B C} (f : A -> B -> C)
    (a : list (list (list A))) (b : list (list (list B))) (k i j : nat) x y :
  pixel a k i j = Some x ->
  pixel b k i j = Some y ->
  pixel (zip3 f a b) k i j = Some (f x y).
Proof.
  unfold pixel, zip3. rewrite lookup_zip_with.
  destruct (a !! k) as [pa|]; [|discriminate].
  destruct (b !! k) as [pb|]; [|discriminate]. simpl.
  rewrite lookup_zip_with.
  destruct (pa !! i) as [ra|]; [|discriminate].
  destruct (pb !! i) as [rb|]; [|discriminate]. simpl.
  rewrite lookup_zip_with. intros -> ->. reflexivity.
Qed.

Lemma pixel_map3 {A B} (f : A -> B) (a : list (list (list A))) (k i j : nat) x :
  pixel a k i j = Some x ->
  pixel (map3 f a) k i j = Some (f x).
Proof.
  unfold pixel, map3. rewrite list_lookup_fmap.
  destruct (a !! k) as [pa|]; [|discriminate]. simpl.
  rewrite list_lookup_fmap.
  destruct (pa !! i) as [ra|]; [|discriminate]. simpl.
  rewrite list_lookup_fmap. intros ->. reflexivity.
Qed.

(** A pixel of [np.divide(a, b)] is the quotient of the operands' pixels. *)
Lemma pixel_divide a b k i j x y :
  pixel (data a) k i j = Some x ->
  pixel (data b) k i j = Some y ->
  pixel (data (divide a b)) k i j = Some (x / y)%float.
Proof.
  apply pixel_zip3.
Qed.

(** What [NDVI] computes: the plain ratio of NIR to RED. *)
Lemma NDVI_eq (bands : Bands) n r :
  bands !! NIR = Some n -> bands !! RED = Some r ->
  NDVI bands = Return (rename "NDVI" (divide n r)).
Proof.
  intros Hn Hr. unfold NDVI, _idx_fct, getitem. rewrite Hn, Hr. reflexivity.
Qed.

Lemma NDVI_pixel (bands : Bands) n r k i j x y :
  bands !! NIR = Some n -> bands !! RED = Some r ->
  pixel (data n) k i j = Some x -> pixel (data r) k i j = Some y ->
  exists out, NDVI bands = Return out /\
              pixel (data out) k i j = Some (x / y)%float.
Proof.
  intros Hn Hr Hx Hy. rewrite (NDVI_eq bands n r Hn Hr).
  eexists. split; [reflexivity|]. exact (pixel_divide n r k i j x y Hx Hy).
Qed.

(** What its siblings compute, [GNDVI] for one: the normalized difference. *)
Lemma GNDVI_eq (bands : Bands) n g :
  bands !! NIR = Some n -> bands !! GREEN = Some g ->
  GNDVI bands = Return (rename "GNDVI" (_norm_diff n g)).
Proof.
  intros Hn Hg. unfold GNDVI, _idx_fct, getitem. rewrite Hn, Hg. reflexivity.
Qed.

(** C1. On the pixel NIR = 3, RED = 1 the normalized difference
    [(NIR - RED) / (NIR + RED)] is 0.5 (and [_norm_diff] computes it), but
    [NDVI] returns the ratio [NIR / RED] = 3. *)
Theorem NDVI_returns_ratio_at_3_1 :
  NDVI bands_3_1 = Return (rename "NDVI" (of_rows [[3%float]])) /\
  data (_norm_diff nir_3 red_1) = [[[0.5%float]]] /\
  ((3 - 1) / (3 + 1))%float = 0.5%float /\
  (3 / 1)%float <> 0.5%float.
Proof.
  split; [vm_compute; reflexivity|].
  split; [vm_compute; reflexivity|].
  split; [vm_compute; reflexivity|].
  intros Heq.
  assert (Hb : PrimFloat.eqb (3 / 1) 0.5 = true) by (rewrite Heq; reflexivity).
  vm_compute in Hb. discriminate Hb.
Qed.

(** Where either operand of [NDVI] is no-data (NaN), so is the result. *)
Lemma NDVI_propagates_nodata (bands : Bands) n r k i j x y :
  bands !! NIR = Some n -> bands !! RED = Some r ->
  pixel (data n) k i j = Some x -> pixel (data r) k i j = Some y ->
  (is_nodata x || is_nodata y)%bool = true ->
  exists out v, NDVI bands = Return out /\
    pixel (data out) k i j = Some v /\ is_nodata v = true.
Proof.
  intros Hn Hr Hx Hy Hnan. rewrite (NDVI_eq bands n r Hn Hr).
  exists (rename "NDVI" (divide n r)), (x / y)%float.
  split; [reflexivity|]. split; [exact (pixel_divide n r k i j x y Hx Hy)|].
  unfold is_nodata in *. rewrite is_nan_shape in *.
  rewrite FloatAxioms.div_spec.
  rewrite (is_nan_shape y) in Hnan.
  destruct (Prim2SF x) as [s | s | | s m e], (Prim2SF y) as [s' | s' | | s' m' e'];
    try reflexivity; discriminate Hnan.
Qed.

(** C7, as stated, fails: with RED = 1 and GREEN = 0 the index [RGI]
    divides by zero and returns infinity, which is neither NaN (the
    no-data value of the bands) nor 0 (the no-data value the module's
    docstring speaks of). *)
Lemma RGI_division_by_zero_is_infinity :
  RGI bands_1_0 = Return (rename "RGI" (of_rows [[infinity]])) /\
  is_nodata infinity = false /\
  PrimFloat.eqb infinity 0 = false.
Proof.
  split; [vm_compute; reflexivity|]. split; reflexivity.
Qed.

Ltac present Hb :=
  repeat match goal with
         | |- context [ ?bands !! ?b ] =>
             let v := fresh "v" in
             let Hv := fresh "Hv" in
             destruct (Hb b) as [v Hv]; [simpl; tauto | rewrite Hv; simpl]
         end.

(** None of the index functions that divide raises when its bands are
    there. *)
Lemma dividing_indices_return :
  Forall (fun entry =>
            forall bands : Bands,
              (forall b, In b (snd (fst entry)) -> is_Some (bands !! b)) ->
              exists out, snd entry bands = Return out)
    dividing_indices.
Proof.
  unfold dividing_indices.
  repeat (apply Forall_cons; split;
          [intros bands Hb; simpl in Hb |- *;
           unfold RGI, NDVI, NDRE2, NDRE3, GLI, GNDVI, RI, NDGRI, CIG, NDMI,
             DSWI, SRSWIR, RDI, NDWI, BAI, NBR, MNDWI, AFRI_1_6, AFRI_2_1, BSI,
             _idx_fct, getitem;
           present Hb; eexists; reflexivity|]).
  constructor.
Qed.

(** C7, amended. A division by zero inside an index never raises: the
    index functions return whenever their bands are present, and at a pixel
    where the denominator is zero the quotient is NaN (no-data) exactly
    when the numerator is zero or NaN, and an infinity otherwise. *)
Theorem division_by_zero_gives_nan_or_infinity
    (a b : DataArray) (k i j : nat) (x y : float) :
  pixel (data a) k i j = Some x ->
  pixel (data b) k i j = Some y ->
  PrimFloat.eqb y 0 = true ->
  pixel (data (divide a b)) k i j = Some (x / y)%float /\
  is_nodata (x / y) = (is_nan x || PrimFloat.eqb x 0)%bool /\
  is_infinity (x / y) = negb (is_nan x || PrimFloat.eqb x 0)%bool /\
  Forall (fun entry =>
            forall bands : Bands,
              (forall b, In b (snd (fst entry)) -> is_Some (bands !! b)) ->
              exists out, snd entry bands = Return out)
    dividing_indices.
Proof.
  intros Hx Hy Hzero.
  split; [exact (pixel_divide a b k i j x y Hx Hy)|].
  destruct (div_by_zero x y Hzero) as [Hnan Hinf].
  split; [exact Hnan|]. split; [exact Hinf|].
  exact dividing_indices_return.
Qed.

Lemma division_by_zero_gives_nan_or_infinity_witness :
  pixel (data (divide (of_rows [[1%float]]) (of_rows [[0%float]]))) 0 0 0
    = Some (1 / 0)%float /\
  is_nodata (1 / 0) = false /\
  is_infinity (1 / 0) = true.
Proof.
  destruct (division_by_zero_gives_nan_or_infinity
              (of_rows [[1%float]]) (of_rows [[0%float]]) 0 0 0 1%float 0%float
              eq_refl eq_refl eq_refl) as (Hp & Hn & Hi & _).
  split; [exact Hp|]. split; [exact Hn | exact Hi].
Defined.

(** *** The bands an index needs *)

Section NeededBands.

Variable Q : function -> list BandNames -> Prop.

Lemma insert_by_name_In {A} (x y : string * A) (l : list (string * A)) :
  In y (insert_by_name x l) -> y = x \/ In y l.
Proof.
  induction l as [|z l IH]; simpl.
  - intros [<- | []]. left. reflexivity.
  - destruct (String.leb (fst x) (fst z)); simpl.
    + intros [<- | Hin]; [left; reflexivity | right; exact Hin].
    + intros [<- | Hin]; [right; left; reflexivity|].
      destruct (IH Hin) as [-> | Hin']; [left; reflexivity | right; right; exact Hin'].
Qed.

Lemma getmembers_In (entry : string * option function) :
  In entry getmembers -> In entry functions.
Proof.
  unfold getmembers. generalize functions. intros l.
  induction l as [|x l IH]; simpl; [tauto|].
  intros Hin. destruct (insert_by_name_In _ _ _ Hin) as [-> | Hin'];
    [left; reflexivity | right; exact (IH Hin')].
Qed.

Lemma for_list_found (l : list function) :
  Forall (fun function =>
            exists needed, get_needed_bands function = Return needed
                           /\ Q function needed) l ->
  exists table,
    for_list (fun function => needed <~ get_needed_bands function ;;
                              Return (function, needed)) l = Return table /\
    map fst table = l /\
    Forall (fun entry => Q (fst entry) (snd entry)) table.
Proof.
  induction 1 as [|function l (needed & Hn & HQ) _ (table & Ht & Hm & Hf)].
  - exists []. repeat split. constructor.
  - exists ((function, needed) :: table). simpl. rewrite Hn. simpl. rewrite Ht.
    simpl. split; [reflexivity|]. split; [rewrite Hm; reflexivity|].
    constructor; assumption.
Qed.

(** What holds of every function of the module and of the bands found in
    its text holds of every entry of [get_all_needed_bands], whose keys
    are the functions [get_all_index] lists. *)
Lemma needed_bands_table :
  Forall (found Q) functions ->
  exists table,
    get_all_needed_bands = Return table /\
    map fst table = get_all_index /\
    Forall (fun entry => Q (fst entry) (snd entry)) table.
Proof.
  intros Hall. apply for_list_found.
  apply List.Forall_forall. intros function Hin.
  unfold upper_case_functions in Hin. apply in_flat_map in Hin.
  destruct Hin as ([name [fct|]] & Hmem & Hin); [|destruct Hin].
  destruct (starts_upper name); [|destruct Hin].
  destruct Hin as [<- | []].
  apply getmembers_In in Hmem.
  rewrite List.Forall_forall in Hall. exact (Hall _ Hmem).
Qed.

End NeededBands.

Ltac unfold_indices :=
  unfold RGI, NDVI, TCBRI, TCGRE, TCWET, NDRE2, NDRE3, GLI, GNDVI, RI, NDGRI,
    CIG, NDMI, DSWI, SRSWIR, RDI, NDWI, BAI, NBR, MNDWI, AWEInsh, AWEIsh, WI,
    AFRI_1_6, AFRI_2_1, BSI, _idx_fct, getitem.

Ltac loaded Hall :=
  repeat match type of Hall with
         | Forall _ (_ :: _) =>
             let Hb := fresh "Hb" in
             apply Forall_cons in Hall; destruct Hall as [[? Hb] Hall];
             rewrite ?Hb
         end.

Ltac reads :=
  let bands := fresh "bands" in
  let Hall := fresh "Hall" in
  intros bands; cbv [call __name__ all_loaded]; unfold_indices; split;
  [ intros Hall; loaded Hall; eexists; split; reflexivity
  | intros Hall;
    repeat match goal with
           | |- context [ bands !! ?b ] =>
               let Hv := fresh "Hv" in
               destruct (bands !! b) eqn:Hv; simpl
           end;
    try reflexivity;
    exfalso; apply Hall;
    repeat (constructor; [eexists; eassumption|]); constructor ].

Lemma indices_read_what_is_found : Forall (found reads_exactly) functions.
Proof.
  unfold functions.
  repeat (apply Forall_cons; split;
          [first [exact I
                 | unfold found; cbv [snd]; eexists;
                   split; [vm_compute; reflexivity | reads]]|]).
  constructor.
Qed.

(** X1. [get_all_needed_bands] returns a table whose keys are the index
    functions of [get_all_index], and every index reads exactly the bands
    the table gives it: called on a mapping that holds them all it returns
    an array named after the function, and called on a mapping that lacks
    one of them it raises [KeyError]. *)
Theorem needed_bands_are_the_bands_read :
  exists table,
    get_all_needed_bands = Return table /\
    map fst table = get_all_index /\
    Forall (fun entry => reads_exactly (fst entry) (snd entry)) table.
Proof.
  exact (needed_bands_table reads_exactly indices_read_what_is_found).
Qed.

(** *** No-data through the indices *)

Ltac pixels :=
  repeat first [ eassumption | apply pixel_zip3 | apply pixel_map3 ].

Ltac propagates :=
  let bands := fresh "bands" in
  let px := fresh "px" in
  let Hpx := fresh "Hpx" in
  let Hnan := fresh "Hnan" in
  let b := fresh "b" in
  let Hin := fresh "Hin" in
  let Hb := fresh "Hb" in
  intros bands k i j px Hpx Hnan; cbv [call]; unfold_indices;
  repeat match goal with
         | |- context [ bands !! ?b ] =>
             let a := fresh "a" in
             let Ha := fresh "Ha" in
             let Hp := fresh "Hp" in
             destruct (Hpx b) as (a & Ha & Hp); [simpl; tauto | rewrite Ha; simpl]
         end;
  do 2 eexists; split; [reflexivity|]; split;
  [ cbn [data rename _norm_diff set_metadata divide add sub smul rsub radd
           sub_scalar square pos rdivide binop scalar_op]; pixels
  | cbv beta; unfold is_nodata in *;
    destruct Hnan as (b & Hin & Hb); simpl in Hin;
    repeat (destruct Hin as [<- | Hin]; [solve [auto 12 with nan nocore]|]);
    destruct Hin ].

Lemma indices_propagate_what_is_found : Forall (found propagates_nodata) functions.
Proof.
  unfold functions.
  repeat (apply Forall_cons; split;
          [first [exact I
                 | unfold found; cbv [snd]; eexists;
                   split; [vm_compute; reflexivity | propagates]]|]).
  constructor.
Qed.

(** X2. No-data goes through every index: at a pixel where all the bands
    that [get_all_needed_bands] lists for an index are present and one of
    them is NaN, the index returns NaN. *)
Theorem nodata_goes_through_every_index :
  exists table,
    get_all_needed_bands = Return table /\
    map fst table = get_all_index /\
    Forall (fun entry => propagates_nodata (fst entry) (snd entry)) table.
Proof.
  exact (needed_bands_table propagates_nodata indices_propagate_what_is_found).
Qed.

End index_spec.

(** ** RADARSAT-2 default resolution ([rs2_product.py]) *)
Module rs2_spec.

Import rs2_product rs2_terms.

Lemma try_block_quiet (self : Rs2Product) (w : World unit) :
  no_pixel_spacing self ->
  exists w', try_except (read_pixel_spacing self) except_pass w = (Return None, w')
             /\ log w' = log w.
Proof.
  intros [[Harch Hxml] | (root & idx & Hxml & Hidx & Hfind)];
    unfold try_except, read_pixel_spacing, read_mtd, bind, access, ret, raise, lift.
  - rewrite Harch, Hxml. simpl. eexists. split; reflexivity.
  - rewrite Hxml. destruct (is_archived self); simpl; rewrite Hidx; simpl;
      destruct (List.find _ (children root)) as [element|]; simpl;
      try (rewrite Hfind; simpl); eexists; split; reflexivity.
Qed.

(** C4, as stated, fails: Standard Quad-Pol is a mode of the enumeration,
    and [_set_resolution] hands out no pixel spacing for it. *)
Lemma set_resolution_quad_pol_raises :
  no_pixel_spacing quad_pol_product /\
  fst (_set_resolution quad_pol_product start) = Raise (AttributeError "WQ").
Proof.
  split; [left; split; reflexivity | reflexivity].
Qed.

(** The same happens to ScanSAR Narrow, for which the table holds 25 m: the
    chain of tests stops at the unknown name [Rs2SensorMode.WQ] first. *)
Lemma set_resolution_scansar_narrow_raises :
  fst (_set_resolution scansar_narrow_product start) = Raise (AttributeError "WQ").
Proof. reflexivity. Qed.

(** When [rasterAttributes] is there and [sampledPixelSpacing] is not,
    [float(None)] raises a [TypeError] that the [except] clause does not
    take: the fallback is not reached, in whatever mode. *)
Lemma set_resolution_without_spacing_element_raises :
  fst (_set_resolution spacingless_product start) = Raise TypeError.
Proof. reflexivity. Qed.

(** C4, amended. When the metadata gives no pixel spacing, [_set_resolution]
    returns, for the modes Spotlight, Ultra-Fine, Wide Ultra-Fine,
    Multi-Look Fine, Wide Multi-Look Fine, Fine, Wide Fine, Extra-Fine,
    Standard, Extended High, Wide and Extended Low, the positive default
    that the table gives for the sensor mode and the product type, whatever
    else the product holds; for Standard Quad-Pol, Wide Standard Quad-Pol
    and for a mode outside the enumeration it returns nothing and raises. *)
Theorem set_resolution_survival_defaults (self : Rs2Product) (w : World unit) :
  no_pixel_spacing self ->
  (forall m r,
      sensor_mode self = Some m ->
      default_pixel_spacing m (type_is (product_type self) Rs2ProductType.SGX)
        = Some r ->
      exists w', _set_resolution self w = (Return r, w')
                 /\ PrimFloat.ltb 0 r = true) /\
  (sensor_mode self = Some Rs2SensorMode.SQ \/
   sensor_mode self = Some Rs2SensorMode.WSQ \/
   sensor_mode self = None ->
   exists e w', _set_resolution self w = (Raise e, w')).
Proof.
  intros Hno. destruct (try_block_quiet self w Hno) as (w1 & Htry & _).
  split.
  - intros m r Hm Hr.
    unfold _set_resolution, bind. rewrite Htry. simpl.
    unfold survival_mode. rewrite Hm.
    destruct m; simpl in Hr; try discriminate Hr;
      injection Hr as <-;
      destruct (product_type self) as [[]|];
      simpl; eexists; split; reflexivity.
  - intros Hm.
    unfold _set_resolution, bind. rewrite Htry. simpl.
    unfold survival_mode.
    destruct Hm as [-> | [-> | ->]]; simpl; do 2 eexists; reflexivity.
Qed.

Lemma set_resolution_survival_defaults_witness :
  no_pixel_spacing spotlight_product /\
  exists w', _set_resolution spotlight_product start = (Return 1.0%float, w')
             /\ PrimFloat.ltb 0 1.0 = true.
Proof.
  assert (Hno : no_pixel_spacing spotlight_product)
    by (left; split; reflexivity).
  split; [exact Hno|].
  exact (proj1 (set_resolution_survival_defaults spotlight_product start Hno)
           Rs2SensorMode.SLA 1.0%float eq_refl eq_refl).
Defined.

(** *** The namespace of the metadata *)

Lemma rindex_brace_found (s : string) :
  forall i last idx,
    rindex_brace s i last = Some idx ->
    (last = Some idx /\ no_brace s) \/
    (exists p l, s = p +:+ "}" +:+ l /\ i + String.length p = idx /\ no_brace l).
Proof.
  induction s as [|c s IH]; intros i last idx Hr; simpl in Hr.
  - left. split; [exact Hr | intros []].
  - destruct (IH _ _ _ Hr) as [[Hlast Hno] | (p & l & -> & Hlen & Hno)].
    + destruct (Ascii.eqb_spec c "}") as [-> | Hc].
      * right. exists EmptyString, s. injection Hlast as <-.
        split; [reflexivity|]. split; [simpl; lia | exact Hno].
      * left. split; [exact Hlast|].
        intros [Hin | Hin]; [congruence | exact (Hno Hin)].
    + right. exists (String c p), l. split; [reflexivity|].
      split; [simpl; lia | exact Hno].
Qed.

Lemma rindex_brace_none (s : string) :
  forall i last, rindex_brace s i last = None -> last = None /\ no_brace s.
Proof.
  induction s as [|c s IH]; intros i last Hr; simpl in Hr.
  - split; [exact Hr | intros []].
  - destruct (IH _ _ Hr) as [Hlast Hno].
    destruct (Ascii.eqb_spec c "}") as [-> | Hc]; [discriminate Hlast|].
    split; [exact Hlast|]. intros [Hin | Hin]; [congruence | exact (Hno Hin)].
Qed.

(** What [read_mtd] does when [product.xml] is there. *)
Lemma rs2_read_mtd_run (self : Rs2Product) (w : World unit) (root : Element) :
  product_xml self = Some root ->
  read_mtd self w =
  (match rindex_brace (tag root) 0 None with
   | Some idx => Return (root, substring 0 (idx + 1) (tag root))
   | None => Raise ValueError
   end, after_read self w).
Proof.
  intros Hxml. unfold read_mtd, after_read, bind, access, ret, raise. rewrite Hxml.
  destruct (is_archived self); simpl;
    destruct (rindex_brace (tag root) 0 None); reflexivity.
Qed.

(** X3. [read_mtd] splits the tag of the root of [product.xml] at its last
    closing brace: the namespace it returns ends with that brace, the tag
    is the namespace followed by a local name without a brace, and the
    file is opened once. A root whose tag holds no closing brace makes
    [read_mtd] raise [ValueError]. *)
Theorem read_mtd_splits_root_tag (self : Rs2Product) (w : World unit)
    (root : Element) :
  product_xml self = Some root ->
  (no_brace (tag root) ->
   read_mtd self w = (Raise ValueError, after_read self w)) /\
  (~ no_brace (tag root) ->
   exists prefix local,
     read_mtd self w = (Return (root, prefix +:+ "}"), after_read self w) /\
     tag root = (prefix +:+ "}") +:+ local /\
     no_brace local).
Proof.
  intros Hxml. rewrite (rs2_read_mtd_run self w root Hxml).
  destruct (rindex_brace (tag root) 0 None) as [idx|] eqn:Hr.
  - destruct (rindex_brace_found _ _ _ _ Hr)
      as [[Hlast _] | (p & l & Htag & Hlen & Hno)]; [discriminate Hlast|].
    split.
    + intros Hnone. exfalso. apply Hnone. rewrite Htag.
      clear. induction p as [|c p IH]; [left; reflexivity | right; exact IH].
    + intros _. exists p, l.
      assert (Hsub : substring 0 (idx + 1) (tag root) = p +:+ "}").
      { rewrite Htag, <- append_assoc.
        replace (idx + 1) with (String.length (p +:+ "}"))
          by (rewrite length_append; simpl in *; lia).
        apply substring_prefix_append. }
      rewrite Hsub. split; [reflexivity|].
      split; [rewrite Htag; symmetry; apply append_assoc | exact Hno].
  - destruct (rindex_brace_none _ _ _ Hr) as [_ Hno]. split.
    + intros _. reflexivity.
    + intros Hyes. contradiction.
Qed.

Lemma read_mtd_splits_root_tag_witness :
  exists prefix local,
    read_mtd wide_product start
    = (Return (wide_xml, prefix +:+ "}"), after_read wide_product start) /\
    tag wide_xml = (prefix +:+ "}") +:+ local /\
    no_brace local.
Proof.
  apply (proj2 (read_mtd_splits_root_tag wide_product start wide_xml eq_refl)).
  intros Hno. apply Hno. vm_compute. tauto.
Defined.

(** *** The pixel spacing of the metadata *)

Lemma child_of_first_found (self : Rs2Product) (outer inner ns : string)
    (el : Element) :
  child_of_first self outer inner = Some (ns, el) ->
  exists root element,
    product_xml self = Some root /\
    (forall w, read_mtd self w = (Return (root, ns), after_read self w)) /\
    List.find (fun element => String.eqb (tag element) (ns +:+ outer))
      (children root) = Some element /\
    find (Child (ns +:+ inner)) element = Some el.
Proof.
  unfold child_of_first, namespace_of.
  destruct (product_xml self) as [root|] eqn:Hxml; [|discriminate].
  destruct (rindex_brace (tag root) 0 None) as [idx|] eqn:Hr; [|discriminate].
  destruct (List.find _ (children root)) as [element|] eqn:Hfind; [|discriminate].
  destruct (find _ element) as [el'|] eqn:Hel; [|discriminate].
  intros [= <- <-]. exists root, element.
  split; [reflexivity|]. split; [|split; assumption].
  intros w. rewrite (rs2_read_mtd_run self w root Hxml), Hr. reflexivity.
Qed.

Lemma read_pixel_spacing_run (self : Rs2Product) (w : World unit)
    (text : option string) :
  pixel_spacing_text self = Some text ->
  read_pixel_spacing self w =
  (match py_float text with
   | Return r => Return (Some r)
   | Raise e => Raise e
   end, after_read self w).
Proof.
  unfold pixel_spacing_text.
  destruct (child_of_first self _ _) as [[ns ra]|] eqn:Hc; [|discriminate].
  intros [= <-].
  destruct (child_of_first_found _ _ _ _ _ Hc)
    as (root & element & _ & Hread & Hfind & Hra).
  unfold read_pixel_spacing, bind. rewrite Hread, Hfind, Hra.
  unfold lift, findtext_on, ret.
  destruct (py_float _); reflexivity.
Qed.

(** X4. When [rasterAttributes] gives a [sampledPixelSpacing] that reads
    as a number, [_set_resolution] returns that number, whatever the sensor
    mode and the product type, after one access to [product.xml] and
    without a log record; a spacing that reads as zero counts as missing
    and hands over to the table of defaults. *)
Theorem set_resolution_reads_pixel_spacing (self : Rs2Product) (w : World unit)
    (text : string) (r : float) :
  pixel_spacing_text self = Some (Some text) ->
  float_of_string text = Some r ->
  _set_resolution self w =
  if PrimFloat.eqb r 0 then survival_mode self (after_read self w)
  else (Return r, after_read self w).
Proof.
  intros Htext Hr.
  unfold _set_resolution, bind, try_except.
  rewrite (read_pixel_spacing_run self w _ Htext). unfold py_float. rewrite Hr.
  unfold falsy. destruct (PrimFloat.eqb r 0); reflexivity.
Qed.

Lemma set_resolution_reads_pixel_spacing_witness :
  _set_resolution wide_product start
  = (Return 12.5%float, after_read wide_product start).
Proof.
  exact (set_resolution_reads_pixel_spacing wide_product start "12.5" 12.5%float
           eq_refl eq_refl).
Defined.

(** X5. When [rasterAttributes] is there, a [sampledPixelSpacing] that is
    missing or is no number is not taken for a missing spacing:
    [_set_resolution] raises [TypeError] in the first case and
    [ValueError] in the second, in whatever sensor mode, and the table of
    defaults is not consulted. *)
Theorem set_resolution_unreadable_spacing_raises (self : Rs2Product)
    (w : World unit) (text : option string) :
  pixel_spacing_text self = Some text ->
  match text with
  | None => True
  | Some t => float_of_string t = None
  end ->
  _set_resolution self w =
  (Raise (match text with None => TypeError | Some _ => ValueError end),
   after_read self w).
Proof.
  intros Htext Hbad.
  unfold _set_resolution, bind, try_except.
  rewrite (read_pixel_spacing_run self w _ Htext). unfold py_float.
  destruct text as [t|]; [rewrite Hbad|]; reflexivity.
Qed.

Lemma set_resolution_unreadable_spacing_raises_witness :
  _set_resolution spacingless_product start
  = (Raise TypeError, after_read spacingless_product start).
Proof.
  exact (set_resolution_unreadable_spacing_raises spacingless_product start None
           eq_refl I).
Defined.

(** X6. When the metadata gives no pixel spacing, every sensor mode
    without a row in the table of defaults (the Quad-Pol, ScanSAR, Ocean
    Surveillance and Ship Detection modes, and a mode outside the
    enumeration) makes [_set_resolution] raise the [AttributeError] of
    [Rs2SensorMode.WQ]: the values 3.13, 25, 50, 40 and 20 of the later
    branches, their [NotImplementedError] and the final
    [InvalidTypeError] are never reached. *)
Theorem set_resolution_defaults_stop_at_WQ (self : Rs2Product) (w : World unit) :
  no_pixel_spacing self ->
  without_default self ->
  exists w', _set_resolution self w = (Raise (AttributeError "WQ"), w')
             /\ log w' = log w.
Proof.
  intros Hno Hwd. destruct (try_block_quiet self w Hno) as (w1 & Htry & Hlog).
  unfold _set_resolution, bind. rewrite Htry. simpl.
  unfold survival_mode, without_default in *.
  destruct (sensor_mode self) as [m|].
  - destruct m; simpl in Hwd; try discriminate Hwd;
      simpl; eexists; (split; [reflexivity | exact Hlog]).
  - simpl. eexists; (split; [reflexivity | exact Hlog]).
Qed.

Lemma set_resolution_defaults_stop_at_WQ_witness :
  exists w', _set_resolution scansar_narrow_product start
             = (Raise (AttributeError "WQ"), w')
             /\ log w' = log start.
Proof.
  apply (set_resolution_defaults_stop_at_WQ scansar_narrow_product start).
  - left. split; reflexivity.
  - reflexivity.
Defined.

(** *** The sensor mode *)

Lemma from_value_value (m : Rs2SensorMode.t) :
  Rs2SensorMode.from_value (Rs2SensorMode.value m) = Return m.
Proof. destruct m; reflexivity. Qed.

Lemma list_values_members (v : string) :
  In v Rs2SensorMode.list_values -> exists m, v = Rs2SensorMode.value m.
Proof.
  unfold Rs2SensorMode.list_values. rewrite in_map_iff.
  intros ([n m] & <- & _). exists m. reflexivity.
Qed.

Section SensorModeSpec.

Variable get_close_matches : string -> list string -> list string.

(** What [difflib] promises: the matches are taken from the
    possibilities. *)
Hypothesis matches_are_possibilities :
  forall word possibilities,
    Forall (fun m => In m possibilities) (get_close_matches word possibilities).

Lemma read_acquisition_type_run (self : Rs2Product) (w : World unit)
    (text : option string) :
  acquisition_type_text self = Some text ->
  read_acquisition_type self w = (Return text, after_read self w).
Proof.
  unfold acquisition_type_text.
  destruct (child_of_first self _ _) as [[ns rp]|] eqn:Hc; [|discriminate].
  intros [= <-].
  destruct (child_of_first_found _ _ _ _ _ Hc)
    as (root & element & _ & Hread & Hfind & Hrp).
  unfold read_acquisition_type, bind. rewrite Hread, Hfind, Hrp. reflexivity.
Qed.

(** X7. With [radarParameters] at hand, [_set_sensor_mode] refuses a
    missing or empty [acquisitionType] with [InvalidTypeError]; otherwise
    it takes the best close match among the values of [Rs2SensorMode] and
    assigns the member of that value. As the matches are values of the
    enumeration, [from_value] never fails on them and the
    [except ValueError] clause is dead; an acquisition type that resembles
    no value surfaces as the [IndexError] of [[0]] on an empty list. *)
Theorem set_sensor_mode_takes_best_match (self : Rs2Product) (name : string)
    (w : World unit) (text : option string) :
  acquisition_type_text self = Some text ->
  (text = None \/ text = Some EmptyString ->
   _set_sensor_mode get_close_matches self name w
   = (Raise (invalid_sensor_mode name), after_read self w)) /\
  (forall xml,
      text = Some xml -> xml <> EmptyString ->
      match get_close_matches xml Rs2SensorMode.list_values with
      | [] =>
          _set_sensor_mode get_close_matches self name w
          = (Raise IndexError, after_read self w)
      | best :: _ =>
          exists m, best = Rs2SensorMode.value m /\
            _set_sensor_mode get_close_matches self name w
            = (Return (with_sensor_mode self m), after_read self w)
      end).
Proof using Type*.
  intros Htext. split.
  - intros Hmissing. unfold _set_sensor_mode, bind.
    rewrite (read_acquisition_type_run self w _ Htext).
    destruct Hmissing as [-> | ->]; reflexivity.
  - intros xml -> Hne.
    unfold _set_sensor_mode, bind.
    rewrite (read_acquisition_type_run self w _ Htext).
    destruct (String.eqb_spec xml EmptyString) as [Heq|_]; [contradiction|].
    pose proof (matches_are_possibilities xml Rs2SensorMode.list_values) as Hposs.
    destruct (get_close_matches xml Rs2SensorMode.list_values) as [|best rest].
    + reflexivity.
    + apply Forall_cons in Hposs. destruct Hposs as [Hbest _].
      destruct (list_values_members best Hbest) as [m ->].
      exists m. split; [reflexivity|].
      unfold lift, list_getitem, try_except, bind. simpl.
      rewrite from_value_value. reflexivity.
Qed.

End SensorModeSpec.

Lemma exact_matches_are_possibilities (word : string) (possibilities : list string) :
  Forall (fun m => In m possibilities) (exact_matches word possibilities).
Proof.
  apply List.Forall_forall. intros m Hm. unfold exact_matches in Hm.
  apply filter_In in Hm. tauto.
Qed.

Lemma set_sensor_mode_takes_best_match_witness :
  exists m, "Wide" = Rs2SensorMode.value m /\
    _set_sensor_mode exact_matches wide_product "RS2_OK73950" start
    = (Return (with_sensor_mode wide_product m), after_read wide_product start).
Proof.
  apply (proj2 (set_sensor_mode_takes_best_match exact_matches
                  exact_matches_are_possibilities wide_product "RS2_OK73950" start
                  (Some "Wide") eq_refl) "Wide" eq_refl).
  discriminate.
Defined.

End rs2_spec.

(** ** COSMO-SkyMed ([csk_product.py]) *)
Module csk_spec.

Import csk_product csk_terms.

(** X8. The fields [_get_split_name] returns are not empty and hold no
    underscore; put end to end they are the name without its underscores;
    and when no field of the name is empty, joining them with underscores
    gives the name back. *)
Theorem get_split_name_fields (self : CskProduct) :
  Forall (fun x => x <> EmptyString /\ ~ In "_"%char (list_ascii_of_string x))
    (_get_split_name self) /\
  concat (map list_ascii_of_string (_get_split_name self))
  = list_ascii_of_string (without_underscores (real_name self)) /\
  (Forall (fun x => x <> EmptyString) (split "_" (real_name self)) ->
   join "_" (_get_split_name self) = real_name self).
Proof.
  unfold _get_split_name.
  destruct (split_fields "_" (real_name self)) as [Hf Hc].
  split; [|split].
  - apply List.Forall_forall. intros x Hx. apply filter_In in Hx.
    destruct Hx as [Hin Hne]. split.
    + intros ->. discriminate Hne.
    + rewrite List.Forall_forall in Hf. exact (Hf x Hin).
  - rewrite concat_filter_nonempty, Hc. unfold without_underscores.
    rewrite list_ascii_of_string_of_list_ascii. reflexivity.
  - intros Hne. rewrite filter_all; [apply join_split|].
    eapply List.Forall_impl; [|exact Hne]. intros x Hx. simpl.
    destruct (String.eqb_spec x EmptyString); [contradiction | reflexivity].
Qed.

(** X9. [_set_sensor_mode] looks at the fourth field of the name and
    assigns the last member of [CskSensorMode], in the order of the class
    body, whose value occurs in it; when none occurs it leaves the
    attribute as it is and raises [InvalidProductError] if that is [None].
    A field that is the value of a member selects that member. *)
Theorem csk_set_sensor_mode_last_match (self : CskProduct)
    (w : World (option CskSensorMode.t)) (field : string) :
  split_name self !! 3 = Some field ->
  _set_sensor_mode self w =
  match last (matching_modes field), obj w with
  | Some m, _ => (Return tt, mkWorld (log w) (io w) (Some m))
  | None, Some m => (Return tt, mkWorld (log w) (io w) (Some m))
  | None, None =>
      (Raise (InvalidProductError
                ("Invalid COSMO-Skymed name: " +:+ real_name self)), w)
  end /\
  (forall m, field = CskSensorMode.value m -> last (matching_modes field) = Some m).
Proof.
  intros Hfield. split.
  - unfold _set_sensor_mode, bind, lift, list_getitem. rewrite Hfield.
    unfold matching_modes. simpl.
    destruct w as [lg i o].
    destruct (contains "HI" field), (contains "PP" field), (contains "WR" field),
      (contains "HR" field), (contains "S2" field); simpl;
      try reflexivity; destruct o; reflexivity.
  - intros m ->. destruct m; reflexivity.
Qed.

Lemma csk_set_sensor_mode_last_match_witness :
  _set_sensor_mode himage_product start
  = (Return tt, mkWorld [] [] (Some CskSensorMode.HI)).
Proof.
  exact (proj1 (csk_set_sensor_mode_last_match himage_product start "HI" eq_refl)).
Defined.

End csk_spec.

(** ** Sentinel-2 ([s2_product.py]) *)
Module s2_spec.

Import xr s2_product s2_terms.

Section WithCollaborators.

Context `{Collaborators}.

(** *** Reading the metadata *)

Lemma read_datatake_mtd_run (self : S2Product) (w : World S2State) :
  read_datatake_mtd self w =
  match memo_read_datatake_mtd (obj w) with
  | Some root => (Return root, w)
  | None =>
      match datatake_xml self with
      | Some root =>
          (Return root,
           after_memo (set_memo_read_datatake_mtd root)
             (after_access (ReadXml "MTD_MSI*.xml") w))
      | None =>
          (Raise (InvalidProductError "Metadata file (MTD_MSI*.xml) not found"),
           after_access (ReadXml "MTD_MSI*.xml") w)
      end
  end.
Proof.
  unfold read_datatake_mtd, cache.
  destruct (memo_read_datatake_mtd (obj w)); [reflexivity|].
  unfold _read_mtd_xml, bind, access. destruct (datatake_xml self); reflexivity.
Qed.

Lemma read_mtd_run (self : S2Product) (w : World S2State) :
  read_mtd self w =
  match memo__read_mtd (obj w) with
  | Some root => (Return root, w)
  | None =>
      match mtd_xml self with
      | Some root =>
          (Return root,
           after_memo (set_memo__read_mtd root)
             (after_access (ReadXml "GRANULE/*/*.xml") w))
      | None =>
          (Raise (InvalidProductError "Metadata file (GRANULE/*/*.xml) not found"),
           after_access (ReadXml "GRANULE/*/*.xml") w)
      end
  end.
Proof.
  unfold read_mtd, _read_mtd, cache.
  destruct (memo__read_mtd (obj w)); [reflexivity|].
  unfold _read_mtd_xml, bind, access. destruct (mtd_xml self); reflexivity.
Qed.

(** Reading succeeds exactly when there is a root to find. *)
Lemma read_datatake_mtd_found (self : S2Product) (w : World S2State) root :
  datatake_root self w = Some root ->
  exists w', read_datatake_mtd self w = (Return root, w')
             /\ log w' = log w /\ no_data_val (obj w') = no_data_val (obj w).
Proof.
  unfold datatake_root. rewrite read_datatake_mtd_run.
  destruct (memo_read_datatake_mtd (obj w)) as [r|].
  - intros [= ->]. eexists; repeat split; reflexivity.
  - intros ->. eexists; repeat split; reflexivity.
Qed.

Lemma read_datatake_mtd_missing (self : S2Product) (w : World S2State) :
  datatake_root self w = None ->
  exists msg w', read_datatake_mtd self w = (Raise (InvalidProductError msg), w')
                 /\ log w' = log w /\ no_data_val (obj w') = no_data_val (obj w).
Proof.
  unfold datatake_root. rewrite read_datatake_mtd_run.
  destruct (memo_read_datatake_mtd (obj w)) as [r|]; [discriminate|].
  intros ->. do 2 eexists; repeat split; reflexivity.
Qed.

Lemma read_mtd_found (self : S2Product) (w : World S2State) root :
  mtd_root self w = Some root ->
  exists w', read_mtd self w = (Return root, w') /\ log w' = log w.
Proof.
  unfold mtd_root. rewrite read_mtd_run.
  destruct (memo__read_mtd (obj w)) as [r|].
  - intros [= ->]. eexists; split; reflexivity.
  - intros ->. eexists; split; reflexivity.
Qed.

Lemma read_mtd_missing (self : S2Product) (w : World S2State) :
  mtd_root self w = None ->
  exists msg w', read_mtd self w = (Raise (InvalidProductError msg), w')
                 /\ log w' = log w.
Proof.
  unfold mtd_root. rewrite read_mtd_run.
  destruct (memo__read_mtd (obj w)) as [r|]; [discriminate|].
  intros ->. do 2 eexists; split; reflexivity.
Qed.

(** *** Reflectance *)





(** *** Cloud cover and sun angles *)

Lemma get_cloud_cover_fallback (self : S2Product) (w : World S2State) :
  memo_get_cloud_cover (obj w) = None ->
  no_cloud_cover self w ->
  exists w', get_cloud_cover self w = (Return (Int 0), w')
             /\ log w' = log w ++ [cloud_cover_warning].
Proof.
  intros Hmemo Hno. unfold get_cloud_cover, cache. rewrite Hmemo.
  unfold try_except. unfold bind at 1.
  destruct Hno as [Hmissing | (root & Hroot & Htext)].
  - destruct (read_mtd_missing self w Hmissing) as (msg & w1 & Hread & Hlog).
    rewrite Hread. simpl. rewrite Hlog. eexists; split; reflexivity.
  - destruct (read_mtd_found self w root Hroot) as (w1 & Hread & Hlog).
    rewrite Hread. unfold bind at 1. unfold lift at 1. rewrite Htext.
    simpl. rewrite Hlog. eexists; split; reflexivity.
Qed.

Lemma get_mean_sun_angles_fallback (self : S2Product) (w : World S2State) :
  memo_get_mean_sun_angles (obj w) = None ->
  no_sun_angles self w ->
  exists msg w', get_mean_sun_angles self w = (Return (0.0, 0.0)%float, w')
                 /\ log w' = log w ++ [sun_angles_warning msg].
Proof.
  intros Hmemo Hno. unfold get_mean_sun_angles, cache. rewrite Hmemo.
  unfold try_except at 1. unfold bind at 1.
  destruct Hno as [Hmissing | (root & angles & Hroot & Hfind & Hangles)].
  - destruct (read_mtd_missing self w Hmissing) as (msg & w1 & Hread & Hlog).
    rewrite Hread. simpl. rewrite Hlog. do 2 eexists; split; reflexivity.
  - destruct (read_mtd_found self w root Hroot) as (w1 & Hread & Hlog).
    rewrite Hread. unfold try_except at 1. rewrite Hfind.
    unfold bind at 1. unfold findtext_on, lift at 1.
    destruct Hangles as [Hz | [[z Hz] Ha]].
    + unfold bind at 1. unfold lift at 1. rewrite Hz. simpl.
      rewrite Hlog. do 2 eexists; split; reflexivity.
    + unfold bind at 1. unfold lift at 1. rewrite Hz.
      unfold bind at 1. unfold lift at 1.
      unfold bind at 1. unfold lift at 1. rewrite Ha. simpl.
      rewrite Hlog. do 2 eexists; split; reflexivity.
Qed.

(** A [CLOUDY_PIXEL_PERCENTAGE] that is there and is not a number is not
    replaced by the fallback: [float()] raises [ValueError], which no
    [except] clause of [get_cloud_cover] takes. *)
Lemma get_cloud_cover_malformed (self : S2Product) (w : World S2State) root text :
  memo_get_cloud_cover (obj w) = None ->
  mtd_root self w = Some root ->
  findtext (Descendant "CLOUDY_PIXEL_PERCENTAGE") root = Some text ->
  float_of_string text = None ->
  exists w', get_cloud_cover self w = (Raise ValueError, w') /\ log w' = log w.
Proof.
  intros Hmemo Hroot Htext Hbad. unfold get_cloud_cover, cache. rewrite Hmemo.
  unfold try_except. unfold bind at 1.
  destruct (read_mtd_found self w root Hroot) as (w1 & Hread & Hlog).
  rewrite Hread. unfold bind at 1. unfold lift at 1. rewrite Htext.
  unfold py_float. rewrite Hbad. simpl. eexists; split; [reflexivity | exact Hlog].
Qed.

(** C8, amended. On a first call, when the granule metadata cannot be read
    or has no [CLOUDY_PIXEL_PERCENTAGE], [get_cloud_cover] returns 0 and
    logs one warning; when the metadata cannot be read or its
    [Mean_Sun_Angle] lacks an angle, [get_mean_sun_angles] returns
    (0.0, 0.0) and logs one warning; neither raises. A cloud percentage
    that is present and is not a number raises [ValueError]. *)
Theorem metadata_fallbacks (self : S2Product) (w : World S2State) :
  (memo_get_cloud_cover (obj w) = None ->
   no_cloud_cover self w ->
   exists w', get_cloud_cover self w = (Return (Int 0), w')
              /\ log w' = log w ++ [cloud_cover_warning]) /\
  (memo_get_mean_sun_angles (obj w) = None ->
   no_sun_angles self w ->
   exists msg w', get_mean_sun_angles self w = (Return (0.0, 0.0)%float, w')
                  /\ log w' = log w ++ [sun_angles_warning msg]) /\
  (forall root text,
      memo_get_cloud_cover (obj w) = None ->
      mtd_root self w = Some root ->
      findtext (Descendant "CLOUDY_PIXEL_PERCENTAGE") root = Some text ->
      float_of_string text = None ->
      exists w', get_cloud_cover self w = (Raise ValueError, w')
                 /\ log w' = log w).
Proof.
  split; [apply get_cloud_cover_fallback|].
  split; [apply get_mean_sun_angles_fallback|].
  intros root text. apply get_cloud_cover_malformed.
Qed.

(** *** Orbit direction *)

(** Without a readable datatake file [get_orbit_direction] returns
    [DESCENDING] and logs nothing. *)
Lemma get_orbit_direction_without_datatake (self : S2Product) (w : World S2State) :
  memo_get_orbit_direction (obj w) = None ->
  datatake_root self w = None ->
  exists w', get_orbit_direction self w = (Return DESCENDING, w')
             /\ log w' = log w.
Proof.
  intros Hmemo Hmissing. unfold get_orbit_direction, cache. rewrite Hmemo.
  unfold try_except at 1. unfold bind at 1.
  destruct (read_datatake_mtd_missing self w Hmissing)
    as (msg & w1 & Hread & Hlog & _).
  rewrite Hread. simpl. eexists; split; [reflexivity | exact Hlog].
Qed.

(** With datatake metadata that lack [SENSING_ORBIT_DIRECTION],
    [from_value(None)] raises [ValueError]; the clause
    [except TypeError], written for the missing element, does not take it,
    and neither does [except InvalidProductError]. *)
Lemma get_orbit_direction_ValueError (self : S2Product) (w : World S2State) root :
  memo_get_orbit_direction (obj w) = None ->
  datatake_root self w = Some root ->
  findtext (Descendant "SENSING_ORBIT_DIRECTION") root = None ->
  exists w', get_orbit_direction self w = (Raise ValueError, w')
             /\ log w' = log w.
Proof.
  intros Hmemo Hroot Htext. unfold get_orbit_direction, cache. rewrite Hmemo.
  unfold try_except at 1. unfold bind at 1.
  destruct (read_datatake_mtd_found self w root Hroot) as (w1 & Hread & Hlog & _).
  rewrite Hread. unfold try_except at 1. unfold lift at 1. rewrite Htext.
  simpl. eexists; split; [reflexivity | exact Hlog].
Qed.

(** *** Loading no band *)

Lemma s2_load_bands_nothing (self : S2Product) (resolution : option float)
    (size : option (Z * Z)) (w : World S2State) :
  _load_bands self [] resolution size w = (Return ∅, w).
Proof. reflexivity. Qed.

(** *** The memoized CRS *)

Lemma crs_memo_hit (self : S2Product) (w : World S2State) (c : CRS) :
  memo_crs (obj w) = Some c -> crs self w = (Return c, w).
Proof.
  intros Hmemo. unfold crs, cache. rewrite Hmemo. reflexivity.
Qed.

(** A call that returns leaves its value in the memo. *)
Lemma crs_return_memoizes (self : S2Product) (w w1 : World S2State) (c : CRS) :
  crs self w = (Return c, w1) -> memo_crs (obj w1) = Some c.
Proof.
  unfold crs, cache. destruct (memo_crs (obj w)) as [v|] eqn:Hmemo.
  - intros [= <- <-]. exact Hmemo.
  - match goal with |- context [match ?m w with _ => _ end] =>
      destruct (m w) as [[v|e] w'] end.
    + intros [= <- <-]. reflexivity.
    + discriminate.
Qed.

Ltac case_step :=
  match goal with
  | |- context [CRS_from_string ?x] => destruct (CRS_from_string x)
  | |- context [str_getitem ?s ?n] => destruct (str_getitem s n)
  | |- context [is_InvalidProductError ?e] => destruct (is_InvalidProductError e)
  end.

(** What the body of [crs] reads: one file at most. *)
Lemma crs_reads_at_most_once (self : S2Product) (w w1 : World S2State)
    (r : result CRS) :
  crs self w = (r, w1) -> length (io w1) <= length (io w) + 1.
Proof.
  unfold crs, cache. destruct (memo_crs (obj w)) as [v|].
  { intros [= <- <-]. lia. }
  destruct (_processing_baseline self <? 2.07)%float.
  - unfold try_except, bind. rewrite read_mtd_run.
    destruct (memo__read_mtd (obj w)) as [root|]; [|destruct (mtd_xml self) as [root|]];
      unfold lift; repeat (first [case_step | progress simpl]);
      intros [= <- <-]; simpl; rewrite ?length_app; simpl; lia.
  - unfold super_crs, bind, access, lift.
    repeat (first [case_step | progress simpl]);
      intros [= <- <-]; simpl; rewrite ?length_app; simpl; lia.
Qed.

(** The Sentinel-2 part of C3: after a call of [crs] that returned, the
    next call returns the same value and leaves the world as it is (it
    reads nothing), and the first call read one file at most. *)
Lemma crs_memoized (self : S2Product) (w w1 : World S2State) (c : CRS) :
  crs self w = (Return c, w1) ->
  crs self w1 = (Return c, w1) /\ length (io w1) <= length (io w) + 1.
Proof.
  intros Hcall. split.
  - apply crs_memo_hit. exact (crs_return_memoizes self w w1 c Hcall).
  - exact (crs_reads_at_most_once self w w1 (Return c) Hcall).
Qed.

(** *** Cloud bands *)

Lemma open_cloud_lt_4_0_run def_band cloud_vec nodata band band_dict
    (w : World S2State) :
  if supported band
  then exists d, open_cloud_lt_4_0 def_band cloud_vec nodata band band_dict w
                 = (Return d, w)
  else open_cloud_lt_4_0 def_band cloud_vec nodata band band_dict w
       = (Raise (unsupported_error band), w).
Proof.
  destruct band; simpl; unfold open_cloud_lt_4_0, bind, ret; simpl;
    try (eexists; reflexivity); reflexivity.
Qed.

Lemma for_each_lt_4_0_unsupported def_band cloud_vec nodata bands b0 :
  first_unsupported bands = Some b0 ->
  forall band_dict (w : World S2State),
    for_each (open_cloud_lt_4_0 def_band cloud_vec nodata) bands band_dict w
    = (Raise (unsupported_error b0), w).
Proof.
  unfold first_unsupported.
  induction bands as [|b bands IH]; [discriminate|].
  intros Hfind band_dict w. simpl in Hfind |- *. unfold bind.
  pose proof (open_cloud_lt_4_0_run def_band cloud_vec nodata b band_dict w) as Hrun.
  destruct (supported b); simpl in Hfind.
  - destruct Hrun as [d ->]. apply IH. exact Hfind.
  - injection Hfind as <-. rewrite Hrun. reflexivity.
Qed.

Lemma open_cloud_gt_4_0_unsupported cloud_vec band band_dict (w : World S2State) :
  supported band = false ->
  open_cloud_gt_4_0 cloud_vec band band_dict w = (Raise (unsupported_error band), w).
Proof.
  destruct band; intros Hs; try discriminate Hs; reflexivity.
Qed.

(** A supported band leaves the world alone, whether the raster has the
    plane it needs or not; with two planes it is always built. *)
Lemma open_cloud_gt_4_0_supported cloud_vec band band_dict (w : World S2State) :
  supported band = true ->
  (exists d, open_cloud_gt_4_0 cloud_vec band band_dict w = (Return d, w)) \/
  (length cloud_vec < 2 /\
   open_cloud_gt_4_0 cloud_vec band band_dict w = (Raise IndexError, w)).
Proof.
  intros Hs. unfold open_cloud_gt_4_0, bind, lift, ret, plane.
  destruct cloud_vec as [|p0 [|p1 rest]];
    destruct band; try discriminate Hs; simpl;
    first [ left; eexists; reflexivity | right; split; [lia | reflexivity] ].
Qed.

Lemma for_each_gt_4_0_never_returns cloud_vec bands :
  In SHADOWS bands ->
  forall band_dict (w : World S2State),
    exists e, for_each (open_cloud_gt_4_0 cloud_vec) bands band_dict w = (Raise e, w).
Proof.
  induction bands as [|b bands IH]; [intros []|].
  intros Hin band_dict w. simpl. unfold bind.
  destruct (supported b) eqn:Hs.
  - destruct (open_cloud_gt_4_0_supported cloud_vec b band_dict w Hs)
      as [[d ->] | [_ ->]].
    + apply IH. destruct Hin as [-> | Hin]; [discriminate Hs | exact Hin].
    + eexists; reflexivity.
  - rewrite (open_cloud_gt_4_0_unsupported cloud_vec b band_dict w Hs).
    eexists; reflexivity.
Qed.

Lemma for_each_gt_4_0_unsupported cloud_vec bands b0 :
  2 <= length cloud_vec ->
  first_unsupported bands = Some b0 ->
  forall band_dict (w : World S2State),
    for_each (open_cloud_gt_4_0 cloud_vec) bands band_dict w
    = (Raise (unsupported_error b0), w).
Proof.
  intros Hlen. unfold first_unsupported.
  induction bands as [|b bands IH]; [discriminate|].
  intros Hfind band_dict w. simpl in Hfind |- *. unfold bind.
  destruct (supported b) eqn:Hs; simpl in Hfind.
  - destruct (open_cloud_gt_4_0_supported cloud_vec b band_dict w Hs)
      as [[d ->] | [Hshort _]]; [|lia].
    apply IH. exact Hfind.
  - injection Hfind as <-.
    rewrite (open_cloud_gt_4_0_unsupported cloud_vec b band_dict w Hs).
    reflexivity.
Qed.

Lemma first_unsupported_exists bands :
  In SHADOWS bands -> exists b0, first_unsupported bands = Some b0.
Proof.
  unfold first_unsupported. induction bands as [|b bands IH]; [intros []|].
  intros [-> | Hin]; simpl.
  - eexists; reflexivity.
  - destruct (supported b); simpl; [apply IH, Hin | eexists; reflexivity].
Qed.

Lemma open_clouds_lt_4_0_run (self : S2Product) b bands (w : World S2State) :
  _open_clouds_lt_4_0 self (b :: bands) w =
  match _open_mask_lt_4_0 self S2GmlMasks.CLOUDS NoneArg w with
  | (Return cloud_vec, w1) =>
      match default_band self with
      | Some def_band =>
          for_each
            (open_cloud_lt_4_0 def_band cloud_vec
               (map3 (fun x => if is_nan x then 1%Z else 0%Z) (data def_band)))
            (b :: bands) ∅ (after_access (ReadRaster "default band") w1)
      | None =>
          (Raise (InvalidProductError "Corrupted file"),
           after_access (ReadRaster "default band") w1)
      end
  | (Raise e, w1) => (Raise e, w1)
  end.
Proof.
  unfold _open_clouds_lt_4_0. unfold bind at 1.
  destruct (_open_mask_lt_4_0 self S2GmlMasks.CLOUDS NoneArg w)
    as [[cloud_vec|e] w1]; [|reflexivity].
  unfold bind at 1. unfold read_default_band, bind, access.
  destruct (default_band self); reflexivity.
Qed.

Lemma open_clouds_gt_4_0_run (self : S2Product) b bands (w : World S2State) :
  _open_clouds_gt_4_0 self (b :: bands) w =
  match jp2_masks self (S2Jp2Masks.value S2Jp2Masks.CLOUDS) "00" with
  | Some cloud_vec =>
      for_each (open_cloud_gt_4_0 (map3 (fun v => (v mod 256)%Z) cloud_vec))
        (b :: bands) ∅ (after_access (ReadRaster "MSK_CLASSI_B00.jp2") w)
  | None =>
      (Raise FileNotFoundError, after_access (ReadRaster "MSK_CLASSI_B00.jp2") w)
  end.
Proof.
  unfold _open_clouds_gt_4_0, _open_mask_gt_4_0. unfold bind at 1 2 3.
  unfold ret at 1. unfold access.
  destruct (jp2_masks self (S2Jp2Masks.value S2Jp2Masks.CLOUDS) "00");
    reflexivity.
Qed.

(** C6, amended. Sentinel-2 has no SHADOWS band ([_has_cloud_band] says
    so), and a request that holds SHADOWS never returns from
    [_open_clouds], so that no zero-filled array comes out of it: it
    raises. When the cloud mask and the default band can be read, what is
    raised is the [InvalidTypeError] that names the first band of the
    request that Sentinel-2 does not produce; for SHADOWS the name is
    [CloudsBandNames.SHADOWS], as the f-string renders the member. *)
Theorem open_clouds_shadows_raises (self : S2Product) (bands : list BandNames)
    (w : World S2State) :
  In SHADOWS bands ->
  _has_cloud_band SHADOWS = false /\
  (exists e w', _open_clouds self bands w = (Raise e, w')) /\
  (cloud_sources_readable self w ->
   exists band w',
     first_unsupported bands = Some band /\
     _open_clouds self bands w = (Raise (unsupported_error band), w')) /\
  (first_unsupported bands = Some SHADOWS ->
   cloud_sources_readable self w ->
   exists w', _open_clouds self bands w
              = (Raise (InvalidTypeError
                          "Non existing cloud band for Sentinel-2: CloudsBandNames.SHADOWS"),
                 w')).
Proof.
  intros Hin. split; [reflexivity|].
  destruct (first_unsupported_exists _ Hin) as [b0 Hb0].
  destruct bands as [|b bands]; [destruct Hin|].
  unfold cloud_sources_readable, _open_clouds.
  destruct (_processing_baseline self <? 4.0)%float.
  - rewrite open_clouds_lt_4_0_run.
    destruct (_open_mask_lt_4_0 self S2GmlMasks.CLOUDS NoneArg w)
      as [[cloud_vec|e] w1] eqn:Hmask.
    + destruct (default_band self) as [def_band|].
      * split; [|split].
        -- do 2 eexists. apply (for_each_lt_4_0_unsupported _ _ _ _ b0 Hb0).
        -- intros _. exists b0. eexists. split; [exact Hb0|].
           apply (for_each_lt_4_0_unsupported _ _ _ _ b0 Hb0).
        -- intros Hfirst _. eexists.
           apply (for_each_lt_4_0_unsupported _ _ _ _ SHADOWS Hfirst).
      * split; [do 2 eexists; reflexivity|].
        split; [intros [_ [x Hx]] | intros _ [_ [x Hx]]]; discriminate Hx.
    + split; [do 2 eexists; reflexivity|].
      split; [intros [(v & w2 & Hv) _] | intros _ [(v & w2 & Hv) _]];
        discriminate Hv.
  - rewrite open_clouds_gt_4_0_run.
    destruct (jp2_masks self (S2Jp2Masks.value S2Jp2Masks.CLOUDS) "00")
      as [cloud_vec|].
    + split; [|split].
      * destruct (for_each_gt_4_0_never_returns
                    (map3 (fun v => (v mod 256)%Z) cloud_vec) (b :: bands) Hin ∅
                    (after_access (ReadRaster "MSK_CLASSI_B00.jp2") w)) as [e He].
        do 2 eexists. exact He.
      * intros (cloud_vec' & [= <-] & Hlen). exists b0. eexists.
        split; [exact Hb0|].
        apply (for_each_gt_4_0_unsupported _ _ b0); [|exact Hb0].
        unfold map3. rewrite length_map. exact Hlen.
      * intros Hfirst (cloud_vec' & [= <-] & Hlen). eexists.
        apply (for_each_gt_4_0_unsupported _ _ SHADOWS); [|exact Hfirst].
        unfold map3. rewrite length_map. exact Hlen.
    + split; [do 2 eexists; reflexivity|].
      split; [intros (cloud_vec' & Hv & _) | intros _ (cloud_vec' & Hv & _)];
        discriminate Hv.
Qed.

(** *** Invalid pixels below baseline 4.0 *)

Lemma crs_keeps_log (self : S2Product) (w w1 : World S2State) (r : result CRS) :
  crs self w = (r, w1) -> log w1 = log w.
Proof.
  unfold crs, cache. destruct (memo_crs (obj w)) as [v|].
  { intros [= <- <-]. reflexivity. }
  destruct (_processing_baseline self <? 2.07)%float.
  - unfold try_except, bind. rewrite read_mtd_run.
    destruct (memo__read_mtd (obj w)) as [root|]; [|destruct (mtd_xml self) as [root|]];
      unfold lift; repeat (first [case_step | progress simpl]);
      intros [= <- <-]; reflexivity.
  - unfold super_crs, bind, access, lift.
    repeat (first [case_step | progress simpl]);
      intros [= <- <-]; reflexivity.
Qed.

(** A vector mask of a band that was opened: the band is mapped, the CRS
    is memoized from then on, and nothing was logged. *)
Lemma open_mask_lt_4_0_returned (self : S2Product) (mask_id : S2GmlMasks.t)
    (band : BandNames) (w w1 : World S2State) (g : GeoDataFrame) :
  mask_id <> S2GmlMasks.CLOUDS ->
  _open_mask_lt_4_0 self mask_id (BandArg band) w = (Return g, w1) ->
  exists sb c, bands_getitem self band = Return sb
               /\ memo_crs (obj w1) = Some c /\ log w1 = log w.
Proof.
  intros Hid. unfold _open_mask_lt_4_0.
  replace (match mask_id with S2GmlMasks.CLOUDS => StrArg "00" | _ => BandArg band end)
    with (BandArg band) by (destruct mask_id; congruence).
  unfold bind at 1. unfold bind at 1. unfold lift at 1.
  destruct (bands_getitem self band) as [sb|e]; [|discriminate].
  unfold ret at 1. unfold try_except, bind, access.
  destruct (gml_masks self (S2GmlMasks.value mask_id) (ID sb)) as [content|];
    [|discriminate].
  match goal with |- context [crs self ?w0] =>
    destruct (crs self w0) as [[c|e] w2] eqn:Hcrs end; [|discriminate].
  destruct content as [mask|]; [|discriminate].
  intros [= <- <-]. exists sb, c. split; [reflexivity|].
  split; [exact (crs_return_memoizes _ _ _ _ Hcrs)|].
  exact (crs_keeps_log _ _ _ _ Hcrs).
Qed.

(** With the CRS memoized, a readable layer opens at the cost of one
    access. *)
Lemma open_mask_lt_4_0_ready (self : S2Product) (mask_id : S2GmlMasks.t)
    (band : BandNames) (w : World S2State) sb c (g : GeoDataFrame) :
  mask_id <> S2GmlMasks.CLOUDS ->
  bands_getitem self band = Return sb ->
  memo_crs (obj w) = Some c ->
  gml_masks self (S2GmlMasks.value mask_id) (ID sb) = Some (Some g) ->
  _open_mask_lt_4_0 self mask_id (BandArg band) w
  = (Return g, after_access (ReadVector (S2GmlMasks.value mask_id) (ID sb)) w).
Proof.
  intros Hid Hsb Hmemo Hfile. unfold _open_mask_lt_4_0.
  replace (match mask_id with S2GmlMasks.CLOUDS => StrArg "00" | _ => BandArg band end)
    with (BandArg band) by (destruct mask_id; congruence).
  unfold bind at 1. unfold bind at 1. unfold lift at 1. rewrite Hsb.
  unfold ret at 1. unfold try_except, bind, access. rewrite Hfile.
  rewrite (crs_memo_hit self _ c) by exact Hmemo. reflexivity.
Qed.

Lemma zero_mask_pixel (band_arr : DataArray) k i j x :
  pixel (data band_arr) k i j = Some x ->
  pixel (where_equal band_arr 0%float) k i j
  = Some (if PrimFloat.eqb x 0 then 1%Z else 0%Z).
Proof.
  intros Hx. unfold where_equal.
  apply (index_spec.pixel_map3
           (fun v => if PrimFloat.eqb v 0 then 1%Z else 0%Z)). exact Hx.
Qed.

Lemma manage_nodata_lt_4_0_empty_footprint (self : S2Product)
    (band_arr : DataArray) (band : BandNames) (w w1 : World S2State)
    (nodata_det : GeoDataFrame) :
  _open_mask_lt_4_0 self S2GmlMasks.FOOTPRINT (BandArg band) w
    = (Return nodata_det, w1) ->
  len nodata_det = 0 ->
  exists w', _manage_nodata_lt_4_0 self band_arr band w
             = (Return (_set_nodata_mask band_arr (zero_mask band_arr)), w')
             /\ log w' = log w ++ [detfoo_warning].
Proof.
  intros Hdet Hempty.
  destruct (open_mask_lt_4_0_returned self S2GmlMasks.FOOTPRINT band w w1 nodata_det
              ltac:(discriminate) Hdet) as (sb & c & Hsb & Hmemo & Hlog).
  unfold _manage_nodata_lt_4_0. unfold bind at 1. rewrite Hdet, Hempty.
  eexists. split; [reflexivity|]. simpl. rewrite Hlog. reflexivity.
Qed.

Lemma manage_invalid_pixels_lt_4_0_empty_footprint (self : S2Product)
    (band_arr : DataArray) (band : BandNames) (w w1 : World S2State)
    (nodata_det : GeoDataFrame) sb nodata_pix defect satura tecqua :
  _open_mask_lt_4_0 self S2GmlMasks.FOOTPRINT (BandArg band) w
    = (Return nodata_det, w1) ->
  len nodata_det = 0 ->
  bands_getitem self band = Return sb ->
  gml_masks self "NODATA" (ID sb) = Some (Some nodata_pix) ->
  gml_masks self "DEFECT" (ID sb) = Some (Some defect) ->
  gml_masks self "SATURA" (ID sb) = Some (Some satura) ->
  gml_masks self "TECQUA" (ID sb) = Some (Some tecqua) ->
  no_nodata_pixels nodata_pix ->
  exists w', _manage_invalid_pixels_lt_4_0 self band_arr band w
             = (Return (_set_nodata_mask band_arr (zero_mask band_arr)), w')
             /\ log w' = log w ++ [detfoo_warning].
Proof.
  intros Hdet Hempty Hsb Hnodata Hdefect Hsatura Htecqua Hno.
  destruct (open_mask_lt_4_0_returned self S2GmlMasks.FOOTPRINT band w w1 nodata_det
              ltac:(discriminate) Hdet) as (sb' & c & _ & Hmemo & Hlog).
  unfold _manage_invalid_pixels_lt_4_0. unfold bind at 1. rewrite Hdet, Hempty.
  unfold bind at 1. unfold bind at 1.
  unfold LOGGER_warning at 1. unfold LOGGER_log at 1. unfold ret at 1.
  change (Nat.ltb 0 0) with false. cbv beta iota.
  unfold ret at 1. cbv beta iota. unfold bind at 1.
  rewrite (open_mask_lt_4_0_ready self S2GmlMasks.NODATA band _ sb c nodata_pix)
    by (first [discriminate | assumption]).
  unfold bind at 1.
  rewrite (open_mask_lt_4_0_ready self S2GmlMasks.DEFECT band _ sb c defect)
    by (first [discriminate | assumption]).
  unfold bind at 1.
  rewrite (open_mask_lt_4_0_ready self S2GmlMasks.SATURATION band _ sb c satura)
    by (first [discriminate | assumption]).
  unfold bind at 1.
  rewrite (open_mask_lt_4_0_ready self S2GmlMasks.QUALITY band _ sb c tecqua)
    by (first [discriminate | assumption]).
  assert (Hlen : len (if Nat.ltb 0 (len nodata_pix)
                      then select (fun f => String.eqb (gml_id f) "QT_NODATA_PIXELS")
                             nodata_pix
                      else nodata_pix) = 0).
  { destruct (Nat.ltb 0 (len nodata_pix)) eqn:Hlt.
    - unfold len, select. simpl. unfold no_nodata_pixels in Hno. rewrite Hno.
      reflexivity.
    - apply Nat.ltb_ge in Hlt. lia. }
  unfold bind at 1. rewrite Hlen.
  eexists. split; [reflexivity|]. simpl. rewrite Hlog. reflexivity.
Qed.

(** C5, amended. Below baseline 4.0, when the detector footprint layer
    opens and is empty, [_manage_nodata_lt_4_0] marks exactly the pixels
    whose value equals 0 ([zero_mask]) and logs one warning;
    [_manage_invalid_pixels_lt_4_0] does the same when the other layers can
    be read and the pixel-level NODATA layer holds no [QT_NODATA_PIXELS]
    polygon. *)
Theorem empty_footprint_marks_zero_pixels (self : S2Product)
    (band_arr : DataArray) (band : BandNames) (w w1 : World S2State)
    (nodata_det : GeoDataFrame) :
  _open_mask_lt_4_0 self S2GmlMasks.FOOTPRINT (BandArg band) w
    = (Return nodata_det, w1) ->
  len nodata_det = 0 ->
  (exists w', _manage_nodata_lt_4_0 self band_arr band w
              = (Return (_set_nodata_mask band_arr (zero_mask band_arr)), w')
              /\ log w' = log w ++ [detfoo_warning]) /\
  (forall sb nodata_pix defect satura tecqua,
      bands_getitem self band = Return sb ->
      gml_masks self "NODATA" (ID sb) = Some (Some nodata_pix) ->
      gml_masks self "DEFECT" (ID sb) = Some (Some defect) ->
      gml_masks self "SATURA" (ID sb) = Some (Some satura) ->
      gml_masks self "TECQUA" (ID sb) = Some (Some tecqua) ->
      no_nodata_pixels nodata_pix ->
      exists w', _manage_invalid_pixels_lt_4_0 self band_arr band w
                 = (Return (_set_nodata_mask band_arr (zero_mask band_arr)), w')
                 /\ log w' = log w ++ [detfoo_warning]) /\
  (forall k i j x,
      pixel (data band_arr) k i j = Some x ->
      pixel (where_equal band_arr 0%float) k i j
      = Some (if PrimFloat.eqb x 0 then 1%Z else 0%Z)).
Proof.
  intros Hdet Hempty.
  split; [exact (manage_nodata_lt_4_0_empty_footprint _ _ _ _ _ _ Hdet Hempty)|].
  split.
  - intros sb nodata_pix defect satura tecqua Hsb Hn Hd Hs Ht Hno.
    exact (manage_invalid_pixels_lt_4_0_empty_footprint _ _ _ _ _ _ _ _ _ _ _
             Hdet Hempty Hsb Hn Hd Hs Ht Hno).
  - intros k i j x. apply zero_mask_pixel.
Qed.

(** *** The CRS from the tile name *)

(** X10. For a product of baseline below 2.07 whose granule metadata
    cannot be read, the first [crs()] falls back on the tile name: the
    code is [epsg:326zz] when the latitude band (character 3) comes after
    N and [epsg:327zz] otherwise, [zz] being characters 1 and 2, and the
    outcome is that of [CRS.from_string] on this code. One attempt at
    reading the metadata is made, and the CRS is memoized exactly when
    [from_string] returns. *)
Theorem crs_from_tile_name (self : S2Product) (w : World S2State) (code : string) :
  (_processing_baseline self <? 2.07)%float = true ->
  memo_crs (obj w) = None ->
  mtd_root self w = None ->
  epsg_of_tile_name (tile_name self) = Some code ->
  exists w',
    crs self w = (CRS_from_string (Some code), w') /\
    io w' = io w ++ [ReadXml "GRANULE/*/*.xml"] /\
    memo_crs (obj w') = match CRS_from_string (Some code) with
                        | Return c => Some c
                        | Raise _ => None
                        end.
Proof.
  intros Hlt Hmemo Hroot Hcode.
  unfold mtd_root in Hroot.
  destruct (memo__read_mtd (obj w)) as [r|] eqn:Hm; [discriminate|].
  unfold epsg_of_tile_name in Hcode.
  destruct (String.get 3 (tile_name self)) as [letter|] eqn:Hl; [|discriminate].
  injection Hcode as <-.
  unfold crs, cache. rewrite Hmemo, Hlt.
  unfold try_except, bind. rewrite read_mtd_run, Hm, Hroot. simpl.
  unfold lift, str_getitem. rewrite Hl.
  match goal with
  | |- context [CRS_parse ?x] => destruct (CRS_parse x) as [c|]
  end; eexists; repeat split; try reflexivity.
  simpl. exact Hmemo.
Qed.

(** *** The mean sun angles *)

(** X11. When the granule metadata holds a [Mean_Sun_Angle] element whose
    [ZENITH_ANGLE] and [AZIMUTH_ANGLE] read as numbers, the first
    [get_mean_sun_angles()] returns them, azimuth first, without a log
    record, and a second call returns the same pair and leaves the state
    as it is. *)
Theorem get_mean_sun_angles_reads_metadata (self : S2Product)
    (w : World S2State) (root angles : Element) (zenith azimuth : float) :
  memo_get_mean_sun_angles (obj w) = None ->
  mtd_root self w = Some root ->
  find (Descendant "Mean_Sun_Angle") root = Some angles ->
  py_float (findtext (Child "ZENITH_ANGLE") angles) = Return zenith ->
  py_float (findtext (Child "AZIMUTH_ANGLE") angles) = Return azimuth ->
  exists w',
    get_mean_sun_angles self w = (Return (azimuth, zenith), w') /\
    log w' = log w /\
    get_mean_sun_angles self w' = (Return (azimuth, zenith), w').
Proof.
  intros Hmemo Hroot Hfind Hz Ha.
  destruct (read_mtd_found self w root Hroot) as (w1 & Hread & Hlog).
  unfold get_mean_sun_angles at 1. unfold cache. rewrite Hmemo.
  unfold try_except, bind. rewrite Hread, Hfind.
  unfold lift, findtext_on. rewrite Hz, Ha. simpl.
  eexists. split; [reflexivity|]. split; [exact Hlog|].
  unfold get_mean_sun_angles, cache. reflexivity.
Qed.

(** X12. [get_mean_sun_angles] turns only [TypeError] and
    [InvalidProductError] into the pair (0, 0): granule metadata without a
    [Mean_Sun_Angle] element makes it raise [AttributeError], and a
    [ZENITH_ANGLE] that is no number makes it raise [ValueError], in both
    cases without a warning. *)
Theorem get_mean_sun_angles_uncaught (self : S2Product) (w : World S2State)
    (root : Element) :
  memo_get_mean_sun_angles (obj w) = None ->
  mtd_root self w = Some root ->
  (find (Descendant "Mean_Sun_Angle") root = None ->
   exists msg w',
     get_mean_sun_angles self w = (Raise (AttributeError msg), w')
     /\ log w' = log w) /\
  (forall angles text,
      find (Descendant "Mean_Sun_Angle") root = Some angles ->
      findtext (Child "ZENITH_ANGLE") angles = Some text ->
      float_of_string text = None ->
      exists w',
        get_mean_sun_angles self w = (Raise ValueError, w') /\ log w' = log w).
Proof.
  intros Hmemo Hroot.
  destruct (read_mtd_found self w root Hroot) as (w1 & Hread & Hlog).
  split.
  - intros Hfind. unfold get_mean_sun_angles, cache. rewrite Hmemo.
    unfold try_except, bind. rewrite Hread, Hfind. simpl.
    do 2 eexists. split; [reflexivity | exact Hlog].
  - intros angles text Hfind Htext Hbad.
    unfold get_mean_sun_angles, cache. rewrite Hmemo.
    unfold try_except, bind. rewrite Hread, Hfind.
    unfold lift, findtext_on, py_float. rewrite Htext, Hbad. simpl.
    eexists. split; [reflexivity | exact Hlog].
Qed.

Lemma narrow_nir_id (self : S2Product) :
  exists sb, bands_getitem self NARROW_NIR = Return sb
             /\ py_int (Some (ID sb)) = Return 8%Z.
Proof.
  unfold bands_getitem, _map_bands.
  destruct (product_type self); eexists; split; vm_compute; reflexivity.
Qed.

(** X13. [_to_reflectance] calibrates NIR and NARROW_NIR with the same
    entries of the datatake metadata: NIR takes the offset of [band_id] 8
    by the special case of the source, NARROW_NIR by [int] of its
    identifier, which is 8 as well. The offset and the quantification
    value read, and the array returned, are the same for both. *)
Theorem same_offset_for_nir_and_narrow_nir (self : S2Product)
    (band_arr : DataArray) (path : string) (w : World S2State) :
  read_calibration self NIR w = read_calibration self NARROW_NIR w /\
  fst (_to_reflectance self band_arr path NIR w)
  = fst (_to_reflectance self band_arr path NARROW_NIR w).
Proof.
  assert (Hcal : forall w0, read_calibration self NIR w0
                            = read_calibration self NARROW_NIR w0).
  { intros w0. destruct (narrow_nir_id self) as (sb & Hsb & Hid).
    unfold read_calibration, bind.
    destruct (read_datatake_mtd self w0) as [[root|e] w1]; [|reflexivity].
    match goal with
    | |- context [try_except ?b ?h w1] => destruct (try_except b h w1) as [[q|e] w2]
    end; [|reflexivity].
    destruct (_processing_baseline self <? 4.0)%float; [reflexivity|].
    unfold try_except, bind, lift, ret.
    destruct (decide (NIR = NIR)) as [_|Hn]; [|contradiction].
    destruct (decide (NARROW_NIR = NIR)) as [Hn|_]; [discriminate|].
    rewrite Hsb, Hid. reflexivity. }
  split; [apply Hcal|].
  unfold _to_reflectance. destruct (endswith path ".jp2"); [|reflexivity].
  unfold bind, try_except. rewrite Hcal.
  destruct (read_calibration self NARROW_NIR w) as [[[offset q]|e] w1].
  - unfold lift, truediv. destruct (q =? 0)%float; reflexivity.
  - destruct (is_InvalidProductError e); [|reflexivity].
    unfold lift, truediv, ret.
    destruct (10000 =? 0)%float; reflexivity.
Qed.

(** *** The vector masks of the baselines below 4.0 *)

(** X14. Whatever goes wrong in [_open_mask_lt_4_0] once the band is
    resolved (no file, an unreadable file, a CRS that cannot be had)
    reaches the caller as [InvalidProductError]: no other exception leaves
    the method. *)
Theorem open_mask_lt_4_0_wraps_errors (self : S2Product) (mask_id : S2GmlMasks.t)
    (band : band_arg) (w w' : World S2State) (e : exception) :
  band_resolves self mask_id band ->
  _open_mask_lt_4_0 self mask_id band w = (Raise e, w') ->
  exists msg, e = InvalidProductError msg.
Proof.
  intros Hband. unfold _open_mask_lt_4_0.
  set (band' := match mask_id with S2GmlMasks.CLOUDS => StrArg "00" | _ => band end).
  assert (Hres : exists band_name,
             forall w0 : World S2State,
               (match band' with
                | BandArg b => sb <- lift (bands_getitem self b) ;; ret (ID sb)
                | StrArg s => ret s
                | NoneArg => ret "None"
                end : S2 string) w0 = (Return band_name, w0)).
  { subst band'. destruct band as [b|s|]; destruct mask_id; simpl in Hband;
      try (eexists; intros; reflexivity);
      destruct Hband as [Hc | [sb Hsb]]; try discriminate Hc;
      exists (ID sb); intros w0; unfold bind, lift, ret, bands_getitem;
      rewrite Hsb; reflexivity. }
  destruct Hres as [band_name Hres].
  unfold bind at 1. rewrite Hres.
  unfold try_except.
  match goal with
  | |- context [match ?m w with _ => _ end] => destruct (m w) as [[g|ex] w1]
  end.
  - discriminate.
  - unfold raise. intros [= <- <-]. eexists; reflexivity.
Qed.

Lemma bind_cong {O A B} (m m' : M O A) (k k' : A -> M O B) (w : World O) :
  m' w = m w ->
  (forall a w1, k' a w1 = k a w1) ->
  bind m' k' w = bind m k w.
Proof.
  intros Hm Hk. unfold bind. rewrite Hm.
  destruct (m w) as [[a|e] w1]; [apply Hk | reflexivity].
Qed.

Lemma bind_drop {A A' B} (m : S2 A) (m' : S2 A') (k : A -> S2 B) (k' : A' -> S2 B)
    (w : World S2State) :
  same_effect (m' w) (m w) ->
  (forall a a' w1, k' a' w1 = k a w1) ->
  bind m' k' w = bind m k w.
Proof.
  intros [Hw Hr] Hk. unfold bind.
  destruct (m' w) as [[a'|e'] w1'], (m w) as [[a|e] w1]; simpl in *; subst;
    try contradiction; [apply Hk | reflexivity].
Qed.

Lemma bind_both {A B} (m : S2 A) (k k' : A -> S2 B) (w : World S2State)
    (c : Prop) :
  (forall a w1, (c -> k' a w1 = k a w1) /\ same_effect (k' a w1) (k a w1)) ->
  (c -> bind m k' w = bind m k w) /\ same_effect (bind m k' w) (bind m k w).
Proof.
  intros Hk. unfold bind.
  destruct (m w) as [[a|e] w1]; [apply Hk|].
  split; [reflexivity | split; reflexivity].
Qed.

Lemma crs_with_gml_masks (self : S2Product) layers (w : World S2State) :
  crs (with_gml_masks self layers) w = crs self w.
Proof. reflexivity. Qed.

Lemma open_mask_lt_4_0_with_gml_masks (self : S2Product) layers
    (mask_id : S2GmlMasks.t) (band : band_arg) (w : World S2State) :
  same_but_dropped_layers (gml_masks self) layers ->
  (dropped_layer (S2GmlMasks.value mask_id) = false ->
   _open_mask_lt_4_0 (with_gml_masks self layers) mask_id band w
   = _open_mask_lt_4_0 self mask_id band w) /\
  same_effect (_open_mask_lt_4_0 (with_gml_masks self layers) mask_id band w)
    (_open_mask_lt_4_0 self mask_id band w).
Proof.
  intros Hsame.
  assert (Hstep : forall band_name (w0 : World S2State),
             (dropped_layer (S2GmlMasks.value mask_id) = false ->
              try_except
                (access (ReadVector (S2GmlMasks.value mask_id) band_name) ;;;
                 match layers (S2GmlMasks.value mask_id) band_name with
                 | Some content =>
                     _ <- crs (with_gml_masks self layers) ;;
                     match content with
                     | Some mask => ret mask
                     | None => raise ValueError
                     end
                 | None => raise FileNotFoundError
                 end)
                (fun ex => Some (raise (InvalidProductError (str_exception ex)))) w0
              = try_except
                  (access (ReadVector (S2GmlMasks.value mask_id) band_name) ;;;
                   match gml_masks self (S2GmlMasks.value mask_id) band_name with
                   | Some content =>
                       _ <- crs self ;;
                       match content with
                       | Some mask => ret mask
                       | None => raise ValueError
                       end
                   | None => raise FileNotFoundError
                   end)
                  (fun ex => Some (raise (InvalidProductError (str_exception ex)))) w0) /\
             same_effect
               (try_except
                  (access (ReadVector (S2GmlMasks.value mask_id) band_name) ;;;
                   match layers (S2GmlMasks.value mask_id) band_name with
                   | Some content =>
                       _ <- crs (with_gml_masks self layers) ;;
                       match content with
                       | Some mask => ret mask
                       | None => raise ValueError
                       end
                   | None => raise FileNotFoundError
                   end)
                  (fun ex => Some (raise (InvalidProductError (str_exception ex)))) w0)
               (try_except
                  (access (ReadVector (S2GmlMasks.value mask_id) band_name) ;;;
                   match gml_masks self (S2GmlMasks.value mask_id) band_name with
                   | Some content =>
                       _ <- crs self ;;
                       match content with
                       | Some mask => ret mask
                       | None => raise ValueError
                       end
                   | None => raise FileNotFoundError
                   end)
                  (fun ex => Some (raise (InvalidProductError (str_exception ex)))) w0)).
  { intros band_name w0. unfold try_except, bind, access.
    destruct (Hsame (S2GmlMasks.value mask_id) band_name)
      as [Heq | (Hd & a & b & Ha & Hb)].
    - rewrite <- Heq. split; [reflexivity|].
      destruct (gml_masks self (S2GmlMasks.value mask_id) band_name) as [content|];
        [|split; reflexivity].
      rewrite crs_with_gml_masks.
      match goal with
      | |- context [crs self ?w1] => destruct (crs self w1) as [[c|e] w2]
      end; [|split; reflexivity].
      destruct content; split; reflexivity.
    - rewrite Ha, Hb, crs_with_gml_masks.
      split; [rewrite Hd; discriminate|].
      match goal with
      | |- context [crs self ?w1] => destruct (crs self w1) as [[c|e] w2]
      end; split; reflexivity. }
  unfold _open_mask_lt_4_0.
  change (gml_masks (with_gml_masks self layers)) with layers.
  change (bands_getitem (with_gml_masks self layers)) with (bands_getitem self).
  apply bind_both. intros band_name w0. apply Hstep.
Qed.

(** X15. [_manage_invalid_pixels_lt_4_0] opens the DEFECT, SATURA and
    TECQUA layers and makes no use of their features: two products that
    differ only in the features of these layers get the same array, the
    same log and the same accesses. Only a layer that is missing or
    unreadable shows, as the exception of [_open_mask_lt_4_0]. *)
Theorem manage_invalid_pixels_lt_4_0_drops_quality_layers (self : S2Product)
    (layers : string -> string -> option (option GeoDataFrame))
    (band_arr : DataArray) (band : BandNames) (w : World S2State) :
  same_but_dropped_layers (gml_masks self) layers ->
  _manage_invalid_pixels_lt_4_0 (with_gml_masks self layers) band_arr band w
  = _manage_invalid_pixels_lt_4_0 self band_arr band w.
Proof.
  intros Hsame. unfold _manage_invalid_pixels_lt_4_0.
  apply bind_cong;
    [apply (open_mask_lt_4_0_with_gml_masks self layers); [exact Hsame | reflexivity]|].
  intros nodata_det w1. apply bind_cong; [reflexivity|].
  intros mask w2. apply bind_cong;
    [apply (open_mask_lt_4_0_with_gml_masks self layers); [exact Hsame | reflexivity]|].
  intros nodata_pix w3. apply bind_drop;
    [apply (open_mask_lt_4_0_with_gml_masks self layers); exact Hsame|].
  intros defect defect' w4. apply bind_drop;
    [apply (open_mask_lt_4_0_with_gml_masks self layers); exact Hsame|].
  intros satura satura' w5. apply bind_drop;
    [apply (open_mask_lt_4_0_with_gml_masks self layers); exact Hsame|].
  intros tecqua tecqua' w6. reflexivity.
Qed.

(** *** The cloud bands that are built *)

Lemma open_cloud_lt_4_0_inserts def_band cloud_vec nodata band band_dict
    (w : World S2State) :
  supported band = true ->
  exists a, open_cloud_lt_4_0 def_band cloud_vec nodata band band_dict w
            = (Return (<[ band := a ]> band_dict), w)
            /\ name a = Some (to_str band).
Proof.
  destruct band; intros Hs; try discriminate Hs;
    eexists; split; reflexivity.
Qed.

Lemma open_cloud_gt_4_0_inserts cloud_vec band band_dict (w : World S2State) :
  2 <= length cloud_vec ->
  supported band = true ->
  exists a, open_cloud_gt_4_0 cloud_vec band band_dict w
            = (Return (<[ band := a ]> band_dict), w)
            /\ name a = Some (to_str band).
Proof.
  intros Hlen Hs. destruct cloud_vec as [|p0 [|p1 rest]]; simpl in Hlen; try lia.
  destruct band; try discriminate Hs; eexists; split; reflexivity.
Qed.

Lemma for_each_inserts
    (body : BandNames -> gmap BandNames DataArray -> S2 (gmap BandNames DataArray)) :
  (forall band band_dict w,
      supported band = true ->
      exists a, body band band_dict w = (Return (<[ band := a ]> band_dict), w)
                /\ name a = Some (to_str band)) ->
  forall bands band_dict (w : World S2State),
    Forall (fun b => supported b = true) bands ->
    (forall b a, band_dict !! b = Some a -> name a = Some (to_str b)) ->
    exists d, for_each body bands band_dict w = (Return d, w) /\
              (forall b, is_Some (d !! b) <-> In b bands \/ is_Some (band_dict !! b)) /\
              (forall b a, d !! b = Some a -> name a = Some (to_str b)).
Proof.
  intros Hbody bands. induction bands as [|band bands IH]; intros band_dict w Hs Hnames.
  - exists band_dict. split; [reflexivity|]. split; [|exact Hnames].
    intros b. simpl. tauto.
  - apply Forall_cons in Hs. destruct Hs as [Hband Hs].
    destruct (Hbody band band_dict w Hband) as (a & Hrun & Ha).
    destruct (IH (<[ band := a ]> band_dict) w Hs) as (d & Hd & Hkeys & Hn).
    { intros b a0. destruct (decide (band = b)) as [<- | Hne].
      - rewrite lookup_insert_eq. intros [= <-]. exact Ha.
      - rewrite lookup_insert_ne by exact Hne. apply Hnames. }
    exists d. simpl. unfold bind. rewrite Hrun.
    split; [exact Hd|]. split; [|exact Hn].
    intros b. rewrite Hkeys. simpl.
    destruct (decide (band = b)) as [<- | Hne].
    + rewrite lookup_insert_eq. split; [intros _; left; left; reflexivity|].
      intros _. right. eexists; reflexivity.
    + rewrite lookup_insert_ne by exact Hne. tauto.
Qed.

(** X16. For a request made of ALL_CLOUDS, CIRRUS, CLOUDS and RAW_CLOUDS
    bands, when the cloud mask (and, below baseline 4.0, the default band)
    can be read, [_open_clouds] returns, whatever the baseline, a
    dictionary whose keys are exactly the bands asked for, and every array
    in it bears the name of its band. *)
Theorem open_clouds_returns_requested_bands (self : S2Product)
    (bands : list BandNames) (w : World S2State) :
  Forall (fun b => supported b = true) bands ->
  cloud_sources_readable self w ->
  exists d w', _open_clouds self bands w = (Return d, w') /\ holds_exactly bands d.
Proof.
  intros Hs Hread. unfold holds_exactly.
  destruct bands as [|b bands].
  { exists ∅, w. split.
    - unfold _open_clouds, _open_clouds_lt_4_0, _open_clouds_gt_4_0.
      destruct (_processing_baseline self <? 4.0)%float; reflexivity.
    - split.
      + intros b. rewrite lookup_empty. split; [intros [x Hx]; discriminate Hx | intros []].
      + intros b a. rewrite lookup_empty. discriminate. }
  unfold cloud_sources_readable in Hread. unfold _open_clouds.
  assert (Hempty : forall b0 a, (∅ : gmap BandNames DataArray) !! b0 = Some a ->
                                name a = Some (to_str b0))
    by (intros b0 a; rewrite lookup_empty; discriminate).
  destruct (_processing_baseline self <? 4.0)%float.
  - destruct Hread as [(cloud_vec & w1 & Hmask) [def_band Hdef]].
    rewrite open_clouds_lt_4_0_run, Hmask, Hdef.
    destruct (for_each_inserts _
                (open_cloud_lt_4_0_inserts def_band cloud_vec
                   (map3 (fun x => if is_nan x then 1%Z else 0%Z) (data def_band)))
                (b :: bands) ∅ (after_access (ReadRaster "default band") w1) Hs Hempty)
      as (d & Hd & Hkeys & Hn).
    exists d. eexists. split; [exact Hd|]. split; [|exact Hn].
    intros b0. rewrite Hkeys, lookup_empty.
    split; [intros [Hin | [x Hx]]; [exact Hin | discriminate Hx] | intros Hin; left; exact Hin].
  - destruct Hread as (cloud_vec & Hfile & Hlen).
    rewrite open_clouds_gt_4_0_run, Hfile.
    assert (Hlen' : 2 <= length (map3 (fun v => (v mod 256)%Z) cloud_vec))
      by (unfold map3; rewrite length_map; exact Hlen).
    destruct (for_each_inserts _
                (fun band band_dict w0 =>
                   open_cloud_gt_4_0_inserts _ band band_dict w0 Hlen')
                (b :: bands) ∅ (after_access (ReadRaster "MSK_CLASSI_B00.jp2") w) Hs Hempty)
      as (d & Hd & Hkeys & Hn).
    exists d. eexists. split; [exact Hd|]. split; [|exact Hn].
    intros b0. rewrite Hkeys, lookup_empty.
    split; [intros [Hin | [x Hx]]; [exact Hin | discriminate Hx] | intros Hin; left; exact Hin].
Qed.

(** *** The band map *)

Lemma map_bands_entries (self : S2Product) (b : BandNames) (sb : SpectralBand) :
  _map_bands self !! b = Some sb ->
  eoreader_name sb = b /\ NAME sb = "B" +:+ ID sb /\
  (b = SWIR_CIRRUS -> product_type self = L1C).
Proof.
  unfold _map_bands.
  destruct (product_type self), b; intros Hb; vm_compute in Hb;
    try discriminate Hb; injection Hb as <-;
    (split; [reflexivity | split; [reflexivity | intros; (reflexivity || discriminate)]]).
Qed.

(** X17. In the band map of a Sentinel-2 product every entry is filed
    under its own name and is named B followed by its identifier; no two
    bands share an identifier; and SWIR_CIRRUS (B10) is mapped for L1C
    products only. *)
Theorem map_bands_is_consistent (self : S2Product) :
  (forall b sb, _map_bands self !! b = Some sb ->
                eoreader_name sb = b /\ NAME sb = "B" +:+ ID sb) /\
  (forall b1 b2 sb1 sb2,
      _map_bands self !! b1 = Some sb1 ->
      _map_bands self !! b2 = Some sb2 ->
      ID sb1 = ID sb2 -> b1 = b2) /\
  (is_Some (_map_bands self !! SWIR_CIRRUS) <-> product_type self = L1C).
Proof.
  split; [|split].
  - intros b sb Hb. destruct (map_bands_entries self b sb Hb) as (H1 & H2 & _).
    split; assumption.
  - unfold _map_bands.
    destruct (product_type self); intros b1 b2 sb1 sb2 H1 H2 Hid;
      destruct b1; vm_compute in H1; try discriminate H1; injection H1 as <-;
      destruct b2; vm_compute in H2; try discriminate H2; injection H2 as <-;
      first [reflexivity | discriminate Hid].
  - unfold _map_bands. destruct (product_type self); split.
    + intros _. reflexivity.
    + intros _. vm_compute. eexists; reflexivity.
    + intros [sb Hsb]. vm_compute in Hsb. discriminate Hsb.
    + discriminate.
Qed.

End WithCollaborators.

#[local] Existing Instance reference.



Lemma metadata_fallbacks_witness :
  memo_get_cloud_cover (obj start) = None /\
  no_cloud_cover degraded_product start /\
  exists w', get_cloud_cover degraded_product start = (Return (Int 0), w')
             /\ log w' = log start ++ [cloud_cover_warning].
Proof.
  assert (Hno : no_cloud_cover degraded_product start) by (left; reflexivity).
  split; [reflexivity|]. split; [exact Hno|].
  exact (proj1 (metadata_fallbacks degraded_product start) eq_refl Hno).
Defined.

(** C8, as stated, fails: with a cloud percentage that is not a number
    [get_cloud_cover] raises [ValueError] and logs nothing. *)
Lemma get_cloud_cover_malformed_raises :
  findtext (Descendant "CLOUDY_PIXEL_PERCENTAGE") malformed_mtd = Some "n/a" /\
  fst (get_cloud_cover malformed_product start) = Raise ValueError /\
  log (snd (get_cloud_cover malformed_product start)) = [].
Proof.
  split; [reflexivity|]. split; reflexivity.
Qed.

(** With the metadata [malformed_mtd], which has no [Mean_Sun_Angle],
    [get_mean_sun_angles] raises the [AttributeError] of
    [None.findtext]. *)
Lemma get_mean_sun_angles_without_element_raises :
  find (Descendant "Mean_Sun_Angle") malformed_mtd = None /\
  fst (get_mean_sun_angles malformed_product start)
  = Raise (AttributeError "'NoneType' object has no attribute 'findtext'").
Proof.
  split; reflexivity.
Qed.

(** C10. The claim holds of a product without datatake metadata and fails
    of one whose datatake metadata are read and lack
    [SENSING_ORBIT_DIRECTION]: there [from_value(None)] raises
    [ValueError], the clause [except TypeError] that was written for the
    missing element does not take it, and [get_orbit_direction] raises
    instead of returning [DESCENDING]. *)
Theorem get_orbit_direction_missing_field_raises :
  findtext (Descendant "SENSING_ORBIT_DIRECTION") (datatake_mtd "10000") = None /\
  fst (get_orbit_direction (datatake_product "10000") start) = Raise ValueError /\
  log (snd (get_orbit_direction (datatake_product "10000") start)) = [] /\
  fst (get_orbit_direction degraded_product start) = Return DESCENDING.
Proof.
  split; [reflexivity|]. split; [reflexivity|]. split; reflexivity.
Qed.

(** C6, as stated, fails: the cloud mask is opened before the bands of the
    request are looked at, and on a product without the CLOUDS layer the
    request for SHADOWS ends with the [InvalidProductError] of
    [_open_mask_lt_4_0], not with [InvalidTypeError]. *)
Lemma open_clouds_shadows_unreadable_mask :
  In SHADOWS [SHADOWS] /\
  gml_masks (footprintless_product empty_layer) "CLOUDS" "00" = None /\
  exists msg,
    fst (_open_clouds (footprintless_product empty_layer) [SHADOWS] start)
    = Raise (InvalidProductError msg).
Proof.
  split; [left; reflexivity|]. split; [reflexivity|].
  eexists. reflexivity.
Qed.

Lemma open_clouds_shadows_raises_witness :
  In SHADOWS [CLOUDS; SHADOWS] /\
  first_unsupported [CLOUDS; SHADOWS] = Some SHADOWS /\
  cloud_sources_readable cloudless_product start /\
  exists w', _open_clouds cloudless_product [CLOUDS; SHADOWS] start
             = (Raise (InvalidTypeError
                         "Non existing cloud band for Sentinel-2: CloudsBandNames.SHADOWS"),
                w').
Proof.
  assert (Hin : In SHADOWS [CLOUDS; SHADOWS]) by (right; left; reflexivity).
  assert (Hsrc : cloud_sources_readable cloudless_product start).
  { unfold cloud_sources_readable.
    change ((_processing_baseline cloudless_product <? 4.0)%float) with true.
    split; [do 2 eexists; reflexivity | eexists; reflexivity]. }
  split; [exact Hin|]. split; [reflexivity|]. split; [exact Hsrc|].
  exact (proj2 (proj2 (proj2 (open_clouds_shadows_raises cloudless_product
                                [CLOUDS; SHADOWS] start Hin))) eq_refl Hsrc).
Defined.

(** C5, as stated, fails: the detector footprint layer is empty, but with
    a [QT_NODATA_PIXELS] polygon in the NODATA layer
    [_manage_invalid_pixels_lt_4_0] does not hand out the mask of the zero
    pixels: the statement [mask[mask_pix] = self._mask_true] takes the
    entries of [mask_pix] for positions along the first axis of [mask],
    which has one band only, and raises [IndexError]. *)
Lemma manage_invalid_pixels_with_nodata_polygon :
  fst (_open_mask_lt_4_0 (footprintless_product nodata_layer)
         S2GmlMasks.FOOTPRINT (BandArg RED) start) = Return empty_layer /\
  len empty_layer = 0 /\
  fst (_manage_invalid_pixels_lt_4_0 (footprintless_product nodata_layer)
         two_pixels RED start) = Raise IndexError.
Proof.
  split; [reflexivity|]. split; reflexivity.
Qed.

Lemma empty_footprint_marks_zero_pixels_witness :
  exists w1,
    _open_mask_lt_4_0 (footprintless_product empty_layer)
      S2GmlMasks.FOOTPRINT (BandArg RED) start = (Return empty_layer, w1) /\
    len empty_layer = 0 /\
    exists w', _manage_nodata_lt_4_0 (footprintless_product empty_layer)
                 two_pixels RED start
               = (Return (_set_nodata_mask two_pixels (zero_mask two_pixels)), w')
               /\ log w' = log start ++ [detfoo_warning].
Proof.
  eexists. split; [reflexivity|]. split; [reflexivity|].
  exact (proj1 (empty_footprint_marks_zero_pixels
                  (footprintless_product empty_layer) two_pixels RED start _
                  empty_layer eq_refl eq_refl)).
Defined.

Lemma crs_from_tile_name_witness :
  exists w',
    crs l2ap_product start = (CRS_from_string (Some "epsg:32630"), w') /\
    io w' = io start ++ [ReadXml "GRANULE/*/*.xml"] /\
    memo_crs (obj w') = match CRS_from_string (Some "epsg:32630") with
                        | Return c => Some c
                        | Raise _ => None
                        end.
Proof.
  exact (crs_from_tile_name l2ap_product start "epsg:32630"
           eq_refl eq_refl eq_refl eq_refl).
Defined.

Lemma get_mean_sun_angles_reads_metadata_witness :
  exists w',
    get_mean_sun_angles sunny_product start
    = (Return (149.25, 32.5)%float, w') /\
    log w' = log start /\
    get_mean_sun_angles sunny_product w' = (Return (149.25, 32.5)%float, w').
Proof.
  exact (get_mean_sun_angles_reads_metadata sunny_product start sunny_mtd
           (mkElement "Mean_Sun_Angle" [] None
              [leaf "ZENITH_ANGLE" "32.5"; leaf "AZIMUTH_ANGLE" "149.25"])
           32.5%float 149.25%float eq_refl eq_refl eq_refl eq_refl eq_refl).
Defined.

Lemma get_mean_sun_angles_uncaught_witness :
  exists msg w',
    get_mean_sun_angles malformed_product start = (Raise (AttributeError msg), w')
    /\ log w' = log start.
Proof.
  exact (proj1 (get_mean_sun_angles_uncaught malformed_product start malformed_mtd
                  eq_refl eq_refl) eq_refl).
Defined.

Lemma open_mask_lt_4_0_wraps_errors_witness :
  exists msg,
    fst (_open_mask_lt_4_0 degraded_product S2GmlMasks.FOOTPRINT (BandArg RED) start)
    = Raise (InvalidProductError msg).
Proof.
  destruct (_open_mask_lt_4_0 degraded_product S2GmlMasks.FOOTPRINT (BandArg RED)
              start) as [[mask|e] w'] eqn:Hrun.
  - vm_compute in Hrun. discriminate Hrun.
  - destruct (open_mask_lt_4_0_wraps_errors degraded_product S2GmlMasks.FOOTPRINT
                (BandArg RED) start w' e) as [msg ->].
    + right. vm_compute. eexists; reflexivity.
    + exact Hrun.
    + exists msg. reflexivity.
Defined.

Lemma defect_layers_same_but_dropped (nodata : GeoDataFrame) :
  same_but_dropped_layers (layers nodata) (defect_layers nodata).
Proof.
  intros mask band. unfold defect_layers.
  destruct (String.eqb mask "DEFECT" && String.eqb band "04")%bool eqn:Hd;
    [|left; reflexivity].
  apply andb_prop in Hd. destruct Hd as [Hm Hb].
  apply String.eqb_eq in Hm, Hb. subst. right.
  split; [reflexivity|]. do 2 eexists. split; reflexivity.
Qed.

Lemma manage_invalid_pixels_lt_4_0_drops_quality_layers_witness :
  _manage_invalid_pixels_lt_4_0
    (with_gml_masks (footprintless_product empty_layer) (defect_layers empty_layer))
    two_pixels RED start
  = _manage_invalid_pixels_lt_4_0 (footprintless_product empty_layer)
      two_pixels RED start.
Proof.
  exact (manage_invalid_pixels_lt_4_0_drops_quality_layers
           (footprintless_product empty_layer) (defect_layers empty_layer)
           two_pixels RED start (defect_layers_same_but_dropped empty_layer)).
Defined.

Lemma open_clouds_returns_requested_bands_witness :
  exists d w',
    _open_clouds cloudless_product [CLOUDS; ALL_CLOUDS] start = (Return d, w')
    /\ holds_exactly [CLOUDS; ALL_CLOUDS] d.
Proof.
  apply (open_clouds_returns_requested_bands cloudless_product
           [CLOUDS; ALL_CLOUDS] start).
  - repeat constructor.
  - unfold cloud_sources_readable.
    change ((_processing_baseline cloudless_product <? 4.0)%float) with true.
    split; [do 2 eexists; reflexivity | eexists; reflexivity].
Defined.

End s2_spec.

(** ** Sentinel-3 ([s3_product.py]) *)
Module s3_spec.

Import xr s3_product s3_terms.

Section WithCollaborators.

Context `{Collaborators}.

Lemma read_nc_run (self : S3Product) (filename subdataset : string)
    (w : World unit) :
  exists r, _read_nc self filename subdataset w
            = (r, after_access (nc_event filename subdataset) w)
            /\ forall w', fst (_read_nc self filename subdataset w') = r.
Proof.
  unfold _read_nc, bind, access.
  destruct (nc_files self filename subdataset) as [nc|];
    eexists; (split; [reflexivity | intros w'; reflexivity]).
Qed.

(** [crs] is not memoized: its value does not depend on the world it runs
    in, so that two calls give the same value. *)
Lemma crs_same_value (self : S3Product) (w w' : World unit) :
  fst (crs self w) = fst (crs self w').
Proof.
  unfold crs, bind, _read_nc, access, lift, raise.
  destruct (nc_files self (_tie_geo_file self) (_tie_lat_nc_name self)) as [lat|];
    [|reflexivity].
  destruct (nc_files self (_tie_geo_file self) (_tie_lon_nc_name self)) as [lon|];
    [|reflexivity].
  simpl. destruct (negb _); [reflexivity|].
  destruct (item _ _ _); [|reflexivity].
  destruct (item _ _ _); reflexivity.
Qed.

(** Every call that returns has opened the latitude and the longitude
    grid. *)
Lemma crs_reads_both_grids (self : S3Product) (w w1 : World unit) (c : CRS) :
  crs self w = (Return c, w1) ->
  io w1 = io w ++ [nc_event (_tie_geo_file self) (_tie_lat_nc_name self);
                   nc_event (_tie_geo_file self) (_tie_lon_nc_name self)].
Proof.
  unfold crs, bind, _read_nc, access, lift, raise, nc_event.
  destruct (nc_files self (_tie_geo_file self) (_tie_lat_nc_name self)) as [lat|];
    [|discriminate].
  destruct (nc_files self (_tie_geo_file self) (_tie_lon_nc_name self)) as [lon|];
    [|discriminate].
  simpl. destruct (negb _); [discriminate|].
  destruct (item _ _ _); [|discriminate].
  destruct (item _ _ _); [|discriminate].
  intros Hcall. apply (f_equal snd) in Hcall. simpl in Hcall. subst w1.
  simpl. rewrite <- app_assoc. reflexivity.
Qed.

Lemma s3_load_bands_nothing (self : S3Product) (resolution : option float)
    (size : option (Z * Z)) (w : World unit) :
  _load_bands self [] resolution size w = (Return ∅, w).
Proof. reflexivity. Qed.

End WithCollaborators.

(** *** The footprint *)

Lemma column_cells (plane : list (list float)) (j w : nat) :
  Forall (fun row => length row = w) plane ->
  j < w ->
  exists col, column plane j = Return col /\
              Forall2 (fun row x => row !! j = Some x) plane col.
Proof.
  intros Hrows Hj. induction Hrows as [|row plane Hrow _ (col & Hcol & Hcells)].
  - exists []. split; [reflexivity | constructor].
  - destruct (lookup_lt_is_Some_2 row j) as [x Hx]; [lia|].
    exists (x :: col). unfold column in *. simpl.
    unfold list_getitem at 1. rewrite Hx. simpl. rewrite Hcol. simpl.
    split; [reflexivity | constructor; assumption].
Qed.

Lemma last_zip {A B} (l : list A) (k : list B) :
  length l = length k ->
  last (zip l k) = match last l, last k with
                   | Some a, Some b => Some (a, b)
                   | _, _ => None
                   end.
Proof.
  intros Hlen. rewrite !last_lookup, lookup_zip_with, length_zip_with, <- Hlen.
  rewrite Nat.min_id.
  destruct (l !! pred (length l)) as [a|] eqn:Ha; simpl.
  - destruct (k !! pred (length l)) as [b|] eqn:Hb; simpl; reflexivity.
  - apply lookup_ge_None in Ha.
    destruct (k !! pred (length l)) as [b|] eqn:Hb; [|reflexivity].
    apply lookup_lt_Some in Hb. destruct l; simpl in *; [|lia].
    destruct k; simpl in *; [lia | discriminate].
Qed.

(** X18. On tie-point grids of [h] rows and [w] columns, with [h] and [w]
    positive, the vertices [footprint] hands to [Polygon] are [2 (w + h)]
    points that walk the border of the grid, and the ring closes: its
    first and its last vertex are both the tie point of row 0 and column
    0, longitude first. *)
Theorem footprint_ring_closes (lat lon : DataArray) (h w : nat) :
  0 < h -> 0 < w -> grid h w lat -> grid h w lon ->
  exists vertex corner,
    footprint_vertices lat lon = Return vertex /\
    length vertex = 2 * (w + h) /\
    head vertex = Some corner /\ last vertex = Some corner /\
    pixel (data lon) 0 0 0 = Some (fst corner) /\
    pixel (data lat) 0 0 0 = Some (snd corner).
Proof.
  intros Hh Hw (lat0 & lat_rest & Hlat & Hlat_h & Hlat_w)
    (lon0 & lon_rest & Hlon & Hlon_h & Hlon_w).
  destruct lat0 as [|lat_top lat0']; [simpl in Hlat_h; lia|].
  destruct lon0 as [|lon_top lon0']; [simpl in Hlon_h; lia|].
  pose proof (Forall_inv Hlat_w) as Hlat_top. pose proof (Forall_inv Hlon_w) as Hlon_top.
  simpl in Hlat_top, Hlon_top.
  destruct (column_cells _ (w - 1) w Hlon_w) as (lon_right & Hlon_right & Hlon_rc); [lia|].
  destruct (column_cells _ (w - 1) w Hlat_w) as (lat_right & Hlat_right & Hlat_rc); [lia|].
  destruct (lookup_lt_is_Some_2 (lon_top :: lon0') (h - 1)) as [lon_bottom Hlon_bottom];
    [lia|].
  destruct (lookup_lt_is_Some_2 (lat_top :: lat0') (h - 1)) as [lat_bottom Hlat_bottom];
    [lia|].
  assert (Hlon_rev : Forall (fun row => length row = w) (reverse (lon_top :: lon0')))
    by (apply Forall_reverse; exact Hlon_w).
  assert (Hlat_rev : Forall (fun row => length row = w) (reverse (lat_top :: lat0')))
    by (apply Forall_reverse; exact Hlat_w).
  destruct (column_cells _ 0 w Hlon_rev Hw) as (lon_left & Hlon_left & Hlon_lc).
  destruct (column_cells _ 0 w Hlat_rev Hw) as (lat_left & Hlat_left & Hlat_lc).
  destruct (lookup_lt_is_Some_2 lon_top 0) as [x Hx]; [lia|].
  destruct (lookup_lt_is_Some_2 lat_top 0) as [y Hy]; [lia|].
  exists (zip lon_top lat_top ++ zip lon_right lat_right
          ++ zip (reverse lon_bottom) (reverse lat_bottom)
          ++ zip lon_left lat_left), (x, y).
  split.
  { assert (Hwl : last_index w = Return (w - 1))
      by (destruct w; [lia | simpl; f_equal; lia]).
    assert (Hhl : last_index h = Return (h - 1))
      by (destruct h; [lia | simpl; f_equal; lia]).
    unfold footprint_vertices, rio_width. rewrite Hlon, Hlat.
    cbn [list_getitem lookup list_lookup rbind length].
    rewrite Hlon_top, Hlat_top, Hwl. cbn [rbind].
    rewrite Hlon_right, Hlat_right. cbn [rbind].
    change (Datatypes.S (length lon0')) with (length (lon_top :: lon0')).
    change (Datatypes.S (length lat0')) with (length (lat_top :: lat0')).
    rewrite Hlon_h, Hlat_h, Hhl. cbn [rbind].
    unfold list_getitem. rewrite Hlon_bottom, Hlat_bottom. cbn [rbind].
    rewrite Hlon_left, Hlat_left. cbn [rbind].
    rewrite <- !app_assoc. reflexivity. }
  assert (Hlen_right : length lon_right = h /\ length lat_right = h).
  { apply Forall2_length in Hlon_rc, Hlat_rc. split; congruence. }
  assert (Hlen_left : length lon_left = h /\ length lat_left = h).
  { apply Forall2_length in Hlon_lc, Hlat_lc.
    rewrite length_reverse in Hlon_lc, Hlat_lc. split; congruence. }
  assert (Hlen_bottom : length lon_bottom = w /\ length lat_bottom = w).
  { split.
    - rewrite Forall_lookup in Hlon_w. exact (Hlon_w _ _ Hlon_bottom).
    - rewrite Forall_lookup in Hlat_w. exact (Hlat_w _ _ Hlat_bottom). }
  split; [|split; [|split; [|split]]].
  - rewrite !length_app, !length_zip_with, !length_reverse.
    destruct Hlen_right, Hlen_left, Hlen_bottom. lia.
  - rewrite head_app. destruct lon_top as [|x' lon_top']; [discriminate Hx|].
    destruct lat_top as [|y' lat_top']; [discriminate Hy|].
    simpl in Hx, Hy. injection Hx as ->. injection Hy as ->. reflexivity.
  - rewrite !last_app.
    rewrite (last_zip lon_left lat_left) by (destruct Hlen_left; congruence).
    apply Forall2_last in Hlon_lc, Hlat_lc.
    rewrite last_reverse in Hlon_lc, Hlat_lc. simpl in Hlon_lc, Hlat_lc.
    inversion Hlon_lc as [row x0 Hx0 Hrow Hlast|]; subst.
    inversion Hlat_lc as [row' y0 Hy0 Hrow' Hlast'|]; subst.
    rewrite Hx in Hx0. rewrite Hy in Hy0.
    injection Hx0 as <-. injection Hy0 as <-. reflexivity.
  - unfold pixel. rewrite Hlon. simpl. exact Hx.
  - unfold pixel. rewrite Hlat. simpl. exact Hy.
Qed.

Section FootprintReads.

Context `{Collaborators}.
Variable Frame : Type.
Variable polygon_frame : list (float * float) -> result Frame.
Variable to_crs : Frame -> CRS -> result Frame.

(** X19. A call of [footprint] that returns has opened the latitude and
    the longitude grid twice each: once for the vertices and once more
    through [crs()], which is not memoized. *)
Theorem footprint_opens_each_grid_twice (self : S3Product) (w w1 : World unit)
    (frame : Frame) :
  footprint Frame polygon_frame to_crs self w = (Return frame, w1) ->
  io w1 = io w ++ [nc_event (_tie_geo_file self) (_tie_lat_nc_name self);
                   nc_event (_tie_geo_file self) (_tie_lon_nc_name self);
                   nc_event (_tie_geo_file self) (_tie_lat_nc_name self);
                   nc_event (_tie_geo_file self) (_tie_lon_nc_name self)].
Proof.
  unfold footprint. unfold bind at 1.
  destruct (read_nc_run self (_tie_geo_file self) (_tie_lat_nc_name self) w)
    as (rlat & -> & _).
  destruct rlat as [lat|e]; [|discriminate].
  unfold bind at 1.
  destruct (read_nc_run self (_tie_geo_file self) (_tie_lon_nc_name self)
              (after_access (nc_event (_tie_geo_file self) (_tie_lat_nc_name self)) w))
    as (rlon & -> & _).
  destruct rlon as [lon|e]; [|discriminate].
  destruct (negb _); [discriminate|].
  unfold bind at 1. unfold lift at 1.
  destruct (footprint_vertices lat lon) as [vertex|e]; [|discriminate].
  unfold bind at 1. unfold lift at 1.
  destruct (polygon_frame vertex) as [extent|e]; [|discriminate].
  unfold bind at 1.
  match goal with
  | |- context [crs self ?w0] => destruct (crs self w0) as [[utm|e] w2] eqn:Hcrs
  end; [|discriminate].
  apply crs_reads_both_grids in Hcrs.
  unfold lift. destruct (to_crs extent utm); [|discriminate].
  intros [= _ <-]. rewrite Hcrs. simpl. rewrite <- !app_assoc. reflexivity.
Qed.

End FootprintReads.

(** *** The acquisition date *)

Lemma descendants_of_leaves (t : string) (a : list (string * string))
    (x : option string) (cs : list Element) :
  Forall (fun c => children c = []) cs ->
  descendants (mkElement t a x cs) = cs.
Proof.
  intros Hleaves. simpl.
  induction Hleaves as [|c cs Hc _ IH]; [reflexivity|].
  rewrite IH. destruct c as [tc ac xc csc]. simpl in Hc. subst csc. reflexivity.
Qed.

Lemma global_attr_leaves netcdf_ds names :
  Forall (fun c => children c = []) (global_attr netcdf_ds names).
Proof.
  induction names as [|n names IH]; simpl; [constructor|].
  destruct (netcdf_ds !! n); simpl; [constructor; [reflexivity | exact IH] | exact IH].
Qed.

(** Among the elements built from names without a repetition, the first
    one tagged [t] is the attribute [t], when [t] is a name and the
    dataset has it. *)
Lemma global_attr_filter netcdf_ds names (t : string) :
  NoDup names ->
  head (List.filter (fun c => String.eqb (tag c) t) (global_attr netcdf_ds names))
  = if bool_decide (t ∈ names)
    then (fun value => leaf t value) <$> netcdf_ds !! t
    else None.
Proof.
  induction 1 as [|n names Hn _ IH]; [reflexivity|].
  unfold global_attr in *. simpl. rewrite List.filter_app.
  destruct (decide (n = t)) as [-> | Hne].
  - rewrite bool_decide_eq_true_2 by (left).
    destruct (netcdf_ds !! t) as [value|] eqn:Hv; simpl.
    + rewrite String.eqb_refl. reflexivity.
    + rewrite IH. rewrite bool_decide_eq_false_2 by exact Hn. reflexivity.
  - assert (Hhead : List.filter (fun c => String.eqb (tag c) t)
                      (match netcdf_ds !! n with
                       | Some value => [leaf n value]
                       | None => []
                       end) = []).
    { destruct (netcdf_ds !! n); simpl; [|reflexivity].
      destruct (String.eqb_spec n t); [contradiction | reflexivity]. }
    rewrite Hhead. simpl. rewrite IH.
    destruct (decide (t ∈ names)) as [Hin | Hnin].
    + rewrite !bool_decide_eq_true_2; [reflexivity | right; exact Hin | exact Hin].
    + rewrite !bool_decide_eq_false_2; [reflexivity | | exact Hnin].
      intros Hin. apply elem_of_cons in Hin. destruct Hin as [-> | Hin]; contradiction.
Qed.

Lemma start_time_of_global_attributes (netcdf_ds : gmap string string) :
  findtext (Descendant "start_time") (global_attributes_xml netcdf_ds)
  = netcdf_ds !! "start_time".
Proof.
  unfold global_attributes_xml, findtext, find, findall.
  rewrite descendants_of_leaves by apply global_attr_leaves.
  rewrite global_attr_filter
    by (apply (bool_decide_unpack (NoDup global_attr_names)); vm_compute;
        exact I).
  replace (bool_decide ("start_time" ∈ global_attr_names)) with true
    by (vm_compute; reflexivity).
  destruct (netcdf_ds !! "start_time"); reflexivity.
Qed.

Section MetadataSpec.

Variable global_attributes : S3Product -> option (gmap string string).
Variable reparse : Element -> Element.
Variable datetime : Type.
Variable strptime : string -> string -> result datetime.
Variable strftime : datetime -> string -> string.

(** X20. [get_datetime] parses the [start_time] attribute of the geometry
    file and returns the date, formatted unless [as_datetime] is set. When
    the file has no [start_time] attribute, [findtext] gives [None] without
    raising, so that the [except TypeError] clause and its
    [InvalidProductError] are never reached and the [TypeError] of
    [strptime(None, ...)] goes to the caller; an error of [strptime] on
    the text goes to the caller as well. The file is opened once. *)
Theorem s3_get_datetime_needs_start_time (self : S3Product) (as_datetime : bool)
    (w : World unit) (netcdf_ds : gmap string string) :
  global_attributes self = Some netcdf_ds ->
  keeps_start_time reparse netcdf_ds ->
  get_datetime global_attributes reparse datetime strptime strftime self
    as_datetime w =
  (match netcdf_ds !! "start_time" with
   | None => Raise TypeError
   | Some acq_date =>
       match strptime acq_date "%Y-%m-%dT%H:%M:%S.%fZ" with
       | Return date =>
           Return (if as_datetime then inr date
                   else inl (strftime date DATETIME_FMT))
       | Raise e => Raise e
       end
   end, after_access (ReadRaster (_tie_geo_file self)) w).
Proof.
  intros Hds Hkeeps.
  unfold get_datetime, read_mtd, _read_mtd. unfold bind at 1. rewrite Hds.
  unfold bind at 1. unfold access at 1. unfold ret at 1.
  unfold bind at 1. unfold try_except at 1. unfold ret at 1.
  fold (global_attributes_xml netcdf_ds).
  unfold keeps_start_time in Hkeeps.
  rewrite Hkeeps, start_time_of_global_attributes.
  unfold bind, lift, strptime_on, ret, after_access.
  destruct (netcdf_ds !! "start_time") as [acq_date|]; [|reflexivity].
  destruct (strptime acq_date _) as [date|e]; [|reflexivity].
  destruct as_datetime; reflexivity.
Qed.

End MetadataSpec.

#[local] Existing Instance reference.

(** C3, as stated, fails: [S3Product.crs] is not memoized. Two calls in a
    row return the same CRS, and each opens the two tie-point grids: four
    reads, not one. (The CRS is the one of zone 38: [crs] hands the
    latitude 43.5 of the tie point to the library where it takes the
    longitude.) *)
Lemma crs_twice_reads_four_times :
  fst (crs olci_product start) = Return (mkCRS "EPSG:32638") /\
  fst (crs olci_product (snd (crs olci_product start)))
  = Return (mkCRS "EPSG:32638") /\
  io (snd (crs olci_product (snd (crs olci_product start))))
  = [ReadRaster "netcdf:tie_geo_coordinates.nc:latitude";
     ReadRaster "netcdf:tie_geo_coordinates.nc:longitude";
     ReadRaster "netcdf:tie_geo_coordinates.nc:latitude";
     ReadRaster "netcdf:tie_geo_coordinates.nc:longitude"].
Proof.
  split; [reflexivity|]. split; reflexivity.
Qed.

Lemma footprint_ring_closes_witness :
  exists vertex corner,
    footprint_vertices lat_2_3 lon_2_3 = Return vertex /\
    length vertex = 2 * (3 + 2) /\
    head vertex = Some corner /\ last vertex = Some corner /\
    pixel (data lon_2_3) 0 0 0 = Some (fst corner) /\
    pixel (data lat_2_3) 0 0 0 = Some (snd corner).
Proof.
  apply (footprint_ring_closes lat_2_3 lon_2_3 2 3); [lia | lia | |];
    (do 2 eexists; split; [reflexivity|]; split; [reflexivity|];
     repeat constructor).
Defined.

Lemma footprint_opens_each_grid_twice_witness :
  io (snd (footprint _ vertices_frame keep_frame olci_product start))
  = [ReadRaster "netcdf:tie_geo_coordinates.nc:latitude";
     ReadRaster "netcdf:tie_geo_coordinates.nc:longitude";
     ReadRaster "netcdf:tie_geo_coordinates.nc:latitude";
     ReadRaster "netcdf:tie_geo_coordinates.nc:longitude"].
Proof.
  destruct (footprint _ vertices_frame keep_frame olci_product start)
    as [[frame|e] w1] eqn:Hrun.
  - exact (footprint_opens_each_grid_twice _ vertices_frame keep_frame
             olci_product start w1 frame Hrun).
  - vm_compute in Hrun. discriminate Hrun.
Defined.

Lemma s3_get_datetime_needs_start_time_witness :
  get_datetime no_attributes (fun mtd => mtd) string text_clock text_format
    olci_product false start
  = (Raise TypeError, after_access (ReadRaster "tie_geo_coordinates.nc") start).
Proof.
  exact (s3_get_datetime_needs_start_time no_attributes (fun mtd => mtd) string
           text_clock text_format olci_product false start ∅ eq_refl eq_refl).
Defined.

End s3_spec.

(** ** Properties shared by the products *)
Module product_spec.

(** C3, amended. On a Sentinel-2 product a call of [crs] that returned is
    memoized: the next call returns the same value and leaves the world as
    it was, so that it reads nothing, and at most one file was read over
    the two calls. On a Sentinel-3 product two calls in a row return the
    same outcome, but every call that returns opens the latitude and the
    longitude grid again. *)
Theorem crs_twice `{s2_product.Collaborators} `{s3_product.Collaborators}
    (s2 : s2_product.S2Product) (w w1 : World s2_product.S2State) (c : CRS)
    (s3 : s3_product.S3Product) (w3 : World unit) :
  s2_product.crs s2 w = (Return c, w1) ->
  (s2_product.crs s2 w1 = (Return c, w1)
   /\ length (io w1) <= length (io w) + 1) /\
  fst (s3_product.crs s3 (snd (s3_product.crs s3 w3)))
  = fst (s3_product.crs s3 w3) /\
  (forall c3 w3' c3' w3'',
      s3_product.crs s3 w3 = (Return c3, w3') ->
      s3_product.crs s3 w3' = (Return c3', w3'') ->
      c3' = c3 /\ length (io w3'') = length (io w3) + 4).
Proof.
  intros Hcall. split; [exact (s2_spec.crs_memoized s2 w w1 c Hcall)|].
  split; [apply s3_spec.crs_same_value|].
  intros c3 w3' c3' w3'' Hfirst Hsecond. split.
  - pose proof (s3_spec.crs_same_value s3 w3 w3') as Hsame.
    rewrite Hfirst, Hsecond in Hsame. simpl in Hsame. congruence.
  - rewrite (s3_spec.crs_reads_both_grids s3 w3' w3'' c3' Hsecond).
    rewrite (s3_spec.crs_reads_both_grids s3 w3 w3' c3 Hfirst).
    rewrite !length_app. simpl. lia.
Qed.

Lemma crs_twice_witness :
  exists w1,
    @s2_product.crs s2_terms.reference s2_terms.degraded_product s2_terms.start
    = (Return (mkCRS "EPSG:32630"), w1) /\
    @s2_product.crs s2_terms.reference s2_terms.degraded_product w1
    = (Return (mkCRS "EPSG:32630"), w1) /\
    length (io w1) <= length (io s2_terms.start) + 1.
Proof.
  eexists. split; [reflexivity|].
  exact (proj1 (@crs_twice s2_terms.reference s3_terms.reference
                  s2_terms.degraded_product s2_terms.start _ (mkCRS "EPSG:32630")
                  s3_terms.olci_product s3_terms.start eq_refl)).
Defined.

(** C9. Asked for no band, [_load_bands] returns the empty mapping and
    leaves the world as it was: no path is resolved and nothing is read,
    whatever the resolution and the size, on Sentinel-2 and on Sentinel-3
    products alike. *)
Theorem load_bands_of_nothing `{s2_product.Collaborators}
    `{s3_product.Collaborators}
    (s2 : s2_product.S2Product) (s3 : s3_product.S3Product)
    (resolution : option float) (size : option (Z * Z))
    (w2 : World s2_product.S2State) (w3 : World unit) :
  s2_product._load_bands s2 [] resolution size w2 = (Return ∅, w2) /\
  s3_product._load_bands s3 [] resolution size w3 = (Return ∅, w3).
Proof.
  split; reflexivity.
Qed.

End product_spec.

